(** * Signup-code lifecycle and status-transition engine of the WIL backend

    A shallow embedding of the route handlers of [server.js] that issue,
    validate and redeem one-time codes and that move applications and
    students between statuses, with the properties stated about them.

    Conventions of the embedding.

    - A table is the list of its rows, in storage order; a row carries the
      columns the embedded handlers read or write.  Surrogate keys of
      tables that are never addressed by key, and timestamps, are assigned
      by the engine and left out.
    - [pool.execute] acts on the database directly (autocommit);
      a [connection] carries the committed database and the working copy of
      its open transaction, which [commit] publishes and [rollback] discards
      (the tables are stored by a transactional engine).
    - A handler is a function from the database before the request to the
      response it sends (none when it throws out of its own [catch]) and
      the database after it.  What the outside
      world contributes to one request (random codes, the password digest,
      the clock, a failing statement or mail transport) is an explicit
      argument.
    - Calendar dates are day numbers. *)

From Stdlib Require Import String Ascii List ZArith Bool Lia DecimalString.
Import ListNotations.

Local Open Scope string_scope.
Local Open Scope list_scope.
Local Open Scope Z_scope.

(** ** JavaScript values, errors and responses *)

Inductive jsval : Type :=
| JNull
| JBool (b : bool)
| JNum (n : Z)
| JStr (s : string)
| JDate (day : Z)
| JRow (columns : list (string * option string)).

(** [res.status(http_status).json(body)]; a property whose value is
    [undefined] is dropped by the serializer and is absent from [body]. *)
Record response : Type := json {
  http_status : Z;
  body : list (string * jsval)
}.

Fixpoint assoc (k : string) (l : list (string * jsval)) : option jsval :=
  match l with
  | [] => None
  | (k', v) :: l' => if String.eqb k k' then Some v else assoc k l'
  end.

Definition field (k : string) (r : response) : option jsval := assoc k (body r).

(** A thrown [Error]: [error.code] (set by the database driver) and
    [error.message]. *)
Record js_error : Type := Error {
  err_code : option string;
  err_message : string
}.

(** [!v] for a request property that is a string or missing. *)
Definition falsy (v : option string) : bool :=
  match v with
  | None => true
  | Some s => String.eqb s EmptyString
  end.

(** Template-literal rendering of a number. *)
Definition string_of_Z (n : Z) : string := NilZero.string_of_int (Z.to_int n).

(** ** Awaited computations: state and exceptions *)

Inductive outcome (A : Type) : Type :=
| Ret (a : A)
| Thrown (e : js_error).
Arguments Ret {A} a.
Arguments Thrown {A} e.

Definition M (S A : Type) : Type := S -> outcome A * S.

Definition ret {S A : Type} (a : A) : M S A := fun s => (Ret a, s).

Definition throw {S A : Type} (e : js_error) : M S A := fun s => (Thrown e, s).

Definition bind {S A B : Type} (m : M S A) (k : A -> M S B) : M S B :=
  fun s =>
    match m s with
    | (Ret a, s') => k a s'
    | (Thrown e, s') => (Thrown e, s')
    end.

(** [try { m } catch (error) { h error }]: the state reached when the
    exception was thrown is the one the handler continues from. *)
Definition try_catch {S A : Type} (m : M S A) (h : js_error -> M S A) : M S A :=
  fun s =>
    match m s with
    | (Ret a, s') => (Ret a, s')
    | (Thrown e, s') => h e s'
    end.

Definition gets {S A : Type} (f : S -> A) : M S A := fun s => (Ret (f s), s).

Definition modify {S : Type} (f : S -> S) : M S unit := fun s => (Ret tt, f s).

(** An awaited call that the outside world may make fail. *)
Definition may_fail {S : Type} (f : option js_error) : M S unit :=
  match f with
  | Some e => throw e
  | None => ret tt
  end.

Declare Scope monad_scope.
Delimit Scope monad_scope with monad.
Notation "x <- m ;; k" := (bind m (fun x => k))
  (at level 61, m at next level, right associativity) : monad_scope.
Notation "m ;; k" := (bind m (fun _ => k))
  (at level 61, right associativity) : monad_scope.
Local Open Scope monad_scope.

(** ** Tables *)

Record signup_code_row : Type := {
  sc_application_id : Z;
  sc_code : string;
  sc_first_names : string;
  sc_surname : string;
  sc_student_number : string;
  sc_level_of_study : string;
  sc_email : string
}.

Record student_user_row : Type := {
  su_email : string;
  su_title : string;
  su_password : string;
  su_status : option string
}.

Record user_row : Type := {
  u_email : string;
  u_title : string;
  u_password : string
}.

Record staff_code_row : Type := {
  stc_code : string;
  stc_staff_name : string;
  stc_staff_email : string
}.

Record application_row : Type := {
  app_id : Z;
  app_first_names : string;
  app_surname : string;
  app_email : string;
  app_student_number : string;
  app_level_of_study : string;
  app_status : string
}.

Record logsheet_row : Type := {
  ls_student_number : string;
  ls_log_date : Z
}.

Record guest_lecture_row : Type := {
  gl_id : Z;
  gl_register_status : string;
  gl_event_date : Z
}.

Record attendance_row : Type := {
  ea_event_id : Z;
  ea_student_id : Z;
  ea_attended : bool
}.

Record db : Type := {
  signup_codes : list signup_code_row;
  blocked_signups : list string;
  student_users : list student_user_row;
  users : list user_row;
  staff_codes : list staff_code_row;
  wil_application : list application_row;
  daily_logsheet : list logsheet_row;
  guest_lectures : list guest_lecture_row;
  event_attendance : list attendance_row
}.

Definition with_signup_codes (t : list signup_code_row) (d : db) : db :=
  {| signup_codes := t; blocked_signups := blocked_signups d;
     student_users := student_users d; users := users d;
     staff_codes := staff_codes d; wil_application := wil_application d;
     daily_logsheet := daily_logsheet d; guest_lectures := guest_lectures d;
     event_attendance := event_attendance d |}.

Definition with_blocked_signups (t : list string) (d : db) : db :=
  {| signup_codes := signup_codes d; blocked_signups := t;
     student_users := student_users d; users := users d;
     staff_codes := staff_codes d; wil_application := wil_application d;
     daily_logsheet := daily_logsheet d; guest_lectures := guest_lectures d;
     event_attendance := event_attendance d |}.

Definition with_student_users (t : list student_user_row) (d : db) : db :=
  {| signup_codes := signup_codes d; blocked_signups := blocked_signups d;
     student_users := t; users := users d;
     staff_codes := staff_codes d; wil_application := wil_application d;
     daily_logsheet := daily_logsheet d; guest_lectures := guest_lectures d;
     event_attendance := event_attendance d |}.

Definition with_users (t : list user_row) (d : db) : db :=
  {| signup_codes := signup_codes d; blocked_signups := blocked_signups d;
     student_users := student_users d; users := t;
     staff_codes := staff_codes d; wil_application := wil_application d;
     daily_logsheet := daily_logsheet d; guest_lectures := guest_lectures d;
     event_attendance := event_attendance d |}.

Definition with_staff_codes (t : list staff_code_row) (d : db) : db :=
  {| signup_codes := signup_codes d; blocked_signups := blocked_signups d;
     student_users := student_users d; users := users d;
     staff_codes := t; wil_application := wil_application d;
     daily_logsheet := daily_logsheet d; guest_lectures := guest_lectures d;
     event_attendance := event_attendance d |}.

Definition with_wil_application (t : list application_row) (d : db) : db :=
  {| signup_codes := signup_codes d; blocked_signups := blocked_signups d;
     student_users := student_users d; users := users d;
     staff_codes := staff_codes d; wil_application := t;
     daily_logsheet := daily_logsheet d; guest_lectures := guest_lectures d;
     event_attendance := event_attendance d |}.

Definition with_event_attendance (t : list attendance_row) (d : db) : db :=
  {| signup_codes := signup_codes d; blocked_signups := blocked_signups d;
     student_users := student_users d; users := users d;
     staff_codes := staff_codes d; wil_application := wil_application d;
     daily_logsheet := daily_logsheet d; guest_lectures := guest_lectures d;
     event_attendance := t |}.

(** ** Connections and transactions *)

Record connection : Type := {
  committed : db;
  working : db
}.

(** [pool.getConnection()] on database [d]. *)
Definition getConnection (d : db) : connection :=
  {| committed := d; working := d |}.

Definition beginTransaction (f : option js_error) : M connection unit :=
  may_fail f.

(** [connection.execute(q)]: the statement [q] runs on the working copy,
    unless the engine rejects the call with [f]. *)
Definition execute {A : Type} (f : option js_error) (q : M db A) : M connection A :=
  may_fail f ;;
  fun c =>
    match q (working c) with
    | (r, w) => (r, {| committed := committed c; working := w |})
    end.

Definition commit (f : option js_error) : M connection unit :=
  may_fail f ;;
  modify (fun c => {| committed := working c; working := working c |}).

Definition rollback : M connection unit :=
  modify (fun c => {| committed := committed c; working := committed c |}).

(** ** The handlers *)

Section Handlers.

(** The engine's comparison of two strings under the collation of the
    column ([=] in a [WHERE] clause and in a unique key), and its [LIKE]
    operator (text first, pattern second). *)
Variable sql_eqb : string -> string -> bool.
Variable sql_like : string -> string -> bool.

(** The column default of [student_users.status], which an [INSERT] that
    does not name the column stores. *)
Variable student_users_status_default : option string.

(** *** Statements on [signup_codes], [blocked_signups] and the account tables *)

(** [SELECT * FROM signup_codes WHERE code = ?] *)
Definition select_signup_codes (code : string) : M db (list signup_code_row) :=
  gets (fun d => filter (fun r => sql_eqb (sc_code r) code) (signup_codes d)).

(** [DELETE FROM signup_codes WHERE code = ?] *)
Definition delete_signup_codes (code : string) : M db unit :=
  modify (fun d =>
    with_signup_codes
      (filter (fun r => negb (sql_eqb (sc_code r) code)) (signup_codes d)) d).

(** The driver refuses a bind parameter that is [undefined]. *)
Definition bind_param (v : option string) : M db string :=
  match v with
  | Some s => ret s
  | None =>
      throw (Error None
        "Bind parameters must not contain undefined. To pass SQL NULL specify JS null")
  end.

Definition ER_DUP_ENTRY (value : string) : js_error :=
  Error (Some "ER_DUP_ENTRY") ("Duplicate entry '" ++ value ++ "' for key 'email'").

(** Modelled from the spec: the schema of [student_users] is not part of
    the sources.  The table has the unique key on [email] that the
    [ER_DUP_ENTRY] branch of the signup handler answers to.

    [INSERT INTO student_users (email, title, password) VALUES (?, ?, ?)] *)
Definition insert_student_user (email title : option string) (password : string)
  : M db unit :=
  e <- bind_param email ;;
  t <- bind_param title ;;
  dup <- gets (fun d => existsb (fun r => sql_eqb (su_email r) e) (student_users d)) ;;
  if dup then throw (ER_DUP_ENTRY e)
  else
    modify (fun d =>
      with_student_users
        (student_users d ++
          [{| su_email := e; su_title := t; su_password := password;
              su_status := student_users_status_default |}]) d).

(** Modelled from the spec: the schema of [users] is not part of the
    sources; unique key on [email], as for [student_users].

    [INSERT INTO users (email, title, password) VALUES (?, ?, ?)] *)
Definition insert_user (email title : option string) (password : string)
  : M db unit :=
  e <- bind_param email ;;
  t <- bind_param title ;;
  dup <- gets (fun d => existsb (fun r => sql_eqb (u_email r) e) (users d)) ;;
  if dup then throw (ER_DUP_ENTRY e)
  else
    modify (fun d =>
      with_users
        (users d ++ [{| u_email := e; u_title := t; u_password := password |}]) d).

(** *** [POST /api/student_signup] *)

Record signup_request : Type := {
  email : option string;
  title : option string;
  password : option string;
  code : option string
}.

Inductive signup_step : Type :=
| GetConnection
| BeginTransaction
| SelectCode
| InsertStudentUser
| InsertUser
| DeleteCode
| Commit.

(** What the outside world does during one signup request: which awaited
    database call fails (if any), the digest that the call number [n]
    (from 0) of [bcrypt.hash(password, 10)] in the request resolves to (each
    call draws its own salt, so two calls on one password give two digests),
    and whether [NODE_ENV] is ["development"]. *)
Record signup_env : Type := {
  fault : signup_step -> option js_error;
  digest : nat -> string -> string;
  development : bool
}.

(** The call number [call] of [bcrypt.hash(password, 10)] in the request;
    bcryptjs rejects anything but a string. *)
Definition bcrypt_hash {S : Type} (env : signup_env) (call : nat)
  (password : option string) : M S string :=
  match password with
  | Some p => ret (digest env call p)
  | None => throw (Error None "Illegal arguments: undefined, number")
  end.

Definition opt_str (v : option string) : jsval :=
  match v with
  | Some s => JStr s
  | None => JNull
  end.

(** The object [{ email, title }]; an [undefined] property is dropped. *)
Definition signup_data (req : signup_request) : jsval :=
  JRow (match email req with Some e => [("email", Some e)] | None => [] end ++
        match title req with Some t => [("title", Some t)] | None => [] end).

(** The [try] block. *)
Definition student_signup_try (env : signup_env) (req : signup_request)
  (code : string) : M connection response :=
  beginTransaction (fault env BeginTransaction) ;;
  codeRows <- execute (fault env SelectCode) (select_signup_codes code) ;;
  if (length codeRows =? 0)%nat then
    rollback ;;
    ret (json 400 [("message", JStr "Invalid or expired signup code")])
  else
    hashedPassword <- bcrypt_hash env 0%nat (password req) ;;
    execute (fault env InsertStudentUser)
      (insert_student_user (email req) (title req) hashedPassword) ;;
    execute (fault env InsertUser)
      (insert_user (email req) (title req) hashedPassword) ;;
    execute (fault env DeleteCode) (delete_signup_codes code) ;;
    commit (fault env Commit) ;;
    ret (json 201
      [("message", JStr "User registered successfully in both systems");
       ("data", signup_data req)]).

(** The [catch] block. *)
Definition student_signup_catch (env : signup_env) (error : js_error)
  : M connection response :=
  rollback ;;
  if match err_code error with
     | Some c => String.eqb c "ER_DUP_ENTRY"
     | None => false
     end
  then
    ret (json 400
      [("message", JStr "Email already exists in one or both systems");
       ("details", JStr (err_message error))])
  else
    ret (json 500
      (("message", JStr "Signup failed") ::
       if development env then [("error", JStr (err_message error))] else [])).

(** [try]/[catch] on a connection of the pool over database [d]: what the
    handler returns or throws, and the connection as [finally] releases it.
    The pool keeps a released connection open, with its session as it is:
    what a transaction left in [working] would be published by the next
    commit on that connection, the one implied by its next
    [START TRANSACTION] included. *)
Definition student_signup_transaction (env : signup_env) (req : signup_request)
  (code : string) (d : db) : outcome response * connection :=
  try_catch (student_signup_try env req code) (student_signup_catch env)
    (getConnection d).

(** The handler: the response it sends ([None] when its promise rejects
    before it has sent one) and the database once the connection is
    released. *)
Definition post_student_signup (env : signup_env) (req : signup_request) (d : db)
  : option response * db :=
  if falsy (code req) then
    (Some (json 400 [("message", JStr "Signup code is required")]), d)
  else
    match code req, fault env GetConnection with
    | Some c, None =>
        match student_signup_transaction env req c d with
        | (Ret r, conn) => (Some r, committed conn)
        | (Thrown _, conn) => (None, committed conn)
        end
    | _, _ => (None, d)
    end.

(** *** [POST /api/validate-signup-code] *)

(** [SELECT s.*, (SELECT 1 FROM blocked_signups WHERE email = s.email LIMIT 1)
     AS is_blocked FROM signup_codes s WHERE s.code = ?] *)
Definition select_signup_codes_is_blocked (code : string)
  : M db (list (signup_code_row * bool)) :=
  gets (fun d =>
    map (fun s => (s, existsb (fun b => sql_eqb b (sc_email s)) (blocked_signups d)))
        (filter (fun s => sql_eqb (sc_code s) code) (signup_codes d))).

Definition post_validate_signup_code (code : option string) (d : db)
  : option response * db :=
  if falsy code then
    (Some (json 400 [("success", JBool false); ("message", JStr "Code is required")]), d)
  else
    match code with
    | None => (None, d)
    | Some c =>
        match
          (rows <- select_signup_codes_is_blocked c ;;
           match rows with
           | [] =>
               ret (json 200 [("success", JBool false); ("message", JStr "Invalid code")])
           | codeEntry :: _ =>
               if snd codeEntry then
                 ret (json 200 [("success", JBool false);
                                ("message", JStr "This email is blocked from signing up")])
               else
                 ret (json 200 [("success", JBool true); ("message", JStr "Valid code")])
           end) d
        with
        | (Ret r, d') => (Some r, d')
        | (Thrown _, d') =>
            (Some (json 500 [("success", JBool false);
                             ("message", JStr "Server error during validation")]), d')
        end
    end.

(** *** [POST /api/block-signup-email] *)

(** [INSERT INTO blocked_signups (email) VALUES (?)] *)
Definition insert_blocked_signup (email : string) : M db unit :=
  modify (fun d => with_blocked_signups (blocked_signups d ++ [email]) d).

Definition post_block_signup_email (email : option string) (d : db)
  : option response * db :=
  if falsy email then
    (Some (json 400 [("success", JBool false); ("message", JStr "Email is required")]), d)
  else
    match email with
    | None => (None, d)
    | Some e =>
        match insert_blocked_signup e d with
        | (Ret _, d') =>
            (Some (json 200 [("success", JBool true);
                             ("message", JStr "Email has been blocked")]), d')
        | (Thrown _, d') =>
            (Some (json 500 [("success", JBool false); ("message", JStr "Server error")]), d')
        end
    end.

(** *** Outbound mail *)

(** [transporter.sendMail(mailOptions)] resolves, or rejects with the
    transport's error [mail]. *)
Definition sendMail {S : Type} (mail : option js_error) : M S unit := may_fail mail.

Definition email_failed : js_error :=
  Error None "Status updated but failed to send email".

Definition sendAcceptanceEmail {S : Type} (mail : option js_error)
  (to firstName code : string) : M S unit :=
  try_catch (sendMail mail) (fun emailError => throw email_failed).

Definition sendRejectionEmail {S : Type} (mail : option js_error)
  (to firstName : string) : M S unit :=
  try_catch (sendMail mail) (fun emailError => throw email_failed).

Definition sendStaffCodeEmail {S : Type} (mail : option js_error)
  (to staffName code : string) : M S unit :=
  try_catch (sendMail mail) (fun emailError => throw email_failed).

(** The status mails log a failure and resolve. *)
Definition sendSuspensionEmail {S : Type} (mail : option js_error) (to : string)
  : M S unit :=
  try_catch (sendMail mail) (fun error => ret tt).

Definition sendUnenrollEmail {S : Type} (mail : option js_error) (to : string)
  : M S unit :=
  try_catch (sendMail mail) (fun error => ret tt).

(** *** [PUT /api/update-status/:id] *)

Inductive status_step : Type :=
| StatusGetConnection
| StatusBeginTransaction
| SelectApplication
| UpdateApplication
| InsertSignupCode
| StatusCommit.

(** The outside world during one status update: failing database calls,
    the value of [generateRandomCode()], and the mail transport. *)
Record status_env : Type := {
  status_fault : status_step -> option js_error;
  generateRandomCode : string;
  status_mail : option js_error
}.

(** [SELECT id, first_names, surname, email, student_number, level_of_study
     FROM wil_application WHERE id = ?] *)
Definition select_application (id : Z) : M db (list application_row) :=
  gets (fun d => filter (fun a => app_id a =? id) (wil_application d)).

Definition set_app_status (status : string) (a : application_row) : application_row :=
  {| app_id := app_id a; app_first_names := app_first_names a;
     app_surname := app_surname a; app_email := app_email a;
     app_student_number := app_student_number a;
     app_level_of_study := app_level_of_study a; app_status := status |}.

(** [UPDATE wil_application SET status = ?, updated_at = NOW() WHERE id = ?];
    the result is [affectedRows]. *)
Definition update_application (status : string) (id : Z) : M db nat :=
  n <- gets (fun d => length (filter (fun a => app_id a =? id) (wil_application d))) ;;
  modify (fun d =>
    with_wil_application
      (map (fun a => if app_id a =? id then set_app_status status a else a)
           (wil_application d)) d) ;;
  ret n.

(** [INSERT INTO signup_codes (application_id, code, first_names, surname,
     student_number, level_of_study, email) VALUES (?, ?, ?, ?, ?, ?, ?)] *)
Definition insert_signup_code (r : signup_code_row) : M db unit :=
  modify (fun d => with_signup_codes (signup_codes d ++ [r]) d).

Definition valid_status (status : option string) : bool :=
  match status with
  | None => false
  | Some s =>
      negb (String.eqb s EmptyString) &&
      existsb (String.eqb s) ["Pending"; "Accepted"; "Rejected"]
  end.

Definition update_status_try (env : status_env) (id : Z) (status : string)
  : M connection response :=
  beginTransaction (status_fault env StatusBeginTransaction) ;;
  application <- execute (status_fault env SelectApplication) (select_application id) ;;
  match application with
  | [] =>
      rollback ;;
      ret (json 404 [("success", JBool false); ("message", JStr "Application not found")])
  | appData :: _ =>
      affectedRows <- execute (status_fault env UpdateApplication)
                        (update_application status id) ;;
      if (affectedRows =? 0)%nat then
        rollback ;;
        ret (json 500 [("success", JBool false); ("message", JStr "No rows were updated")])
      else
        generatedCode <-
          (if String.eqb status "Accepted" then
             let generatedCode := generateRandomCode env in
             execute (status_fault env InsertSignupCode)
               (insert_signup_code
                  {| sc_application_id := id; sc_code := generatedCode;
                     sc_first_names := app_first_names appData;
                     sc_surname := app_surname appData;
                     sc_student_number := app_student_number appData;
                     sc_level_of_study := app_level_of_study appData;
                     sc_email := app_email appData |}) ;;
             sendAcceptanceEmail (status_mail env) (app_email appData)
               (app_first_names appData) generatedCode ;;
             ret (Some generatedCode)
           else if String.eqb status "Rejected" then
             sendRejectionEmail (status_mail env) (app_email appData)
               (app_first_names appData) ;;
             ret None
           else ret None) ;;
        commit (status_fault env StatusCommit) ;;
        ret (json 200
          [("success", JBool true);
           ("message", JStr "Status updated successfully");
           ("newStatus", JStr status);
           ("code", opt_str generatedCode);
           ("changes", JNum (Z.of_nat affectedRows))])
  end.

Definition database_operation_failed (error : js_error) : response :=
  json 500
    [("success", JBool false);
     ("message", JStr "Database operation failed");
     ("errorDetails", JStr (err_message error))].

Definition update_status_catch (error : js_error) : M connection response :=
  rollback ;;
  ret (database_operation_failed error).

Definition put_update_status (env : status_env) (id : Z) (status : option string)
  (d : db) : option response * db :=
  if negb (valid_status status) then
    (Some (json 400 [("success", JBool false); ("message", JStr "Invalid status value")]), d)
  else
    match status, status_fault env StatusGetConnection with
    | Some s, None =>
        match try_catch (update_status_try env id s) update_status_catch
                (getConnection d) with
        | (Ret r, conn) => (Some r, committed conn)
        | (Thrown _, conn) => (None, committed conn)
        end
    | _, Some error =>
        (* [connection] is still undefined in the catch block: no rollback *)
        (Some (database_operation_failed error), d)
    | None, None => (None, d)
    end.

(** *** [POST /api/staff_codes] *)

(** The class [\s] of a regular expression, which is also what
    [String.prototype.trim] strips: the white space and line terminators of
    the language.  A character of a string stands for the code unit with its
    number, U+0000 to U+00FF; of these the class holds U+0009 to U+000D,
    U+0020 and U+00A0 (U+0085 is not in it). *)
Definition is_space (c : ascii) : bool :=
  existsb (Ascii.eqb c) ["009"; "010"; "011"; "012"; "013"; " "; "160"]%char.

(** The class [[^\s@]]. *)
Definition not_space_or_at (c : ascii) : bool :=
  negb (is_space c) && negb (Ascii.eqb c "@").

Fixpoint split_at (sep : ascii) (s : list ascii) : option (list ascii * list ascii) :=
  match s with
  | [] => None
  | c :: s' =>
      if Ascii.eqb c sep then Some ([], s')
      else
        match split_at sep s' with
        | Some (l, r) => Some (c :: l, r)
        | None => None
        end
  end.

(** [/^[^\s@]+@[^\s@]+\.[^\s@]+$/.test(s)], on strings of one-byte
    characters: one [@], no white space, a non-empty local part, and a dot
    inside the domain with a character on either side. *)
Definition emailRegex_test (s : string) : bool :=
  match split_at "@" (list_ascii_of_string s) with
  | Some (l, r) =>
      negb (length l =? 0)%nat && forallb not_space_or_at l &&
      forallb not_space_or_at r &&
      existsb (Ascii.eqb ".") (removelast (tl r))
  | None => false
  end.

(** The outside world during one staff-code request: [generateStaffCode k]
    is what the generator returns on its call number [k] (from 0), and the
    mail transport. *)
Record staff_env : Type := {
  generateStaffCode : nat -> string;
  staff_mail : option js_error
}.

(** The variables of the retry loop, and the number of generator calls
    made so far. *)
Record code_search : Type := {
  search_code : option string;
  isUnique : bool;
  attempts : nat;
  calls : nat
}.

Definition maxAttempts : nat := 5.

Definition search_start : code_search :=
  {| search_code := None; isUnique := false; attempts := 0; calls := 0 |}.

(** The loop condition [!isUnique && attempts < maxAttempts]. *)
Definition search_again (st : code_search) : bool :=
  negb (isUnique st) && (attempts st <? maxAttempts)%nat.

(** One iteration of the loop body. *)
Definition search_body (env : staff_env) (d : db) (st : code_search) : code_search :=
  let code := generateStaffCode env (calls st) in
  let existing := filter (fun r => sql_eqb (stc_code r) code) (staff_codes d) in
  {| search_code := Some code;
     isUnique := (length existing =? 0)%nat;
     attempts := S (attempts st);
     calls := S (calls st) |}.

(** The [while] loop, unrolled at most [fuel] times. *)
Fixpoint search_loop (fuel : nat) (env : staff_env) (d : db) (st : code_search)
  : code_search :=
  match fuel with
  | O => st
  | S fuel' =>
      if search_again st then search_loop fuel' env d (search_body env d st)
      else st
  end.

(** [INSERT INTO staff_codes (code, staff_name, staff_email) VALUES (?, ?, ?)] *)
Definition insert_staff_code (code staff_name staff_email : string) : M db unit :=
  modify (fun d =>
    with_staff_codes
      (staff_codes d ++
        [{| stc_code := code; stc_staff_name := staff_name;
            stc_staff_email := staff_email |}]) d).

Definition staff_codes_try (env : staff_env) (staff_name staff_email : string)
  : M db (option response) :=
  st <- gets (fun d => search_loop maxAttempts env d search_start) ;;
  if negb (isUnique st) then
    ret (Some (json 500 [("success", JBool false);
                         ("message", JStr "Failed to generate unique staff code")]))
  else
    match search_code st with
    | None => throw (Error None "Bind parameters must not contain undefined")
    | Some code =>
        insert_staff_code code staff_name staff_email ;;
        sendStaffCodeEmail (staff_mail env) staff_email staff_name code ;;
        ret (Some (json 201
          [("success", JBool true);
           ("message", JStr "Staff code created and sent via email");
           ("data", JRow [("code", Some code)])]))
    end.

(** The [catch] block.  Its first branch reads [code], which is declared
    inside the [try] block and is out of scope here: evaluating the
    response body throws a [ReferenceError] and nothing is sent. *)
Definition staff_codes_catch (error : js_error) : M db (option response) :=
  if String.eqb (err_message error) "Status updated but failed to send email" then
    ret None
  else
    ret (Some (json 500 [("success", JBool false);
                         ("message", JStr "Internal server error")])).

Definition post_staff_codes (env : staff_env) (staff_name staff_email : option string)
  (d : db) : option response * db :=
  match staff_name, staff_email with
  | Some name, Some mail =>
      if falsy staff_name || falsy staff_email then
        (Some (json 400 [("success", JBool false);
                         ("message", JStr "Staff name and email are required")]), d)
      else if negb (emailRegex_test mail) then
        (Some (json 400 [("success", JBool false);
                         ("message", JStr "Invalid email format")]), d)
      else
        match try_catch (staff_codes_try env name mail) staff_codes_catch d with
        | (Ret r, d') => (r, d')
        | (Thrown _, d') => (None, d')
        end
  | _, _ =>
      (Some (json 400 [("success", JBool false);
                       ("message", JStr "Staff name and email are required")]), d)
  end.

(** *** Student status: statements on [student_users] and [daily_logsheet] *)

(** The pattern [`${studentNumber}@%`]. *)
Definition student_pattern (studentNumber : string) : string := studentNumber ++ "@%".

(** [SELECT ... FROM student_users WHERE email LIKE ?] *)
Definition select_student (studentNumber : string) : M db (list student_user_row) :=
  gets (fun d =>
    filter (fun r => sql_like (su_email r) (student_pattern studentNumber))
           (student_users d)).

Definition set_su_status (status : string) (r : student_user_row) : student_user_row :=
  {| su_email := su_email r; su_title := su_title r;
     su_password := su_password r; su_status := Some status |}.

(** [UPDATE student_users SET status = ? WHERE email LIKE ?] *)
Definition update_student (status studentNumber : string) : M db unit :=
  modify (fun d =>
    with_student_users
      (map (fun r =>
              if sql_like (su_email r) (student_pattern studentNumber)
              then set_su_status status r else r)
           (student_users d)) d).

(** [SELECT MAX(log_date) as last_log_date FROM daily_logsheet
     WHERE student_number = ?]: [NULL] over no rows. *)
Definition select_last_log_date (studentNumber : string) : M db (option Z) :=
  gets (fun d =>
    match map ls_log_date
            (filter (fun r => sql_eqb (ls_student_number r) studentNumber)
                    (daily_logsheet d)) with
    | [] => None
    | x :: xs => Some (fold_left Z.max xs x)
    end).

(** [SELECT DATEDIFF(CURDATE(), ?)], with [today] the engine's current date. *)
Definition select_datediff {S : Type} (today lastLogDate : Z) : M S Z :=
  ret (today - lastLogDate).

(** The row [{ student_name, email, status }] sent as [data]. *)
Definition student_data (updatedStudent : list student_user_row)
  : list (string * jsval) :=
  match updatedStudent with
  | [] => []
  | r :: _ =>
      [("data", JRow [("student_name", Some (su_title r));
                      ("email", Some (su_email r));
                      ("status", su_status r)])]
  end.

Definition student_not_found : response :=
  json 404 [("success", JBool false); ("message", JStr "Student not found")].

(** [newStatus !== student[0].status] *)
Definition status_differs (newStatus : string) (current : option string) : bool :=
  match current with
  | Some s => negb (String.eqb newStatus s)
  | None => true
  end.

(** *** [POST /api/update-student-status/:student_number] *)

Definition update_student_status_try (today : Z) (studentNumber : string)
  : M db response :=
  student <- select_student studentNumber ;;
  match student with
  | [] => ret student_not_found
  | student0 :: _ =>
      lastLogDate <- select_last_log_date studentNumber ;;
      computed <-
        match lastLogDate with
        | None =>
            ret ("inactive",
                 "No activity records found - status set to inactive",
                 JNull)
        | Some lastLog =>
            daysSinceLastActivity <- select_datediff today lastLog ;;
            if daysSinceLastActivity <=? 10 then
              ret ("active",
                   ("Student reactivated - last activity was " ++
                      string_of_Z daysSinceLastActivity ++ " days ago")%string,
                   JNum daysSinceLastActivity)
            else
              ret ("inactive",
                   ("Student set to inactive - last activity was " ++
                      string_of_Z daysSinceLastActivity ++
                      " days ago (10 day limit)")%string,
                   JNum daysSinceLastActivity)
        end ;;
      let '(newStatus, message, days) := computed in
      statusChanged <-
        (if status_differs newStatus (su_status student0) then
           update_student newStatus studentNumber ;; ret true
         else ret false) ;;
      updatedStudent <- select_student studentNumber ;;
      ret (json 200
        ([("success", JBool true);
          ("message", JStr message);
          ("status_changed", JBool statusChanged)] ++
         student_data updatedStudent ++
         [("last_activity_date",
             match lastLogDate with Some l => JDate l | None => JNull end);
          ("days_since_last_activity", days)]))
  end.

Definition server_error (message : string) (error : js_error) : response :=
  json 500 [("success", JBool false); ("message", JStr message)].

Definition post_update_student_status (today : Z) (studentNumber : string) (d : db)
  : option response * db :=
  match update_student_status_try today studentNumber d with
  | (Ret r, d') => (Some r, d')
  | (Thrown error, d') =>
      (Some (json 500
         [("success", JBool false);
          ("message", JStr "Failed to update student status due to server error");
          ("error", JStr (err_message error))]), d')
  end.

(** *** [POST /api/suspend-student/:student_number] and
        [POST /api/unenroll-student/:student_number] *)

Definition suspend_student_try (mail : option js_error) (studentNumber : string)
  : M db response :=
  student <- select_student studentNumber ;;
  match student with
  | [] => ret student_not_found
  | _ :: _ =>
      update_student "suspended" studentNumber ;;
      updatedStudent <- select_student studentNumber ;;
      match updatedStudent with
      | [] => throw (Error None "Cannot read properties of undefined (reading 'email')")
      | r :: _ =>
          sendSuspensionEmail mail (su_email r) ;;
          ret (json 200
            ([("success", JBool true);
              ("message", JStr "Student suspended successfully")] ++
             student_data updatedStudent))
      end
  end.

Definition post_suspend_student (mail : option js_error) (studentNumber : string)
  (d : db) : option response * db :=
  match suspend_student_try mail studentNumber d with
  | (Ret r, d') => (Some r, d')
  | (Thrown error, d') =>
      (Some (server_error "Failed to suspend student due to server error" error), d')
  end.

Definition unenroll_student_try (mail : option js_error) (studentNumber : string)
  : M db response :=
  student <- select_student studentNumber ;;
  match student with
  | [] => ret student_not_found
  | _ :: _ =>
      update_student "unenrolled" studentNumber ;;
      updatedStudent <- select_student studentNumber ;;
      match updatedStudent with
      | [] => throw (Error None "Cannot read properties of undefined (reading 'email')")
      | r :: _ =>
          sendUnenrollEmail mail (su_email r) ;;
          ret (json 200
            ([("success", JBool true);
              ("message", JStr "Student unenrolled successfully")] ++
             student_data updatedStudent))
      end
  end.

Definition post_unenroll_student (mail : option js_error) (studentNumber : string)
  (d : db) : option response * db :=
  match unenroll_student_try mail studentNumber d with
  | (Ret r, d') => (Some r, d')
  | (Thrown error, d') =>
      (Some (server_error "Failed to unenroll student due to server error" error), d')
  end.

(** *** [POST /api/lectures/register] *)

(** [SELECT register_status, event_date FROM guest_lectures WHERE id = ?] *)
Definition select_event (event_id : Z) : M db (list guest_lecture_row) :=
  gets (fun d => filter (fun e => gl_id e =? event_id) (guest_lectures d)).

(** [SELECT id FROM wil_application WHERE student_number = ? AND status = 'accepted'] *)
Definition select_accepted_application (student_id : string) : M db (list Z) :=
  gets (fun d =>
    map app_id
      (filter (fun a => sql_eqb (app_student_number a) student_id &&
                        sql_eqb (app_status a) "accepted")
              (wil_application d))).

(** [SELECT COUNT( * ) as registration_count FROM event_attendance
     WHERE event_id = ? AND student_id = ?] *)
Definition select_registration_count (event_id wilAppId : Z) : M db nat :=
  gets (fun d =>
    length (filter (fun r => (ea_event_id r =? event_id) && (ea_student_id r =? wilAppId))
                   (event_attendance d))).

(** [INSERT INTO event_attendance (event_id, student_id, attended) VALUES (?, ?, ?)] *)
Definition insert_attendance (event_id wilAppId : Z) (attended : bool) : M db unit :=
  modify (fun d =>
    with_event_attendance
      (event_attendance d ++
        [{| ea_event_id := event_id; ea_student_id := wilAppId;
            ea_attended := attended |}]) d).

Definition forbidden (message : string) : response :=
  json 403 [("success", JBool false); ("message", JStr message)].

(** [today] is the server's local calendar day; [event_date] and [today]
    are both cut to midnight before they are compared. *)
Definition lectures_register_try (today : Z) (event_id : Z) (student_id : string)
  : M db response :=
  eventResult <- select_event event_id ;;
  match eventResult with
  | [] => ret (json 404 [("success", JBool false); ("message", JStr "Event not found")])
  | event :: _ =>
      if negb (String.eqb (gl_register_status event) "active") then
        ret (forbidden "Registration is not active for this event")
      else if gl_event_date event <? today then
        ret (forbidden "Cannot register for past events")
      else
        studentStatus <- select_accepted_application student_id ;;
        match studentStatus with
        | [] => ret (forbidden "You are not eligible to register for this event")
        | wilAppId :: _ =>
            registrationCount <- select_registration_count event_id wilAppId ;;
            if (1 <=? registrationCount)%nat then
              ret (forbidden "Maximum registrations (2) reached for this event")
            else
              insert_attendance event_id wilAppId false ;;
              ret (json 201 [("success", JBool true);
                             ("message", JStr "Successfully registered for the lecture")])
        end
  end.

Definition post_lectures_register (today : Z) (event_id : option Z)
  (student_id : option string) (d : db) : option response * db :=
  match event_id, student_id with
  | Some ev, Some st =>
      if (ev =? 0) || falsy student_id then
        (Some (json 400 [("success", JBool false);
                         ("message", JStr "Missing event_id or student_id")]), d)
      else
        match lectures_register_try today ev st d with
        | (Ret r, d') => (Some r, d')
        | (Thrown error, d') => (Some (server_error "Internal server error" error), d')
        end
  | _, _ =>
      (Some (json 400 [("success", JBool false);
                       ("message", JStr "Missing event_id or student_id")]), d)
  end.

(** *** [POST /api/signup] *)

(** The [try] block: as the student signup, with the one insert into
    [users]. *)
Definition signup_try (env : signup_env) (req : signup_request) (code : string)
  : M connection response :=
  beginTransaction (fault env BeginTransaction) ;;
  rows <- execute (fault env SelectCode) (select_signup_codes code) ;;
  if (length rows =? 0)%nat then
    rollback ;;
    ret (json 400 [("message", JStr "Invalid or expired signup code")])
  else
    hashedPassword <- bcrypt_hash env 0%nat (password req) ;;
    execute (fault env InsertUser)
      (insert_user (email req) (title req) hashedPassword) ;;
    execute (fault env DeleteCode) (delete_signup_codes code) ;;
    commit (fault env Commit) ;;
    ret (json 201 [("message", JStr "User registered successfully and code deleted")]).

Definition signup_catch (error : js_error) : M connection response :=
  rollback ;;
  if match err_code error with
     | Some c => String.eqb c "ER_DUP_ENTRY"
     | None => false
     end
  then ret (json 400 [("message", JStr "Email already exists")])
  else ret (json 500 [("message", JStr "Signup failed")]).

Definition post_signup (env : signup_env) (req : signup_request) (d : db)
  : option response * db :=
  if falsy (code req) then
    (Some (json 400 [("message", JStr "Signup code is required")]), d)
  else
    match code req, fault env GetConnection with
    | Some c, None =>
        match try_catch (signup_try env req c) signup_catch (getConnection d) with
        | (Ret r, conn) => (Some r, committed conn)
        | (Thrown _, conn) => (None, committed conn)
        end
    | _, _ => (None, d)
    end.

(** *** [POST /api/enroll-student/:student_number] *)

Definition sendEnrollmentEmail {S : Type} (mail : option js_error) (to : string)
  : M S unit :=
  try_catch (sendMail mail) (fun error => ret tt).

Definition enroll_student_try (mail : option js_error) (studentNumber : string)
  : M db response :=
  student <- select_student studentNumber ;;
  match student with
  | [] => ret student_not_found
  | _ :: _ =>
      update_student "active" studentNumber ;;
      updatedStudent <- select_student studentNumber ;;
      match updatedStudent with
      | [] => throw (Error None "Cannot read properties of undefined (reading 'email')")
      | r :: _ =>
          sendEnrollmentEmail mail (su_email r) ;;
          ret (json 200
            ([("success", JBool true);
              ("message", JStr "Student enrolled successfully")] ++
             student_data updatedStudent))
      end
  end.

Definition post_enroll_student (mail : option js_error) (studentNumber : string)
  (d : db) : option response * db :=
  match enroll_student_try mail studentNumber d with
  | (Ret r, d') => (Some r, d')
  | (Thrown error, d') =>
      (Some (server_error "Failed to enroll student due to server error" error), d')
  end.

(** *** [POST /api/reactivate-student/:student_number] *)

Definition reactivate_student_try (today : Z) (studentNumber : string)
  : M db response :=
  student <- select_student studentNumber ;;
  match student with
  | [] => ret student_not_found
  | _ :: _ =>
      lastLogDate <- select_last_log_date studentNumber ;;
      match lastLogDate with
      | None =>
          ret (json 400
            [("success", JBool false);
             ("message",
              JStr "Cannot reactivate - no activity records found for this student")])
      | Some lastLog =>
          daysSinceLastActivity <- select_datediff today lastLog ;;
          if 10 <? daysSinceLastActivity then
            ret (json 400
              [("success", JBool false);
               ("message",
                JStr ("Cannot reactivate - last activity was " ++
                      string_of_Z daysSinceLastActivity ++
                      " days ago (maximum 10 days allowed)")%string);
               ("last_activity_date", JDate lastLog);
               ("days_since_last_activity", JNum daysSinceLastActivity)])
          else
            update_student "active" studentNumber ;;
            updatedStudent <- select_student studentNumber ;;
            ret (json 200
              ([("success", JBool true);
                ("message", JStr "Student reactivated successfully")] ++
               student_data updatedStudent ++
               [("last_activity_date", JDate lastLog);
                ("days_since_last_activity", JNum daysSinceLastActivity)]))
      end
  end.

Definition post_reactivate_student (today : Z) (studentNumber : string) (d : db)
  : option response * db :=
  match reactivate_student_try today studentNumber d with
  | (Ret r, d') => (Some r, d')
  | (Thrown error, d') =>
      (Some (server_error "Failed to reactivate student due to server error" error), d')
  end.

(** *** [POST /api/update-student-status] (student number in the body) *)

(** [UPDATE student_users SET status = 'active' WHERE email LIKE CONCAT(?, '@%')];
    the result is [affectedRows], the number of rows the [WHERE] clause
    matches (the driver connects with the flag [FOUND_ROWS] unless told
    otherwise). *)
Definition activate_student (student_number : string) : M db nat :=
  n <- gets (fun d =>
         length (filter (fun r => sql_like (su_email r) (student_pattern student_number))
                        (student_users d))) ;;
  update_student "active" student_number ;;
  ret n.

Definition post_activate_student (student_number : option string) (d : db)
  : option response * db :=
  if falsy student_number then
    (Some (json 400 [("success", JBool false);
                     ("message", JStr "Student number is required")]), d)
  else
    match student_number with
    | None => (None, d)
    | Some sn =>
        match
          (affectedRows <- activate_student sn ;;
           if (affectedRows =? 0)%nat then ret student_not_found
           else ret (json 200 [("success", JBool true);
                               ("message", JStr "Student status updated to active")])) d
        with
        | (Ret r, d') => (Some r, d')
        | (Thrown error, d') => (Some (server_error "Internal server error" error), d')
        end
    end.

(** *** [POST /api/update-status-for-inactive-students] *)

(** [SELECT email FROM student_users WHERE status = 'active'] *)
Definition select_active_students : M db (list string) :=
  gets (fun d =>
    map su_email
      (filter (fun r =>
                 match su_status r with
                 | Some s => sql_eqb s "active"
                 | None => false
                 end)
              (student_users d))).

(** [email.split("@")[0]]: the text before the first [@], all of it when
    there is none. *)
Definition before_at (email : string) : string :=
  match split_at "@" (list_ascii_of_string email) with
  | Some (l, _) => string_of_list_ascii l
  | None => email
  end.

(** [UPDATE student_users SET status = 'inactive' WHERE email = ?] *)
Definition inactivate_email (email : string) : M db unit :=
  modify (fun d =>
    with_student_users
      (map (fun r => if sql_eqb (su_email r) email then set_su_status "inactive" r else r)
           (student_users d)) d).

(** The [for] loop over the students that were active when the sweep
    started; [updatedStudents] collects the student numbers set inactive. *)
Fixpoint sweep_loop (today : Z) (activeStudents updatedStudents : list string)
  : M db (list string) :=
  match activeStudents with
  | [] => ret updatedStudents
  | email :: rest =>
      let studentNumber := before_at email in
      lastLogDate <- select_last_log_date studentNumber ;;
      match lastLogDate with
      | None =>
          inactivate_email email ;;
          sweep_loop today rest (updatedStudents ++ [studentNumber])
      | Some lastLog =>
          days <- select_datediff today lastLog ;;
          if 10 <? days then
            inactivate_email email ;;
            sweep_loop today rest (updatedStudents ++ [studentNumber])
          else sweep_loop today rest updatedStudents
      end
  end.

(** The answer of the sweep: its body carries an array of student numbers. *)
Record sweep_response : Type := {
  sweep_http_status : Z;
  sweep_message : string;
  updated_students : list string
}.

Definition post_update_status_for_inactive_students (today : Z) (d : db)
  : sweep_response * db :=
  match
    (activeStudents <- select_active_students ;;
     match activeStudents with
     | [] => ret {| sweep_http_status := 200;
                    sweep_message := "No active students found";
                    updated_students := [] |}
     | _ :: _ =>
         updatedStudents <- sweep_loop today activeStudents [] ;;
         ret {| sweep_http_status := 200;
                sweep_message := "Student statuses updated successfully";
                updated_students := updatedStudents |}
     end) d
  with
  | (Ret r, d') => (r, d')
  | (Thrown error, d') =>
      ({| sweep_http_status := 500;
          sweep_message := "Internal server error during status update";
          updated_students := [] |}, d')
  end.

(** *** [PUT /api/guest-lecture/toggle-status/:id] *)

Definition with_guest_lectures (t : list guest_lecture_row) (d : db) : db :=
  {| signup_codes := signup_codes d; blocked_signups := blocked_signups d;
     student_users := student_users d; users := users d;
     staff_codes := staff_codes d; wil_application := wil_application d;
     daily_logsheet := daily_logsheet d; guest_lectures := t;
     event_attendance := event_attendance d |}.

Definition set_register_status (status : string) (e : guest_lecture_row)
  : guest_lecture_row :=
  {| gl_id := gl_id e; gl_register_status := status;
     gl_event_date := gl_event_date e |}.

(** [UPDATE guest_lectures SET register_status = ? WHERE id = ?] *)
Definition update_register_status (status : string) (id : Z) : M db unit :=
  modify (fun d =>
    with_guest_lectures
      (map (fun e => if gl_id e =? id then set_register_status status e else e)
           (guest_lectures d)) d).

Definition toggle_status_try (id : Z) : M db response :=
  rows <- select_event id ;;
  match rows with
  | [] => ret (json 404 [("success", JBool false); ("message", JStr "Lecture not found")])
  | row :: _ =>
      let currentStatus := gl_register_status row in
      let newStatus :=
        if String.eqb currentStatus "active" then "inactive" else "active" in
      update_register_status newStatus id ;;
      ret (json 200
        [("success", JBool true);
         ("message", JStr ("Lecture status toggled to '" ++ newStatus ++ "'")%string);
         ("newStatus", JStr newStatus)])
  end.

Definition put_toggle_status (id : Z) (d : db) : option response * db :=
  match toggle_status_try id d with
  | (Ret r, d') => (Some r, d')
  | (Thrown error, d') => (Some (server_error "Internal server error" error), d')
  end.

(** *** Tables of the staff, mentor and event-code handlers *)

Record event_code_row : Type := {
  ec_event_code : string;
  ec_guest_name : string;
  ec_guest_email : string
}.

(** The database with the tables [staff_users], [mentor_users] (rows with
    the columns [email], [title], [password]) and [event_codes]. *)
Record site : Type := {
  main : db;
  staff_users : list user_row;
  mentor_users : list user_row;
  event_codes : list event_code_row
}.

Definition with_main (d : db) (s : site) : site :=
  {| main := d; staff_users := staff_users s; mentor_users := mentor_users s;
     event_codes := event_codes s |}.

Definition with_staff_users (t : list user_row) (s : site) : site :=
  {| main := main s; staff_users := t; mentor_users := mentor_users s;
     event_codes := event_codes s |}.

Definition with_mentor_users (t : list user_row) (s : site) : site :=
  {| main := main s; staff_users := staff_users s; mentor_users := t;
     event_codes := event_codes s |}.

Definition with_event_codes (t : list event_code_row) (s : site) : site :=
  {| main := main s; staff_users := staff_users s; mentor_users := mentor_users s;
     event_codes := t |}.

(** A handler on [db], run on the larger database. *)
Definition on_main {A : Type} (h : db -> A * db) (s : site) : A * site :=
  match h (main s) with
  | (r, d') => (r, with_main d' s)
  end.

(** A connection to the larger database. *)
Record site_connection : Type := {
  site_committed : site;
  site_working : site
}.

Definition site_getConnection (s : site) : site_connection :=
  {| site_committed := s; site_working := s |}.

Definition site_execute {A : Type} (f : option js_error) (q : M site A)
  : M site_connection A :=
  may_fail f ;;
  fun c =>
    match q (site_working c) with
    | (r, w) => (r, {| site_committed := site_committed c; site_working := w |})
    end.

Definition site_commit (f : option js_error) : M site_connection unit :=
  may_fail f ;;
  modify (fun c => {| site_committed := site_working c;
                      site_working := site_working c |}).

Definition site_rollback : M site_connection unit :=
  modify (fun c => {| site_committed := site_committed c;
                      site_working := site_committed c |}).

(** *** [POST /api/staff_Signup] and [POST /api/mentor_signup] *)

(** [SELECT * FROM staff_codes WHERE code = ?] *)
Definition select_staff_codes (code : string) : M site (list staff_code_row) :=
  gets (fun s => filter (fun r => sql_eqb (stc_code r) code) (staff_codes (main s))).

(** [DELETE FROM staff_codes WHERE code = ?] *)
Definition delete_staff_codes (code : string) : M site unit :=
  modify (fun s =>
    with_main
      (with_staff_codes
         (filter (fun r => negb (sql_eqb (stc_code r) code)) (staff_codes (main s)))
         (main s)) s).

Definition site_bind_param (v : option string) : M site string :=
  match v with
  | Some x => ret x
  | None =>
      throw (Error None
        "Bind parameters must not contain undefined. To pass SQL NULL specify JS null")
  end.

(** Modelled from the spec: the schema of [staff_users] is not part of the
    sources; unique key on [email], which the [ER_DUP_ENTRY] branch of the
    staff signup answers to.

    [INSERT INTO staff_users (email, title, password) VALUES (?, ?, ?)] *)
Definition insert_staff_user (email title : option string) (password : string)
  : M site unit :=
  e <- site_bind_param email ;;
  t <- site_bind_param title ;;
  dup <- gets (fun s => existsb (fun r => sql_eqb (u_email r) e) (staff_users s)) ;;
  if dup then throw (ER_DUP_ENTRY e)
  else
    modify (fun s =>
      with_staff_users
        (staff_users s ++ [{| u_email := e; u_title := t; u_password := password |}]) s).

(** Modelled from the spec: the schema of [mentor_users] is not part of the
    sources; unique key on [email], as for [staff_users].

    [INSERT INTO mentor_users (email, title, password) VALUES (?, ?, ?)] *)
Definition insert_mentor_user (email title : option string) (password : string)
  : M site unit :=
  e <- site_bind_param email ;;
  t <- site_bind_param title ;;
  dup <- gets (fun s => existsb (fun r => sql_eqb (u_email r) e) (mentor_users s)) ;;
  if dup then throw (ER_DUP_ENTRY e)
  else
    modify (fun s =>
      with_mentor_users
        (mentor_users s ++ [{| u_email := e; u_title := t; u_password := password |}]) s).

(** The [try] block of both handlers; [insert] is the account insert and
    [done] the message of the 201. *)
Definition staff_code_signup_try
  (insert : option string -> option string -> string -> M site unit)
  (done : string) (env : signup_env) (req : signup_request) (code : string)
  : M site_connection response :=
  may_fail (fault env BeginTransaction) ;;
  rows <- site_execute (fault env SelectCode) (select_staff_codes code) ;;
  if (length rows =? 0)%nat then
    site_rollback ;;
    ret (json 400 [("message", JStr "Invalid or expired signup code")])
  else
    hashedPassword <- bcrypt_hash env 0%nat (password req) ;;
    site_execute (fault env InsertUser)
      (insert (email req) (title req) hashedPassword) ;;
    site_execute (fault env DeleteCode) (delete_staff_codes code) ;;
    site_commit (fault env Commit) ;;
    ret (json 201 [("message", JStr done)]).

Definition staff_code_signup_catch (error : js_error) : M site_connection response :=
  site_rollback ;;
  if match err_code error with
     | Some c => String.eqb c "ER_DUP_ENTRY"
     | None => false
     end
  then ret (json 400 [("message", JStr "Email already exists")])
  else ret (json 500 [("message", JStr "Signup failed")]).

Definition staff_code_signup
  (insert : option string -> option string -> string -> M site unit)
  (done : string) (env : signup_env) (req : signup_request) (s : site)
  : option response * site :=
  if falsy (code req) then
    (Some (json 400 [("message", JStr "Signup code is required")]), s)
  else
    match code req, fault env GetConnection with
    | Some c, None =>
        match try_catch (staff_code_signup_try insert done env req c)
                staff_code_signup_catch (site_getConnection s) with
        | (Ret r, conn) => (Some r, site_committed conn)
        | (Thrown _, conn) => (None, site_committed conn)
        end
    | _, _ => (None, s)
    end.

Definition post_staff_Signup : signup_env -> signup_request -> site -> option response * site :=
  staff_code_signup insert_staff_user "User registered successfully and code deleted".

Definition post_mentor_signup : signup_env -> signup_request -> site -> option response * site :=
  staff_code_signup insert_mentor_user "Mentor registered successfully and code deleted".

(** *** [POST /api/create-event-code] and [POST /api/validate-event-code] *)

(** The outside world during one event-code request: [generateEventCode k]
    is what the generator returns on its call number [k] (from 0), and the
    mail transport. *)
Record event_env : Type := {
  generateEventCode : nat -> string;
  event_mail : option js_error
}.

(** [SELECT * FROM event_codes WHERE event_code = ?] *)
Definition select_event_codes (event_code : string) (s : site) : list event_code_row :=
  filter (fun r => sql_eqb (ec_event_code r) event_code) (event_codes s).

(** The [while (existingCodes.length > 0)] loop, entered with the code of
    [calls] generator calls; it has no bound of its own, and [None] is the
    loop still running when [fuel] iterations are used up. *)
Fixpoint event_code_loop (fuel : nat) (env : event_env) (s : site)
  (event_code : string) (calls : nat) : option (string * nat) :=
  if (0 <? length (select_event_codes event_code s))%nat then
    match fuel with
    | O => None
    | S fuel' => event_code_loop fuel' env s (generateEventCode env calls) (S calls)
    end
  else Some (event_code, calls).

Definition sendEventCodeEmail {S : Type} (mail : option js_error)
  (to guestName eventCode : string) : M S unit :=
  try_catch (sendMail mail)
    (fun emailError => throw (Error None "Event code created but failed to send email")).

(** [INSERT INTO event_codes (event_code, guest_name, guest_email) VALUES (?, ?, ?)] *)
Definition insert_event_code (event_code guest_name guest_email : string) : M site unit :=
  modify (fun s =>
    with_event_codes
      (event_codes s ++
        [{| ec_event_code := event_code; ec_guest_name := guest_name;
            ec_guest_email := guest_email |}]) s).

(** The handler run for at most [fuel] iterations of its loop: [None] when
    the loop has not ended by then. *)
Definition post_create_event_code (fuel : nat) (env : event_env)
  (guest_name guest_email : option string) (s : site)
  : option (option response * site) :=
  match guest_name, guest_email with
  | Some name, Some mail =>
      if falsy guest_name || falsy guest_email then
        Some (Some (json 400 [("success", JBool false);
                              ("message", JStr "Guest name and email are required")]), s)
      else
        match event_code_loop fuel env s (generateEventCode env 0) 1 with
        | None => None
        | Some (event_code, _) =>
            match
              try_catch
                (insert_event_code event_code name mail ;;
                 sendEventCodeEmail (event_mail env) mail name event_code ;;
                 ret (json 201
                   [("success", JBool true);
                    ("message",
                     JStr ("Event code created successfully and emailed to " ++ mail)%string);
                    ("data", JRow [("event_code", Some event_code)])]))
                (fun err =>
                   ret (json 500
                     [("success", JBool false);
                      ("message",
                       JStr (if String.eqb (err_message err) EmptyString
                             then "Internal server error" else err_message err))]))
                s
            with
            | (Ret r, s') => Some (Some r, s')
            | (Thrown _, s') => Some (None, s')
            end
        end
  | _, _ =>
      Some (Some (json 400 [("success", JBool false);
                            ("message", JStr "Guest name and email are required")]), s)
  end.

(** [code.trim() === ""], on strings of one-byte characters. *)
Definition trims_to_empty (code : string) : bool :=
  forallb is_space (list_ascii_of_string code).

Definition post_validate_event_code (code : option string) (s : site)
  : option response * site :=
  match code with
  | None =>
      (Some (json 400 [("success", JBool false); ("message", JStr "Code is required")]), s)
  | Some c =>
      if falsy code || trims_to_empty c then
        (Some (json 400 [("success", JBool false); ("message", JStr "Code is required")]), s)
      else
        match select_event_codes c s with
        | row :: _ =>
            (Some (json 200
               [("success", JBool true);
                ("message", JStr "Code is valid");
                ("data", JRow [("event_code", Some (ec_event_code row));
                               ("guest_name", Some (ec_guest_name row));
                               ("guest_email", Some (ec_guest_email row))])]), s)
        | [] =>
            (Some (json 404 [("success", JBool false); ("message", JStr "Invalid code")]), s)
        end
  end.

(** ** Vocabulary of the properties *)

(** The database after the three writes of a redemption: the account row
    in [student_users], the account row in [users] with the same digest,
    and [signup_codes] without the rows of the code. *)
Definition all_three_writes (e t hashedPassword c : string) (d : db) : db :=
  with_signup_codes
    (filter (fun r => negb (sql_eqb (sc_code r) c)) (signup_codes d))
    (with_users
       (users d ++ [{| u_email := e; u_title := t; u_password := hashedPassword |}])
       (with_student_users
          (student_users d ++
            [{| su_email := e; su_title := t; su_password := hashedPassword;
                su_status := student_users_status_default |}]) d)).

(** The two answers of a redemption the properties name. *)
Definition registered (req : signup_request) : response :=
  json 201
    [("message", JStr "User registered successfully in both systems");
     ("data", signup_data req)].

Definition invalid_code : response :=
  json 400 [("message", JStr "Invalid or expired signup code")].

Definition valid_code : response :=
  json 200 [("success", JBool true); ("message", JStr "Valid code")].

Definition email_blocked : response :=
  json 200 [("success", JBool false);
            ("message", JStr "This email is blocked from signing up")].

(** No awaited database call of a status update fails. *)
Definition no_status_fault (env : status_env) : Prop :=
  forall s, status_fault env s = None.

(** The status code of the response, if one was sent. *)
Definition status_of (r : option response) : option Z := option_map http_status r.

(** The rows of [signup_codes] a lookup of [c] finds. *)
Definition code_rows (c : string) (d : db) : list signup_code_row :=
  filter (fun r => sql_eqb (sc_code r) c) (signup_codes d).

(** No awaited database call of a signup fails. *)
Definition no_fault (env : signup_env) : Prop := forall s, fault env s = None.

(** The address is free in both account tables. *)
Definition email_free (e : string) (d : db) : Prop :=
  existsb (fun r => sql_eqb (su_email r) e) (student_users d) = false /\
  existsb (fun r => sql_eqb (u_email r) e) (users d) = false.

(** Requests of the code lifecycle, as they arrive between two
    redemption attempts. *)
Inductive lifecycle_request : Type :=
| StudentSignup (env : signup_env) (req : signup_request)
| ValidateSignupCode (code : option string)
| BlockSignupEmail (email : option string)
| UpdateStatus (env : status_env) (id : Z) (status : option string).

Definition serve (q : lifecycle_request) (d : db) : db :=
  match q with
  | StudentSignup env req => snd (post_student_signup env req d)
  | ValidateSignupCode code => snd (post_validate_signup_code code d)
  | BlockSignupEmail email => snd (post_block_signup_email email d)
  | UpdateStatus env id status => snd (put_update_status env id status d)
  end.

Definition serve_all (qs : list lifecycle_request) (d : db) : db :=
  fold_left (fun d q => serve q d) qs d.

(** The request issues a fresh signup code that a lookup of [c] matches. *)
Definition issues (c : string) (q : lifecycle_request) : bool :=
  match q with
  | UpdateStatus env _ _ => sql_eqb (generateRandomCode env) c
  | _ => false
  end.

(** [n] validation calls in a row: the responses and the final database. *)
Fixpoint validate_repeatedly (n : nat) (code : option string) (d : db)
  : list (option response) * db :=
  match n with
  | O => ([], d)
  | S n' =>
      let '(r, d') := post_validate_signup_code code d in
      let '(rs, d'') := validate_repeatedly n' code d' in
      (r :: rs, d'')
  end.

(** The student of a status request, as the handlers see it: the first row
    of [student_users] whose address matches the pattern. *)
Definition student_rows (studentNumber : string) (d : db) : list student_user_row :=
  filter (fun r => sql_like (su_email r) (student_pattern studentNumber))
         (student_users d).

Definition stored_status (studentNumber : string) (d : db) : option (option string) :=
  option_map su_status (hd_error (student_rows studentNumber d)).

Definition last_log_date (studentNumber : string) (d : db) : option Z :=
  match map ls_log_date
          (filter (fun r => sql_eqb (ls_student_number r) studentNumber)
                  (daily_logsheet d)) with
  | [] => None
  | x :: xs => Some (fold_left Z.max xs x)
  end.

(** The status the recomputation settles on. *)
Definition computed_status (today : Z) (lastLogDate : option Z) : string :=
  match lastLogDate with
  | None => "inactive"
  | Some l => if today - l <=? 10 then "active" else "inactive"
  end.

(** [student_users] after [UPDATE ... SET status = ? WHERE email LIKE ?]. *)
Definition with_status (status studentNumber : string) (d : db) : db :=
  with_student_users
    (map (fun r =>
            if sql_like (su_email r) (student_pattern studentNumber)
            then set_su_status status r else r)
         (student_users d)) d.

(** The registrations of application [wilAppId] for event [event_id]. *)
Definition registration_count (event_id wilAppId : Z) (d : db) : nat :=
  length (filter (fun r => (ea_event_id r =? event_id) && (ea_student_id r =? wilAppId))
                 (event_attendance d)).

(** The code the generator returns on call [k] collides with a stored one. *)
Definition collides (env : staff_env) (d : db) (k : nat) : bool :=
  negb (length (filter (fun r => sql_eqb (stc_code r) (generateStaffCode env k))
                       (staff_codes d)) =? 0)%nat.

(** The loop variables once the generator call number [k] gave a code
    without collision. *)
Definition found_at (env : staff_env) (k : nat) : code_search :=
  {| search_code := Some (generateStaffCode env k); isUnique := true;
     attempts := S k; calls := S k |}.

Definition staff_code_created (code : string) : response :=
  json 201
    [("success", JBool true);
     ("message", JStr "Staff code created and sent via email");
     ("data", JRow [("code", Some code)])].

Definition staff_code_exhausted : response :=
  json 500 [("success", JBool false);
            ("message", JStr "Failed to generate unique staff code")].

Definition registered_for_lecture : response :=
  json 201 [("success", JBool true);
            ("message", JStr "Successfully registered for the lecture")].

(** The database after the two writes of [POST /api/signup]. *)
Definition code_and_user_writes (e t hashedPassword c : string) (d : db) : db :=
  with_signup_codes
    (filter (fun r => negb (sql_eqb (sc_code r) c)) (signup_codes d))
    (with_users
       (users d ++ [{| u_email := e; u_title := t; u_password := hashedPassword |}]) d).

Definition user_registered : response :=
  json 201 [("message", JStr "User registered successfully and code deleted")].

(** The address is blocked. *)
Definition is_blocked (e : string) (d : db) : bool :=
  existsb (fun b => sql_eqb b e) (blocked_signups d).

(** The code row an acceptance of application [id] stores. *)
Definition accepted_code (env : status_env) (id : Z) (appData : application_row)
  : signup_code_row :=
  {| sc_application_id := id; sc_code := generateRandomCode env;
     sc_first_names := app_first_names appData;
     sc_surname := app_surname appData;
     sc_student_number := app_student_number appData;
     sc_level_of_study := app_level_of_study appData;
     sc_email := app_email appData |}.

(** The applications of a lookup by [id]. *)
Definition application_rows (id : Z) (d : db) : list application_row :=
  filter (fun a => app_id a =? id) (wil_application d).

(** [wil_application] after the status update of application [id]. *)
Definition status_set (status : string) (id : Z) (d : db) : db :=
  with_wil_application
    (map (fun a => if app_id a =? id then set_app_status status a else a)
         (wil_application d)) d.

(** The database a committed status update leaves. *)
Definition status_written (env : status_env) (id : Z) (status : string) (d : db) : db :=
  if String.eqb status "Accepted" then
    match application_rows id d with
    | appData :: _ =>
        with_signup_codes (signup_codes d ++ [accepted_code env id appData])
          (status_set status id d)
    | [] => status_set status id d
    end
  else status_set status id d.

Definition status_updated (status : string) (generatedCode : option string)
  (changes : nat) : response :=
  json 200
    [("success", JBool true);
     ("message", JStr "Status updated successfully");
     ("newStatus", JStr status);
     ("code", opt_str generatedCode);
     ("changes", JNum (Z.of_nat changes))].

(** A character, by its number, that is neither white space of the
    language (U+0009 to U+000D, U+0020 and U+00A0 are the ones below U+0100)
    nor [@] (U+0040). *)
Definition plain_char (c : ascii) : Prop :=
  let n := N_of_ascii c in
  (n < 9 \/ 13 < n)%N /\ n <> 32%N /\ n <> 160%N /\ n <> 64%N.

(** What the pattern [/^[^\\s@]+@[^\\s@]+\\.[^\\s@]+$/] says: a non-empty
    local part, [@], and a domain made of two non-empty parts around a dot,
    all three parts free of white space and [@]. *)
Definition email_shape (s : string) : Prop :=
  exists l m r : list ascii,
    l <> [] /\ m <> [] /\ r <> [] /\
    Forall plain_char l /\ Forall plain_char m /\ Forall plain_char r /\
    list_ascii_of_string s = l ++ "@"%char :: m ++ "."%char :: r.

(** No two rows of [staff_codes] carry codes that the engine finds equal
    (earlier row compared with later row, as the collision check does). *)
Definition codes_distinct (t : list staff_code_row) : Prop :=
  ForallOrdPairs (fun a b => sql_eqb (stc_code a) (stc_code b) = false) t.

Definition staff_row (code name mail : string) : staff_code_row :=
  {| stc_code := code; stc_staff_name := name; stc_staff_email := mail |}.

(** The row [r'] is the row [r] up to its status. *)
Definition same_account (r r' : student_user_row) : Prop :=
  su_email r' = su_email r /\ su_title r' = su_title r /\
  su_password r' = su_password r.

(** From [d] to [d'] nothing changed but statuses in [student_users], and
    those only in rows whose address matches the pattern of [studentNumber]. *)
Definition only_status_of (studentNumber : string) (d d' : db) : Prop :=
  d' = with_student_users (student_users d') d /\
  Forall2 (fun r r' =>
             same_account r r' /\
             (sql_like (su_email r) (student_pattern studentNumber) = false -> r' = r))
          (student_users d) (student_users d').

(** The row is selected by [WHERE status = 'active']. *)
Definition active_now (r : student_user_row) : bool :=
  match su_status r with
  | Some s => sql_eqb s "active"
  | None => false
  end.

(** The sweep finds the owner of the address without recent activity. *)
Definition stale (today : Z) (d : db) (email : string) : bool :=
  match last_log_date (before_at email) d with
  | None => true
  | Some l => 10 <? today - l
  end.

(** From [t] to [t'] rows kept their account and either kept their status
    or went to "inactive". *)
Definition swept (t t' : list student_user_row) : Prop :=
  Forall2 (fun r r' =>
             same_account r r' /\
             (su_status r' = su_status r \/ su_status r' = Some "inactive"))
          t t'.

Definition no_activity_records : response :=
  json 400
    [("success", JBool false);
     ("message",
      JStr "Cannot reactivate - no activity records found for this student")].

(** The lectures of a lookup by [id]. *)
Definition event_rows (id : Z) (d : db) : list guest_lecture_row :=
  filter (fun e => gl_id e =? id) (guest_lectures d).

(** [currentStatus === "active" ? "inactive" : "active"] *)
Definition toggled (currentStatus : string) : string :=
  if String.eqb currentStatus "active" then "inactive" else "active".

(** The ids of the accepted applications of a student number. *)
Definition accepted_ids (student_id : string) (d : db) : list Z :=
  map app_id
    (filter (fun a => sql_eqb (app_student_number a) student_id &&
                      sql_eqb (app_status a) "accepted")
            (wil_application d)).

(** The rows of [staff_codes] a lookup of [c] finds. *)
Definition staff_code_rows (c : string) (s : site) : list staff_code_row :=
  filter (fun r => sql_eqb (stc_code r) c) (staff_codes (main s)).

(** [staff_codes] without the rows of [c]. *)
Definition without_staff_code (c : string) (s : site) : site :=
  with_main
    (with_staff_codes
       (filter (fun r => negb (sql_eqb (stc_code r) c)) (staff_codes (main s)))
       (main s)) s.

(** The database after the two writes of a staff signup, and of a mentor
    signup. *)
Definition staff_redeemed (e t hashedPassword c : string) (s : site) : site :=
  without_staff_code c
    (with_staff_users
       (staff_users s ++ [{| u_email := e; u_title := t; u_password := hashedPassword |}])
       s).

Definition mentor_redeemed (e t hashedPassword c : string) (s : site) : site :=
  without_staff_code c
    (with_mentor_users
       (mentor_users s ++ [{| u_email := e; u_title := t; u_password := hashedPassword |}])
       s).

Definition staff_registered : response :=
  json 201 [("message", JStr "User registered successfully and code deleted")].

Definition mentor_registered : response :=
  json 201 [("message", JStr "Mentor registered successfully and code deleted")].

(** The code of generator call [k] is already in [event_codes]. *)
Definition event_collides (env : event_env) (s : site) (k : nat) : bool :=
  (0 <? length (select_event_codes (generateEventCode env k) s))%nat.

Definition event_row (code name mail : string) : event_code_row :=
  {| ec_event_code := code; ec_guest_name := name; ec_guest_email := mail |}.

Definition event_code_created (code mail : string) : response :=
  json 201
    [("success", JBool true);
     ("message",
      JStr ("Event code created successfully and emailed to " ++ mail)%string);
     ("data", JRow [("event_code", Some code)])].

Definition event_code_valid (row : event_code_row) : response :=
  json 200
    [("success", JBool true);
     ("message", JStr "Code is valid");
     ("data", JRow [("event_code", Some (ec_event_code row));
                    ("guest_name", Some (ec_guest_name row));
                    ("guest_email", Some (ec_guest_email row))])].

(** ** A reference engine and sample data *)

Definition lower (c : ascii) : ascii :=
  let n := nat_of_ascii c in
  if (65 <=? n)%nat && (n <=? 90)%nat then ascii_of_nat (n + 32) else c.

(** Comparison that ignores letter case, as the [_ci] collation of the
    schema dump does on one-byte characters. *)
Fixpoint lower_string (s : string) : string :=
  match s with
  | EmptyString => EmptyString
  | String c s' => String (lower c) (lower_string s')
  end.

Definition eqb_ci (a b : string) : bool :=
  String.eqb (lower_string a) (lower_string b).

Fixpoint like_match (p : list ascii) : list ascii -> bool :=
  match p with
  | [] => fun t => match t with [] => true | _ :: _ => false end
  | c :: p' =>
      if Ascii.eqb c "%" then
        fix star (t : list ascii) : bool :=
          like_match p' t || match t with [] => false | _ :: t' => star t' end
      else if Ascii.eqb c "_" then
        fun t => match t with [] => false | _ :: t' => like_match p' t' end
      else
        fun t =>
          match t with
          | [] => false
          | x :: t' => Ascii.eqb (lower c) (lower x) && like_match p' t'
          end
  end.

(** [text LIKE pattern] with the wildcards [%] and [_]. *)
Definition like_ci (text pattern : string) : bool :=
  like_match (list_ascii_of_string pattern) (list_ascii_of_string text).

Definition empty_db : db :=
  {| signup_codes := []; blocked_signups := []; student_users := []; users := [];
     staff_codes := []; wil_application := []; daily_logsheet := [];
     guest_lectures := []; event_attendance := [] |}.

Definition thabo_application : application_row :=
  {| app_id := 1; app_first_names := "Thabo Mkhize"; app_surname := "Mkhize";
     app_email := "thabo@live.mut.ac.za"; app_student_number := "202312345";
     app_level_of_study := "NDip"; app_status := "Pending" |}.

Definition thabo_code : signup_code_row :=
  {| sc_application_id := 1; sc_code := "ABCD1234";
     sc_first_names := "Thabo Mkhize"; sc_surname := "Mkhize";
     sc_student_number := "202312345"; sc_level_of_study := "NDip";
     sc_email := "thabo@live.mut.ac.za" |}.

(** Application 1 is pending. *)
Definition db_pending : db := with_wil_application [thabo_application] empty_db.

(** Application 1 was accepted and its code [ABCD1234] is stored. *)
Definition db_issued : db :=
  with_signup_codes [thabo_code]
    (with_wil_application [set_app_status "Accepted" thabo_application] empty_db).

(** As [db_issued], with the student's address already taken in [users]. *)
Definition db_taken : db :=
  with_users
    [{| u_email := "202312345@live.mut.ac.za"; u_title := "Mr";
        u_password := "$2a$10$older" |}] db_issued.

Definition calm : signup_env :=
  {| fault := fun _ => None;
     digest := fun n p =>
       match n with
       | O => ("$2a$10$" ++ p)%string
       | S _ => ("$2a$10$again$" ++ p)%string
       end;
     development := false |}.

Definition thabo_signup : signup_request :=
  {| email := Some "202312345@live.mut.ac.za"; title := Some "Mr";
     password := Some "s3cret"; code := Some "ABCD1234" |}.

Definition second_signup : signup_request :=
  {| email := Some "other@live.mut.ac.za"; title := Some "Ms";
     password := Some "pw"; code := Some "ABCD1234" |}.

Definition mail_down : js_error := Error (Some "ECONNECTION") "connect ETIMEDOUT".

Definition accept_mail_down : status_env :=
  {| status_fault := fun _ => None;
     generateRandomCode := "K3J9X2QA";
     status_mail := Some mail_down |}.

Definition accept_mail_up : status_env :=
  {| status_fault := fun _ => None;
     generateRandomCode := "K3J9X2QA";
     status_mail := None |}.

(** Requests served between two attempts on [ABCD1234]; the status update
    issues the code [K3J9X2QA]. *)
Definition later_requests : list lifecycle_request :=
  [ValidateSignupCode (Some "ABCD1234");
   BlockSignupEmail (Some "thabo@live.mut.ac.za");
   UpdateStatus accept_mail_up 1 (Some "Accepted");
   StudentSignup calm second_signup].

Definition thabo_account (status : string) : student_user_row :=
  {| su_email := "202312345@live.mut.ac.za"; su_title := "Mr";
     su_password := "$2a$10$s3cret"; su_status := Some status |}.

(** A student with the given status and one logsheet dated day 100. *)
Definition db_student (status : string) : db :=
  {| signup_codes := []; blocked_signups := [];
     student_users := [thabo_account status]; users := [];
     staff_codes := []; wil_application := [];
     daily_logsheet := [{| ls_student_number := "202312345"; ls_log_date := 100 |}];
     guest_lectures := []; event_attendance := [] |}.

(** A student without logsheets. *)
Definition db_new_student : db :=
  with_student_users [thabo_account "active"] empty_db.

(** An accepted applicant and an open event on day 200. *)
Definition db_event : db :=
  {| signup_codes := []; blocked_signups := []; student_users := []; users := [];
     staff_codes := [];
     wil_application := [set_app_status "Accepted" thabo_application];
     daily_logsheet := [];
     guest_lectures := [{| gl_id := 7; gl_register_status := "active";
                           gl_event_date := 200 |}];
     event_attendance := [] |}.

Definition staff_db (codes : list string) : db :=
  with_staff_codes
    (map (fun c => {| stc_code := c; stc_staff_name := "N"; stc_staff_email := "n@x.y" |})
         codes) empty_db.

(** A generator that returns [A0], [A1], [A2], ... on successive calls. *)
Definition counting_generator : staff_env :=
  {| generateStaffCode := fun k => ("A" ++ string_of_Z (Z.of_nat k))%string;
     staff_mail := None |}.

(** Requests that neither redeem nor issue [ABCD1234]. *)
Definition quiet_requests : list lifecycle_request :=
  [ValidateSignupCode (Some "ABCD1234");
   BlockSignupEmail (Some "someone@example.com");
   UpdateStatus accept_mail_up 1 (Some "Accepted")].

Definition accept_again : status_env :=
  {| status_fault := fun _ => None;
     generateRandomCode := "Q7W8E9R0";
     status_mail := None |}.

Definition issued_signup : signup_request :=
  {| email := Some "202312345@live.mut.ac.za"; title := Some "Mr";
     password := Some "s3cret"; code := Some "K3J9X2QA" |}.

(** Three students on day 105: one active with a logsheet of day 100, one
    active without logsheets, one suspended with a logsheet of day 50. *)
Definition db_sweep : db :=
  {| signup_codes := []; blocked_signups := [];
     student_users :=
       [thabo_account "active";
        {| su_email := "202399999@live.mut.ac.za"; su_title := "Ms";
           su_password := "$2a$10$x"; su_status := Some "active" |};
        {| su_email := "202388888@live.mut.ac.za"; su_title := "Mr";
           su_password := "$2a$10$y"; su_status := Some "suspended" |}];
     users := []; staff_codes := []; wil_application := [];
     daily_logsheet :=
       [{| ls_student_number := "202312345"; ls_log_date := 100 |};
        {| ls_student_number := "202388888"; ls_log_date := 50 |}];
     guest_lectures := []; event_attendance := [] |}.

Definition lecture7 : guest_lecture_row :=
  {| gl_id := 7; gl_register_status := "active"; gl_event_date := 200 |}.

(** Staff codes [A0] and [A1] issued, no staff or mentor account, event
    codes [E0] and [E1] issued. *)
Definition site_issued : site :=
  {| main := staff_db ["A0"; "A1"];
     staff_users := []; mentor_users := [];
     event_codes :=
       [{| ec_event_code := "E0"; ec_guest_name := "G"; ec_guest_email := "g@x.y" |};
        {| ec_event_code := "E1"; ec_guest_name := "G"; ec_guest_email := "g@x.y" |}] |}.

Definition staff_signup_A0 : signup_request :=
  {| email := Some "nomsa@mut.ac.za"; title := Some "Dr";
     password := Some "pw"; code := Some "A0" |}.

Definition staff_signup_A2 : signup_request :=
  {| email := Some "nomsa@mut.ac.za"; title := Some "Dr";
     password := Some "pw"; code := Some "A2" |}.

Definition failing_mail : staff_env :=
  {| generateStaffCode := fun k => ("A" ++ string_of_Z (Z.of_nat k))%string;
     staff_mail := Some mail_down |}.

(** Event-code generators: [E0], [E1], [E2], ... and always [E0]. *)
Definition counting_events : event_env :=
  {| generateEventCode := fun k => ("E" ++ string_of_Z (Z.of_nat k))%string;
     event_mail := None |}.

Definition stuck_events : event_env :=
  {| generateEventCode := fun _ => "E0"; event_mail := None |}.

(** ** Properties *)

(** *** Generic facts on filters *)

Lemma filter_neg_filter {A : Type} (p : A -> bool) (l : list A) :
  filter p (filter (fun x => negb (p x)) l) = [].
Proof.
  induction l as [|x l IH]; simpl; [reflexivity|].
  destruct (p x) eqn:E; simpl; [exact IH|].
  rewrite E. exact IH.
Qed.

Lemma filter_filter_nil {A : Type} (p q : A -> bool) (l : list A) :
  filter p l = [] -> filter p (filter q l) = [].
Proof.
  induction l as [|x l IH]; simpl; [reflexivity|].
  destruct (p x) eqn:E; [discriminate|].
  intros H. destruct (q x); simpl; [rewrite E|]; auto.
Qed.

(** *** Running a signup transaction *)

Ltac step_handler :=
  match goal with
  | |- context [match ?x with _ => _ end] =>
      lazymatch x with
      | context [match _ with _ => _ end] => fail
      | _ => destruct x eqn:?
      end
  end.

Ltac unfold_tx :=
  unfold try_catch, beginTransaction, execute, commit, rollback, may_fail,
    bind, ret, throw, gets, modify, getConnection.

(** A signup request either runs through all its steps and commits the
    three writes, or leaves the database as it found it. *)
Lemma student_signup_outcome (env : signup_env) (req : signup_request)
  (c : string) (d : db) :
  code req = Some c ->
  (exists e t p,
      email req = Some e /\ title req = Some t /\ password req = Some p /\
      falsy (Some c) = false /\ no_fault env /\ code_rows c d <> [] /\
      email_free e d /\
      post_student_signup env req d =
        (Some (registered req), all_three_writes e t (digest env 0%nat p) c d))
  \/ (status_of (fst (post_student_signup env req d)) <> Some 201 /\
      snd (post_student_signup env req d) = d).
Proof.
  intros Hc. unfold post_student_signup. rewrite Hc.
  destruct (falsy (Some c)) eqn:Hf; [right; split; [discriminate|reflexivity]|].
  destruct (fault env GetConnection) eqn:Hg;
    [right; split; [discriminate|reflexivity]|].
  unfold student_signup_transaction, student_signup_try, student_signup_catch,
    bcrypt_hash,
    insert_student_user, insert_user, select_signup_codes, delete_signup_codes,
    bind_param.
  unfold_tx. simpl.
  repeat (step_handler; simpl).
  all: try (right; split; [discriminate|reflexivity]).
  left. do 3 eexists. repeat split; try reflexivity; try assumption.
  - intros st. destruct st; assumption.
  - unfold code_rows. intros E. rewrite E in *. discriminate.
Qed.

Lemma student_signup_succeeds (env : signup_env) (req : signup_request)
  (c e t p : string) (d : db) :
  code req = Some c -> email req = Some e -> title req = Some t ->
  password req = Some p ->
  falsy (Some c) = false -> no_fault env -> code_rows c d <> [] ->
  email_free e d ->
  post_student_signup env req d =
    (Some (registered req), all_three_writes e t (digest env 0%nat p) c d).
Proof.
  intros Hc He Ht Hp Hf Hn Hrows [Hsu Hu].
  unfold post_student_signup. rewrite Hc, Hf, (Hn GetConnection).
  unfold student_signup_transaction, student_signup_try, student_signup_catch,
    bcrypt_hash,
    insert_student_user, insert_user, select_signup_codes, delete_signup_codes,
    bind_param.
  unfold_tx. rewrite !Hn, He, Ht, Hp. simpl.
  unfold code_rows in Hrows.
  destruct (filter (fun r => sql_eqb (sc_code r) c) (signup_codes d)) eqn:E;
    [contradiction|].
  simpl. rewrite Hsu. simpl. rewrite Hu. reflexivity.
Qed.

(** The connection goes back to the pool without an open change: the
    transaction was committed, or rolled back on the way out. *)
Lemma student_signup_released (env : signup_env) (req : signup_request)
  (c : string) (d : db) :
  working (snd (student_signup_transaction env req c d)) =
  committed (snd (student_signup_transaction env req c d)).
Proof.
  unfold student_signup_transaction, student_signup_try, student_signup_catch,
    bcrypt_hash, insert_student_user, insert_user, select_signup_codes,
    delete_signup_codes, bind_param.
  unfold_tx. simpl.
  repeat (step_handler; simpl).
  all: reflexivity.
Qed.

(** The database after the request is the committed one of that connection. *)
Lemma student_signup_published (env : signup_env) (req : signup_request)
  (c : string) (d : db) :
  code req = Some c -> falsy (Some c) = false ->
  fault env GetConnection = None ->
  snd (post_student_signup env req d) =
  committed (snd (student_signup_transaction env req c d)).
Proof.
  intros Hc Hf Hg. unfold post_student_signup. rewrite Hc, Hf, Hg.
  destruct (student_signup_transaction env req c d) as [[r|e] conn]; reflexivity.
Qed.

(** What a signup can do to [signup_codes]: nothing, or remove the rows of
    the presented code. *)
Lemma student_signup_codes (env : signup_env) (req : signup_request) (d : db) :
  signup_codes (snd (post_student_signup env req d)) = signup_codes d \/
  exists c,
    signup_codes (snd (post_student_signup env req d)) =
      filter (fun r => negb (sql_eqb (sc_code r) c)) (signup_codes d).
Proof.
  destruct (code req) as [c|] eqn:Hc.
  - destruct (student_signup_outcome env req c d Hc)
      as [(e & t & p & _ & _ & _ & _ & _ & _ & _ & H) | [_ H]].
    + right. exists c. rewrite H. reflexivity.
    + left. rewrite H. reflexivity.
  - left. unfold post_student_signup. rewrite Hc. reflexivity.
Qed.

(** *** Validation and blocking *)

Lemma validate_signup_code_frame (code : option string) (d : db) :
  snd (post_validate_signup_code code d) = d.
Proof.
  unfold post_validate_signup_code.
  destruct (falsy code); [reflexivity|].
  destruct code as [c|]; [|reflexivity].
  unfold select_signup_codes_is_blocked, bind, gets, ret.
  destruct (map _ _) as [|[s b] rows]; [reflexivity|].
  simpl. destruct b; reflexivity.
Qed.

Lemma block_signup_email_effect (email : option string) (d : db) :
  snd (post_block_signup_email email d) = d \/
  exists e, email = Some e /\ falsy email = false /\
    snd (post_block_signup_email email d) =
      with_blocked_signups (blocked_signups d ++ [e]) d.
Proof.
  unfold post_block_signup_email.
  destruct (falsy email) eqn:Hf; [left; reflexivity|].
  destruct email as [e|]; [|left; reflexivity].
  right. exists e. repeat split.
Qed.

(** *** Running a status update *)

(** What a status update can do to [signup_codes]: nothing, or append the
    row of the generated code. *)
Lemma update_status_codes (env : status_env) (id : Z) (status : option string)
  (d : db) :
  signup_codes (snd (put_update_status env id status d)) = signup_codes d \/
  exists r,
    sc_code r = generateRandomCode env /\
    signup_codes (snd (put_update_status env id status d)) = signup_codes d ++ [r].
Proof.
  unfold put_update_status.
  destruct (valid_status status); simpl; [|left; reflexivity].
  destruct status as [s|];
    [|destruct (status_fault env StatusGetConnection); left; reflexivity].
  destruct (status_fault env StatusGetConnection); [left; reflexivity|].
  unfold update_status_try, update_status_catch, select_application,
    update_application, insert_signup_code, sendAcceptanceEmail,
    sendRejectionEmail, sendMail.
  unfold_tx. simpl.
  repeat (step_handler; simpl).
  all: try (left; reflexivity).
  right. eexists. split; [|reflexivity]. reflexivity.
Qed.

(** *** A code without rows stays without rows *)

Lemma serve_keeps_code_absent (c : string) (q : lifecycle_request) (d : db) :
  issues c q = false -> code_rows c d = [] -> code_rows c (serve q d) = [].
Proof.
  intros Hq Habs. unfold code_rows in *.
  destruct q as [env req|code|email|env id status]; simpl in *.
  - destruct (student_signup_codes env req d) as [H|[c' H]]; rewrite H.
    + exact Habs.
    + apply filter_filter_nil. exact Habs.
  - rewrite validate_signup_code_frame. exact Habs.
  - destruct (block_signup_email_effect email d) as [H|(e & _ & _ & H)];
      rewrite H; exact Habs.
  - destruct (update_status_codes env id status d) as [H|(r & Hr & H)]; rewrite H.
    + exact Habs.
    + rewrite filter_app, Habs. simpl. rewrite Hr, Hq. reflexivity.
Qed.

Lemma serve_all_keeps_code_absent (c : string) (qs : list lifecycle_request) :
  forall d,
    forallb (fun q => negb (issues c q)) qs = true ->
    code_rows c d = [] -> code_rows c (serve_all qs d) = [].
Proof.
  induction qs as [|q qs IH]; intros d Hqs Habs; simpl in *; [exact Habs|].
  apply andb_true_iff in Hqs. destruct Hqs as [Hq Hqs].
  apply IH; [exact Hqs|].
  apply serve_keeps_code_absent; [|exact Habs].
  destruct (issues c q); [discriminate|reflexivity].
Qed.

(** A lookup that finds no row ends the attempt before any write. *)
Lemma student_signup_absent_code (env : signup_env) (req : signup_request)
  (c : string) (d : db) :
  code req = Some c -> code_rows c d = [] ->
  snd (post_student_signup env req d) = d /\
  status_of (fst (post_student_signup env req d)) <> Some 201 /\
  (falsy (Some c) = false ->
   fault env GetConnection = None -> fault env BeginTransaction = None ->
   fault env SelectCode = None ->
   fst (post_student_signup env req d) = Some invalid_code).
Proof.
  intros Hc Habs.
  destruct (student_signup_outcome env req c d Hc)
    as [(e & t & p & _ & _ & _ & _ & _ & Hrows & _) | [Hst Hd]];
    [contradiction|].
  repeat split; [exact Hd|exact Hst|].
  intros Hf Hg Hb Hs. unfold post_student_signup.
  rewrite Hc, Hf, Hg.
  unfold student_signup_transaction, student_signup_try, select_signup_codes.
  unfold_tx.
  rewrite Hb, Hs. simpl. unfold code_rows in Habs. rewrite Habs. reflexivity.
Qed.

(** *** Redemption of signup codes *)

(** C1. Single use of signup codes: once [POST /api/student_signup] has
    redeemed code [c] (answer 201, rows of [c] deleted and committed), every
    later attempt that presents [c] leaves the database as it is and is not
    answered 201, whatever requests of the code lifecycle were served in
    between, as long as none of them issued a code equal to [c] again; and
    when the lookup of the attempt runs, the answer is the 400
    "Invalid or expired signup code". *)
Theorem signup_code_single_use
  (env : signup_env) (req : signup_request) (c : string) (r : response)
  (d d1 : db) :
  code req = Some c ->
  post_student_signup env req d = (Some r, d1) ->
  http_status r = 201 ->
  forall (qs : list lifecycle_request) (env' : signup_env) (req' : signup_request),
    forallb (fun q => negb (issues c q)) qs = true ->
    code req' = Some c ->
    let d2 := serve_all qs d1 in
    snd (post_student_signup env' req' d2) = d2 /\
    status_of (fst (post_student_signup env' req' d2)) <> Some 201 /\
    (fault env' GetConnection = None ->
     fault env' BeginTransaction = None ->
     fault env' SelectCode = None ->
     fst (post_student_signup env' req' d2) = Some invalid_code).
Proof.
  intros Hc Hpost H201 qs env' req' Hqs Hc' d2.
  destruct (student_signup_outcome env req c d Hc)
    as [(e & t & p & _ & _ & _ & Hf & _ & _ & _ & Heq) | [Hst _]].
  - assert (Habs : code_rows c d2 = []).
    { apply serve_all_keeps_code_absent; [exact Hqs|].
      rewrite Hpost in Heq. injection Heq as _ Hd1. subst d1.
      unfold code_rows, all_three_writes. simpl.
      apply (filter_neg_filter (fun r => sql_eqb (sc_code r) c)). }
    destruct (student_signup_absent_code env' req' c d2 Hc' Habs) as (H1 & H2 & H3).
    repeat split; [exact H1|exact H2|].
    intros. apply H3; assumption.
  - exfalso. apply Hst. rewrite Hpost. simpl. rewrite H201. reflexivity.
Qed.

(** C2. Atomicity of student redemption: a call of
    [POST /api/student_signup] with a code that exists either is answered 201
    with all three writes persisted together (the row in [student_users], the
    row in [users] with the same digest, that of the one call of
    [bcrypt.hash], and the rows of the code deleted), or is not answered 201
    and leaves the whole database as it was, so that the code row is still
    there and a later undisturbed attempt with a free address redeems it.
    The second case is the one taken whenever an awaited database call fails
    or the address is already in one of the account tables.  In that case
    the transaction is rolled back: the connection the handler releases holds
    the database as it was, both as committed and in its working copy, so
    that no write of the failed attempt is left to be published later; and
    in either case nothing is left open on the released connection. *)
Theorem student_signup_atomic
  (env : signup_env) (req : signup_request) (c : string) (d : db) :
  code req = Some c ->
  code_rows c d <> [] ->
  let out := post_student_signup env req d in
  ((exists e t p,
       email req = Some e /\ title req = Some t /\ password req = Some p /\
       out = (Some (registered req), all_three_writes e t (digest env 0%nat p) c d))
   \/
   (status_of (fst out) <> Some 201 /\ snd out = d /\
    code_rows c (snd out) <> [] /\
    forall env' req' e t p,
      code req' = Some c -> email req' = Some e -> title req' = Some t ->
      password req' = Some p -> falsy (Some c) = false -> no_fault env' ->
      email_free e d ->
      post_student_signup env' req' (snd out) =
        (Some (registered req'), all_three_writes e t (digest env' 0%nat p) c d)))
  /\
  ((exists s, fault env s <> None) ->
   status_of (fst out) <> Some 201 /\ snd out = d)
  /\
  (forall e, email req = Some e -> ~ email_free e d ->
   status_of (fst out) <> Some 201 /\ snd out = d)
  /\
  (falsy (Some c) = false -> fault env GetConnection = None ->
   let conn := snd (student_signup_transaction env req c d) in
   committed conn = snd out /\ working conn = committed conn /\
   (status_of (fst out) <> Some 201 -> committed conn = d /\ working conn = d)).
Proof.
  intros Hc Hrows out. subst out.
  assert (Hconn :
    falsy (Some c) = false -> fault env GetConnection = None ->
    let conn := snd (student_signup_transaction env req c d) in
    committed conn = snd (post_student_signup env req d) /\
    working conn = committed conn).
  { intros Hf Hg conn. subst conn. split.
    - symmetry. apply student_signup_published; assumption.
    - apply student_signup_released. }
  destruct (student_signup_outcome env req c d Hc)
    as [(e & t & p & He & Ht & Hp & Hf & Hn & _ & Hfree & Heq) | [Hst Hd]].
  - split; [|split; [|split]].
    + left. exists e, t, p. auto.
    + intros [s Hs]. exfalso. apply Hs, Hn.
    + intros e' He' Hnot. rewrite He in He'. injection He' as <-. contradiction.
    + intros Hf' Hg conn. destruct (Hconn Hf' Hg) as [H1 H2]. subst conn.
      split; [exact H1|]. split; [exact H2|].
      intros Hno. exfalso. apply Hno. rewrite Heq. reflexivity.
  - split; [|split; [|split]].
    + right. rewrite Hd. repeat split; [exact Hst|exact Hrows|].
      intros env' req' e t p Hc' He Ht Hp Hf Hn Hfree.
      apply (student_signup_succeeds env' req' c e t p d); assumption.
    + intros _. split; assumption.
    + intros e _ _. split; assumption.
    + intros Hf Hg conn. destruct (Hconn Hf Hg) as [H1 H2]. subst conn.
      split; [exact H1|]. split; [exact H2|].
      intros _. rewrite H2, H1. split; exact Hd.
Qed.

(** C3. Blocked email and redemption.  The property claimed is that no
    code whose stored address has been blocked can be redeemed.  The
    handlers do otherwise: after [POST /api/block-signup-email] for the
    address stored with code [c], validation of [c] answers
    "This email is blocked from signing up", and yet an undisturbed
    [POST /api/student_signup] presenting [c] is answered 201, creates both
    account rows and consumes the code, because the redemption never reads
    [blocked_signups]. *)
Theorem blocked_email_still_redeems
  (env : signup_env) (req : signup_request) (c e t p : string)
  (s : signup_code_row) (rows : list signup_code_row) (d : db) :
  code_rows c d = s :: rows ->
  falsy (Some (sc_email s)) = false ->
  sql_eqb (sc_email s) (sc_email s) = true ->
  code req = Some c -> email req = Some e -> title req = Some t ->
  password req = Some p -> falsy (Some c) = false -> no_fault env ->
  email_free e d ->
  let d1 := snd (post_block_signup_email (Some (sc_email s)) d) in
  fst (post_validate_signup_code (Some c) d1) = Some email_blocked /\
  post_student_signup env req d1 =
    (Some (registered req), all_three_writes e t (digest env 0%nat p) c d1).
Proof.
  intros Hrows Hfe Hrefl Hc He Ht Hp Hf Hn Hfree d1.
  assert (Hd1 : d1 = with_blocked_signups (blocked_signups d ++ [sc_email s]) d).
  { subst d1. unfold post_block_signup_email. rewrite Hfe. reflexivity. }
  split.
  - unfold post_validate_signup_code. rewrite Hf.
    unfold select_signup_codes_is_blocked, bind, gets, ret.
    rewrite Hd1. simpl. unfold code_rows in Hrows. rewrite Hrows. simpl.
    rewrite existsb_app. simpl. rewrite Hrefl, orb_true_r. reflexivity.
  - apply student_signup_succeeds; try assumption.
    + rewrite Hd1. unfold code_rows in *. simpl. rewrite Hrows. discriminate.
    + rewrite Hd1. exact Hfree.
Qed.

(** *** Status updates and mail *)

(** With the mail transport up, accepting an application commits the new
    status and the issued code. *)
Lemma update_status_accepted_mail_up
  (env : status_env) (id : Z) (app : application_row)
  (apps : list application_row) (d : db) :
  no_status_fault env -> status_mail env = None ->
  filter (fun a => app_id a =? id) (wil_application d) = app :: apps ->
  exists r d',
    put_update_status env id (Some "Accepted") d = (Some r, d') /\
    http_status r = 200 /\
    field "code" r = Some (JStr (generateRandomCode env)) /\
    code_rows (generateRandomCode env) d' =
      code_rows (generateRandomCode env) d ++
      filter (fun r => sql_eqb (sc_code r) (generateRandomCode env))
        [{| sc_application_id := id; sc_code := generateRandomCode env;
            sc_first_names := app_first_names app;
            sc_surname := app_surname app;
            sc_student_number := app_student_number app;
            sc_level_of_study := app_level_of_study app;
            sc_email := app_email app |}] /\
    wil_application d' =
      map (fun a => if app_id a =? id then set_app_status "Accepted" a else a)
          (wil_application d).
Proof.
  intros Hn Hmail Happ.
  unfold put_update_status. simpl. rewrite (Hn StatusGetConnection).
  unfold update_status_try, update_status_catch, select_application,
    update_application, insert_signup_code, sendAcceptanceEmail, sendMail.
  unfold_tx. rewrite !Hn, Hmail. simpl. rewrite Happ. simpl. rewrite Happ. simpl.
  do 2 eexists. split; [reflexivity|]. simpl.
  repeat split. unfold code_rows. simpl. apply filter_app.
Qed.

(** C4. Notification failure and committed state.  The property claimed is
    that a failing mail never undoes a status update.  The handler does
    otherwise: with every database call succeeding and the application
    present, a failure of the acceptance or rejection mail is answered 500
    "Database operation failed" and the transaction is rolled back, so
    neither the new status nor the issued code is persisted. *)
Theorem mail_failure_rolls_back_status_update
  (env : status_env) (id : Z) (status : string) (err : js_error)
  (app : application_row) (apps : list application_row) (d : db) :
  no_status_fault env -> status_mail env = Some err ->
  filter (fun a => app_id a =? id) (wil_application d) = app :: apps ->
  status = "Accepted" \/ status = "Rejected" ->
  put_update_status env id (Some status) d =
    (Some (database_operation_failed email_failed), d).
Proof.
  intros Hn Hmail Happ [-> | ->].
  all: unfold put_update_status; simpl; rewrite (Hn StatusGetConnection).
  all: unfold update_status_try, update_status_catch, select_application,
         update_application, insert_signup_code, sendAcceptanceEmail,
         sendRejectionEmail, sendMail.
  all: unfold_tx; rewrite !Hn, Hmail; simpl; rewrite Happ; simpl.
  all: rewrite Happ; reflexivity.
Qed.

(** *** Validation *)

(** C9. Validation is read-only: any number of calls of
    [POST /api/validate-signup-code] leaves the database, and so
    [signup_codes] and [blocked_signups], as it was; a code that exists and
    whose stored address is not blocked is answered [success: true] on every
    repetition and its rows are still there afterwards. *)
Theorem validation_is_read_only (n : nat) (code : option string) (d : db) :
  snd (validate_repeatedly n code d) = d /\
  (forall c s rows,
     code = Some c -> falsy code = false ->
     code_rows c d = s :: rows ->
     existsb (fun b => sql_eqb b (sc_email s)) (blocked_signups d) = false ->
     fst (validate_repeatedly n code d) = repeat (Some valid_code) n /\
     code_rows c (snd (validate_repeatedly n code d)) = s :: rows).
Proof.
  assert (Hframe : forall m, snd (validate_repeatedly m code d) = d).
  { induction m as [|m IH]; simpl; [reflexivity|].
    pose proof (validate_signup_code_frame code d) as Hd.
    destruct (post_validate_signup_code code d) as [r d']. simpl in Hd. subst d'.
    destruct (validate_repeatedly m code d) as [rs d'']. exact IH. }
  split; [apply Hframe|].
  intros c s rows -> Hf Hrows Hfree.
  split; [|rewrite Hframe; exact Hrows].
  assert (Hone : post_validate_signup_code (Some c) d = (Some valid_code, d)).
  { unfold post_validate_signup_code. rewrite Hf.
    unfold select_signup_codes_is_blocked, bind, gets, ret.
    unfold code_rows in Hrows. rewrite Hrows. simpl. rewrite Hfree. reflexivity. }
  induction n as [|n IH]; simpl; [reflexivity|].
  rewrite Hone.
  destruct (validate_repeatedly n (Some c) d) as [rs d'']. simpl in *.
  rewrite IH. reflexivity.
Qed.

(** *** Student status *)

Lemma filter_map_if {A : Type} (f : A -> bool) (g : A -> A) (l : list A) :
  (forall x, f (g x) = f x) ->
  filter f (map (fun x => if f x then g x else x) l) = map g (filter f l).
Proof.
  intros Hfg. induction l as [|x l IH]; simpl; [reflexivity|].
  destruct (f x) eqn:E; simpl.
  - rewrite Hfg, E. simpl. rewrite IH. reflexivity.
  - rewrite E. exact IH.
Qed.

Lemma student_rows_with_status (status sn : string) (d : db) :
  student_rows sn (with_status status sn d) =
    map (set_su_status status) (student_rows sn d).
Proof.
  unfold student_rows, with_status. simpl.
  apply (filter_map_if
           (fun r => sql_like (su_email r) (student_pattern sn))
           (set_su_status status)).
  reflexivity.
Qed.

Lemma status_differs_same (s : string) : status_differs s (Some s) = false.
Proof. unfold status_differs. rewrite String.eqb_refl. reflexivity. Qed.

(** The run of a recomputation for a student that exists. *)
Lemma update_student_status_effect (today : Z) (sn : string) (d : db)
  (s0 : student_user_row) (rest : list student_user_row) :
  student_rows sn d = s0 :: rest ->
  let target := computed_status today (last_log_date sn d) in
  let changed := status_differs target (su_status s0) in
  exists r,
    post_update_student_status today sn d =
      (Some r, if changed then with_status target sn d else d) /\
    http_status r = 200 /\
    field "status_changed" r = Some (JBool changed).
Proof.
  intros Hrows target changed. subst target changed.
  unfold post_update_student_status, update_student_status_try, select_student,
    select_last_log_date, select_datediff, update_student, bind, gets, ret, modify.
  unfold student_rows in Hrows. rewrite Hrows.
  unfold computed_status, last_log_date.
  destruct (map ls_log_date _) as [|x xs]; simpl.
  - destruct (status_differs "inactive" (su_status s0)); simpl;
      eexists; repeat split.
  - destruct (today - fold_left Z.max xs x <=? 10); simpl.
    + destruct (status_differs "active" (su_status s0)); simpl;
        eexists; repeat split.
    + destruct (status_differs "inactive" (su_status s0)); simpl;
        eexists; repeat split.
Qed.

(** After a recomputation the student's row carries the computed status. *)
Lemma update_student_status_stored (today : Z) (sn : string) (d : db)
  (s0 : student_user_row) (rest : list student_user_row) :
  student_rows sn d = s0 :: rest ->
  stored_status sn (snd (post_update_student_status today sn d)) =
    Some (Some (computed_status today (last_log_date sn d))).
Proof.
  intros Hrows.
  destruct (update_student_status_effect today sn d s0 rest Hrows)
    as (r & Heq & _ & _).
  rewrite Heq. simpl. unfold stored_status.
  destruct (status_differs _ (su_status s0)) eqn:Hdiff.
  - rewrite student_rows_with_status, Hrows. reflexivity.
  - rewrite Hrows. simpl. unfold status_differs in Hdiff.
    destruct (su_status s0) as [s|]; [|discriminate].
    apply negb_false_iff, String.eqb_eq in Hdiff. rewrite Hdiff. reflexivity.
Qed.

(** C5. Activity threshold of the status recomputation: for a student that
    exists, [POST /api/update-student-status/:student_number] answers 200
    and leaves the student's stored status at "inactive" when the student
    has no logsheet, and otherwise, with the day difference between today
    and the latest [log_date], at "active" when the difference is at most
    10 and at "inactive" when it is more than 10. *)
Theorem activity_threshold_rule (today : Z) (sn : string) (d : db)
  (s0 : student_user_row) (rest : list student_user_row) :
  student_rows sn d = s0 :: rest ->
  let out := post_update_student_status today sn d in
  status_of (fst out) = Some 200 /\
  (last_log_date sn d = None ->
   stored_status sn (snd out) = Some (Some "inactive")) /\
  (forall l, last_log_date sn d = Some l -> today - l <= 10 ->
   stored_status sn (snd out) = Some (Some "active")) /\
  (forall l, last_log_date sn d = Some l -> today - l > 10 ->
   stored_status sn (snd out) = Some (Some "inactive")).
Proof.
  intros Hrows out. subst out.
  pose proof (update_student_status_stored today sn d s0 rest Hrows) as Hst.
  destruct (update_student_status_effect today sn d s0 rest Hrows)
    as (r & Heq & H200 & _).
  split; [rewrite Heq; simpl; rewrite H200; reflexivity|].
  rewrite Hst. unfold computed_status.
  split; [|split].
  - intros ->. reflexivity.
  - intros l -> Hle. apply Z.leb_le in Hle. rewrite Hle. reflexivity.
  - intros l -> Hgt.
    destruct (today - l <=? 10) eqn:E; [apply Z.leb_le in E; lia|reflexivity].
Qed.

(** C7. Idempotent no-op of the recomputation: when
    [POST /api/update-student-status/:student_number] is called twice for a
    student that exists, on the same date, with [student_users] and
    [daily_logsheet] as the first call left them, the second call reports
    [status_changed: false] and leaves the database, and so the stored
    status, as it was after the first call. *)
Theorem recompute_twice_is_noop (today : Z) (sn : string) (d d1 : db)
  (s0 : student_user_row) (rest : list student_user_row) :
  student_rows sn d = s0 :: rest ->
  student_users d1 = student_users (snd (post_update_student_status today sn d)) ->
  daily_logsheet d1 = daily_logsheet d ->
  exists r2,
    post_update_student_status today sn d1 = (Some r2, d1) /\
    field "status_changed" r2 = Some (JBool false) /\
    stored_status sn d1 =
      stored_status sn (snd (post_update_student_status today sn d)).
Proof.
  intros Hrows Hsu Hls.
  pose proof (update_student_status_stored today sn d s0 rest Hrows) as Hst.
  assert (Hrows1 : student_rows sn d1 =
            student_rows sn (snd (post_update_student_status today sn d))).
  { unfold student_rows. rewrite Hsu. reflexivity. }
  assert (Hlast : last_log_date sn d1 = last_log_date sn d).
  { unfold last_log_date. rewrite Hls. reflexivity. }
  unfold stored_status in Hst. rewrite <- Hrows1 in Hst.
  destruct (student_rows sn d1) as [|s1 rest1] eqn:E1; [discriminate|].
  simpl in Hst. injection Hst as Hs1.
  destruct (update_student_status_effect today sn d1 s1 rest1 E1)
    as (r2 & Heq & _ & Hchg).
  rewrite Hlast, Hs1, status_differs_same in Heq, Hchg.
  exists r2. repeat split; [exact Heq|exact Hchg|].
  unfold stored_status. rewrite <- Hrows1, E1. reflexivity.
Qed.

Lemma update_student_status_keeps_logsheets (today : Z) (sn : string) (d : db) :
  daily_logsheet (snd (post_update_student_status today sn d)) = daily_logsheet d.
Proof.
  destruct (student_rows sn d) as [|s0 rest] eqn:Hrows.
  - unfold post_update_student_status, update_student_status_try, select_student,
      bind, gets, ret.
    unfold student_rows in Hrows. rewrite Hrows. reflexivity.
  - destruct (update_student_status_effect today sn d s0 rest Hrows)
      as (r & Heq & _ & _).
    rewrite Heq. simpl. destruct (status_differs _ _); reflexivity.
Qed.

Lemma suspend_student_effect (mail : option js_error) (sn : string) (d : db)
  (s0 : student_user_row) (rest : list student_user_row) :
  student_rows sn d = s0 :: rest ->
  exists r,
    post_suspend_student mail sn d = (Some r, with_status "suspended" sn d) /\
    http_status r = 200.
Proof.
  intros Hrows.
  pose proof (student_rows_with_status "suspended" sn d) as Hupd.
  rewrite Hrows in Hupd. unfold student_rows in Hrows, Hupd.
  unfold post_suspend_student, suspend_student_try, select_student, update_student,
    sendSuspensionEmail, sendMail, try_catch, may_fail, bind, gets, ret, throw,
    modify.
  rewrite Hrows. fold (with_status "suspended" sn d). rewrite Hupd. simpl.
  destruct mail; simpl; eexists; split; reflexivity.
Qed.

Lemma unenroll_student_effect (mail : option js_error) (sn : string) (d : db)
  (s0 : student_user_row) (rest : list student_user_row) :
  student_rows sn d = s0 :: rest ->
  exists r,
    post_unenroll_student mail sn d = (Some r, with_status "unenrolled" sn d) /\
    http_status r = 200.
Proof.
  intros Hrows.
  pose proof (student_rows_with_status "unenrolled" sn d) as Hupd.
  rewrite Hrows in Hupd. unfold student_rows in Hrows, Hupd.
  unfold post_unenroll_student, unenroll_student_try, select_student, update_student,
    sendUnenrollEmail, sendMail, try_catch, may_fail, bind, gets, ret, throw,
    modify.
  rewrite Hrows. fold (with_status "unenrolled" sn d). rewrite Hupd. simpl.
  destruct mail; simpl; eexists; split; reflexivity.
Qed.

(** A recomputation that follows an administrative status different from
    "active" rewrites every row of the student. *)
Lemma recompute_after_admin_status (today l : Z) (sn admin : string) (d : db)
  (s0 : student_user_row) (rest : list student_user_row) :
  student_rows sn d = s0 :: rest ->
  last_log_date sn d = Some l -> today - l <= 10 ->
  String.eqb "active" admin = false ->
  let d1 := with_status admin sn d in
  stored_status sn d1 = Some (Some admin) /\
  Forall (fun r => su_status r = Some "active")
    (student_rows sn (snd (post_update_student_status today sn d1))).
Proof.
  intros Hrows Hlast Hle Hadmin d1.
  assert (Hrows1 : student_rows sn d1 =
            set_su_status admin s0 :: map (set_su_status admin) rest).
  { subst d1. rewrite student_rows_with_status, Hrows. reflexivity. }
  split; [unfold stored_status; rewrite Hrows1; reflexivity|].
  destruct (update_student_status_effect today sn d1 _ _ Hrows1)
    as (r & Heq & _ & _).
  assert (Hlast1 : last_log_date sn d1 = Some l) by exact Hlast.
  rewrite Hlast1 in Heq. unfold computed_status in Heq.
  apply Z.leb_le in Hle. rewrite Hle in Heq.
  assert (Hdiff : status_differs "active" (su_status (set_su_status admin s0)) = true).
  { unfold status_differs, set_su_status, su_status. rewrite Hadmin. reflexivity. }
  rewrite Hdiff in Heq.
  rewrite Heq. unfold snd. rewrite student_rows_with_status.
  apply Forall_forall. intros x Hx. apply in_map_iff in Hx.
  destruct Hx as (y & <- & _). reflexivity.
Qed.

(** C10. Recomputation overrides administrative statuses: for a student
    that exists and whose latest [log_date] is at most 10 days before today,
    [POST /api/update-student-status/:student_number] leaves the stored
    status at "active" whatever it was; in particular, after
    [POST /api/suspend-student/:student_number] or
    [POST /api/unenroll-student/:student_number] has stored "suspended" or
    "unenrolled", the recomputation puts every row of the student back to
    "active". *)
Theorem recompute_overrides_admin_status (today l : Z) (sn : string)
  (mail : option js_error) (d : db)
  (s0 : student_user_row) (rest : list student_user_row) :
  student_rows sn d = s0 :: rest ->
  last_log_date sn d = Some l ->
  today - l <= 10 ->
  stored_status sn (snd (post_update_student_status today sn d)) =
    Some (Some "active") /\
  (let d1 := snd (post_suspend_student mail sn d) in
   stored_status sn d1 = Some (Some "suspended") /\
   Forall (fun r => su_status r = Some "active")
     (student_rows sn (snd (post_update_student_status today sn d1)))) /\
  (let d1 := snd (post_unenroll_student mail sn d) in
   stored_status sn d1 = Some (Some "unenrolled") /\
   Forall (fun r => su_status r = Some "active")
     (student_rows sn (snd (post_update_student_status today sn d1)))).
Proof.
  intros Hrows Hlast Hle.
  split; [|split].
  - rewrite (update_student_status_stored today sn d s0 rest Hrows), Hlast.
    unfold computed_status. apply Z.leb_le in Hle. rewrite Hle. reflexivity.
  - destruct (suspend_student_effect mail sn d s0 rest Hrows) as (r & Heq & _).
    rewrite Heq. simpl.
    apply (recompute_after_admin_status today l sn "suspended" d s0 rest);
      auto.
  - destruct (unenroll_student_effect mail sn d s0 rest Hrows) as (r & Heq & _).
    rewrite Heq. simpl.
    apply (recompute_after_admin_status today l sn "unenrolled" d s0 rest);
      auto.
Qed.

(** *** Event registration *)

(** C8. Registration cap: for an event that exists, is open for
    registration and is not in the past, and a student with an accepted
    application, [POST /api/lectures/register] inserts one [event_attendance]
    row when the pair has no registration yet, and with one or more
    registrations answers 403 and inserts nothing; so the call never takes
    the registrations of the pair above 1. *)
Theorem registration_cap (today ev : Z) (st : string) (d : db)
  (e : guest_lecture_row) (events : list guest_lecture_row)
  (a : Z) (apps : list Z) :
  ev <> 0 -> falsy (Some st) = false ->
  filter (fun x => gl_id x =? ev) (guest_lectures d) = e :: events ->
  gl_register_status e = "active" ->
  today <= gl_event_date e ->
  map app_id
    (filter (fun x => sql_eqb (app_student_number x) st &&
                      sql_eqb (app_status x) "accepted")
            (wil_application d)) = a :: apps ->
  let out := post_lectures_register today (Some ev) (Some st) d in
  (registration_count ev a d = 0%nat ->
   out = (Some registered_for_lecture,
          with_event_attendance
            (event_attendance d ++
              [{| ea_event_id := ev; ea_student_id := a; ea_attended := false |}]) d) /\
   registration_count ev a (snd out) = 1%nat) /\
  ((1 <= registration_count ev a d)%nat ->
   out = (Some (forbidden "Maximum registrations (2) reached for this event"), d)) /\
  (registration_count ev a (snd out) <= Nat.max 1 (registration_count ev a d))%nat.
Proof.
  intros Hev Hst Hevent Hactive Hdate Happ out.
  assert (Hrun : out =
    if (1 <=? registration_count ev a d)%nat
    then (Some (forbidden "Maximum registrations (2) reached for this event"), d)
    else (Some registered_for_lecture,
          with_event_attendance
            (event_attendance d ++
              [{| ea_event_id := ev; ea_student_id := a; ea_attended := false |}]) d)).
  { subst out. unfold post_lectures_register.
    apply Z.eqb_neq in Hev. rewrite Hev, Hst. simpl.
    unfold lectures_register_try, select_event, select_accepted_application,
      select_registration_count, insert_attendance, bind, gets, ret, modify.
    rewrite Hevent, Hactive. simpl.
    assert (Hd : (gl_event_date e <? today) = false) by (apply Z.ltb_ge; exact Hdate).
    rewrite Hd, Happ. fold (registration_count ev a d).
    destruct (registration_count ev a d); reflexivity. }
  assert (Hnew : forall n, registration_count ev a d = n ->
    registration_count ev a
      (with_event_attendance
         (event_attendance d ++
           [{| ea_event_id := ev; ea_student_id := a; ea_attended := false |}]) d)
    = S n).
  { intros n Hn. unfold registration_count in *. simpl.
    rewrite filter_app, length_app, Hn. simpl. rewrite !Z.eqb_refl. simpl. lia. }
  split; [|split].
  - intros H0. rewrite Hrun, H0. simpl. split; [reflexivity|]. apply Hnew, H0.
  - intros H1. rewrite Hrun. apply Nat.leb_le in H1. rewrite H1. reflexivity.
  - rewrite Hrun. destruct (1 <=? registration_count ev a d)%nat eqn:E; unfold snd.
    + lia.
    + apply Nat.leb_gt in E. rewrite (Hnew 0%nat); lia.
Qed.

(** *** Issuing staff codes *)

Section RetryLoop.

Variable env : staff_env.
Variable d : db.

Lemma search_body_unique (st : code_search) :
  isUnique (search_body env d st) = negb (collides env d (calls st)).
Proof. unfold search_body, collides. simpl. rewrite negb_involutive. reflexivity. Qed.

(** With enough fuel the loop has left through its condition. *)
Lemma search_loop_exits (fuel : nat) :
  forall st,
    (maxAttempts <= attempts st + fuel)%nat ->
    search_again (search_loop fuel env d st) = false.
Proof.
  induction fuel as [|fuel IH]; intros st Hfuel; simpl.
  - unfold search_again.
    assert (H : (attempts st <? maxAttempts)%nat = false) by (apply Nat.ltb_ge; lia).
    rewrite H. apply andb_false_r.
  - destruct (search_again st) eqn:E; [|exact E].
    apply IH. simpl. lia.
Qed.

(** More fuel than [maxAttempts] changes nothing. *)
Lemma search_loop_fuel (fuel : nat) :
  forall st,
    (maxAttempts <= attempts st + fuel)%nat ->
    search_loop (S fuel) env d st = search_loop fuel env d st.
Proof.
  induction fuel as [|fuel IH]; intros st Hfuel.
  - simpl. unfold search_again.
    assert (H : (attempts st <? maxAttempts)%nat = false) by (apply Nat.ltb_ge; lia).
    rewrite H, andb_false_r. reflexivity.
  - change (search_loop (S (S fuel)) env d st)
      with (if search_again st
            then search_loop (S fuel) env d (search_body env d st) else st).
    change (search_loop (S fuel) env d st)
      with (if search_again st
            then search_loop fuel env d (search_body env d st) else st).
    destruct (search_again st); [|reflexivity].
    apply IH. simpl. lia.
Qed.

(** Every iteration calls the generator once, and there are at most
    [maxAttempts] iterations. *)
Lemma search_loop_calls (fuel : nat) :
  forall st,
    calls st = attempts st ->
    (attempts st <= maxAttempts)%nat ->
    calls (search_loop fuel env d st) = attempts (search_loop fuel env d st) /\
    (attempts (search_loop fuel env d st) <= maxAttempts)%nat.
Proof.
  induction fuel as [|fuel IH]; intros st Hc Hle; simpl; [auto|].
  destruct (search_again st) eqn:E; [|auto].
  apply IH; simpl; [congruence|].
  unfold search_again in E. apply andb_true_iff in E. destruct E as [_ E].
  apply Nat.ltb_lt in E. lia.
Qed.

(** The loop stops at the first call whose code does not collide. *)
Lemma search_loop_first_fresh (n : nat) :
  forall fuel st,
    isUnique st = false -> calls st = attempts st ->
    (forall j, (j < n)%nat -> collides env d (attempts st + j) = true) ->
    collides env d (attempts st + n) = false ->
    (attempts st + n < maxAttempts)%nat -> (n < fuel)%nat ->
    search_loop fuel env d st = found_at env (attempts st + n).
Proof.
  induction n as [|n IH]; intros fuel st Hu Hc Hbefore Hfresh Hmax Hfuel.
  - destruct fuel as [|fuel]; [lia|]. simpl.
    unfold search_again. rewrite Hu.
    assert (H : (attempts st <? maxAttempts)%nat = true) by (apply Nat.ltb_lt; lia).
    rewrite H. simpl.
    assert (Hst : search_body env d st = found_at env (attempts st + 0)).
    { unfold found_at. rewrite Nat.add_0_r in *.
      pose proof (search_body_unique st) as Hb. rewrite Hc, Hfresh in Hb.
      unfold search_body in *. simpl in *. rewrite Hb, Hc. reflexivity. }
    rewrite Hst. destruct fuel; reflexivity.
  - destruct fuel as [|fuel]; [lia|]. simpl.
    unfold search_again. rewrite Hu.
    assert (H : (attempts st <? maxAttempts)%nat = true) by (apply Nat.ltb_lt; lia).
    rewrite H. simpl.
    replace (attempts st + S n)%nat
      with (attempts (search_body env d st) + n)%nat by (simpl; lia).
    apply IH.
    + rewrite search_body_unique, Hc.
      specialize (Hbefore 0%nat). rewrite Nat.add_0_r in Hbefore.
      rewrite Hbefore; [reflexivity|lia].
    + simpl. congruence.
    + intros j Hj. cbn [attempts search_body].
      rewrite Nat.add_succ_comm. apply Hbefore. lia.
    + cbn [attempts search_body]. rewrite Nat.add_succ_comm. exact Hfresh.
    + simpl. lia.
    + lia.
Qed.

(** When every code collides the loop gives up after [maxAttempts] calls. *)
Lemma search_loop_all_collide (fuel : nat) :
  forall st,
    isUnique st = false -> calls st = attempts st ->
    (attempts st <= maxAttempts)%nat ->
    (forall j, (attempts st <= j < maxAttempts)%nat -> collides env d j = true) ->
    (maxAttempts <= attempts st + fuel)%nat ->
    isUnique (search_loop fuel env d st) = false /\
    calls (search_loop fuel env d st) = maxAttempts.
Proof.
  induction fuel as [|fuel IH]; intros st Hu Hc Hle Hall Hfuel; simpl.
  - split; [exact Hu|lia].
  - unfold search_again. rewrite Hu. simpl.
    destruct (attempts st <? maxAttempts)%nat eqn:E.
    + apply Nat.ltb_lt in E. apply IH.
      * rewrite search_body_unique, Hc, Hall; [reflexivity|lia].
      * simpl. congruence.
      * simpl. lia.
      * intros j Hj. apply Hall. simpl in Hj. lia.
      * simpl. lia.
    + apply Nat.ltb_ge in E. split; [exact Hu|lia].
Qed.

End RetryLoop.

(** C6. Bounded retry of staff-code issuance: for a request to
    [POST /api/staff_codes] with a name and a well-formed address, the retry
    loop ends by its own condition after at most 5 calls of the code
    generator.  When call number [k] (below 5) is the first to give a code
    that is not yet in [staff_codes], the loop stops after [k + 1] calls and
    that code is inserted in one row, nothing else changing; the answer is
    201 when the mail goes out.  When all 5 codes collide, the answer is 500
    "Failed to generate unique staff code" and the database is unchanged. *)
Theorem staff_code_bounded_retry (env : staff_env) (name mail : string) (d : db) :
  falsy (Some name) = false ->
  falsy (Some mail) = false ->
  emailRegex_test mail = true ->
  let st := search_loop maxAttempts env d search_start in
  let out := post_staff_codes env (Some name) (Some mail) d in
  search_again st = false /\
  (calls st <= 5)%nat /\
  (forall k,
     (k < 5)%nat -> collides env d k = false ->
     (forall j, (j < k)%nat -> collides env d j = true) ->
     calls st = S k /\
     snd out =
       with_staff_codes
         (staff_codes d ++
           [{| stc_code := generateStaffCode env k; stc_staff_name := name;
               stc_staff_email := mail |}]) d /\
     (staff_mail env = None ->
      fst out = Some (staff_code_created (generateStaffCode env k)))) /\
  ((forall k, (k < 5)%nat -> collides env d k = true) ->
   calls st = 5%nat /\ out = (Some staff_code_exhausted, d)).
Proof.
  intros Hname Hmail Hregex st out.
  assert (Hout : out =
    match try_catch (staff_codes_try env name mail) staff_codes_catch d with
    | (Ret r, d') => (r, d')
    | (Thrown _, d') => (None, d')
    end).
  { subst out. unfold post_staff_codes. rewrite Hname, Hmail, Hregex. reflexivity. }
  split; [|split; [|split]].
  - apply search_loop_exits. simpl. lia.
  - destruct (search_loop_calls env d maxAttempts search_start) as [Hc Ha];
      [reflexivity|simpl; lia|].
    subst st. rewrite Hc. exact Ha.
  - intros k Hk Hfresh Hbefore.
    assert (Hst : st = found_at env k).
    { subst st.
      apply (search_loop_first_fresh env d k maxAttempts search_start);
        try reflexivity; try exact Hfresh; try exact Hbefore;
        unfold maxAttempts; simpl; lia. }
    split; [rewrite Hst; reflexivity|].
    rewrite Hout.
    unfold staff_codes_try, staff_codes_catch, insert_staff_code,
      sendStaffCodeEmail, sendMail, try_catch, may_fail, bind, gets, ret, throw,
      modify.
    fold st. rewrite Hst. simpl.
    destruct (staff_mail env); simpl; split; try reflexivity.
    intros; discriminate.
  - intros Hall.
    destruct (search_loop_all_collide env d maxAttempts search_start) as [Hu Hc];
      try reflexivity; try (simpl; lia).
    { intros j Hj. apply Hall. unfold maxAttempts in Hj. lia. }
    fold st in Hu, Hc.
    split; [exact Hc|].
    rewrite Hout.
    unfold staff_codes_try, try_catch, bind, gets, ret.
    fold st. rewrite Hu. reflexivity.
Qed.

(** ** Further properties of the handlers *)

(** *** [POST /api/signup] *)

(** The outcomes of [POST /api/signup] when a code is presented. *)
Lemma post_signup_outcome (env : signup_env) (req : signup_request)
  (c : string) (d : db) :
  code req = Some c ->
  (exists e t p,
      email req = Some e /\ title req = Some t /\ password req = Some p /\
      falsy (Some c) = false /\ code_rows c d <> [] /\
      existsb (fun r => sql_eqb (u_email r) e) (users d) = false /\
      post_signup env req d =
        (Some user_registered, code_and_user_writes e t (digest env 0%nat p) c d))
  \/ (status_of (fst (post_signup env req d)) <> Some 201 /\
      snd (post_signup env req d) = d).
Proof.
  intros Hc. unfold post_signup. rewrite Hc.
  destruct (falsy (Some c)) eqn:Hf; [right; split; [discriminate|reflexivity]|].
  destruct (fault env GetConnection) eqn:Hg;
    [right; split; [discriminate|reflexivity]|].
  unfold signup_try, signup_catch, bcrypt_hash, insert_user, select_signup_codes,
    delete_signup_codes, bind_param.
  unfold_tx. simpl.
  repeat (step_handler; simpl).
  all: try (right; split; [discriminate|reflexivity]).
  left. do 3 eexists. repeat split; try reflexivity; try assumption.
  unfold code_rows. intros E. rewrite E in *. discriminate.
Qed.

(** X1. [POST /api/signup] is all or nothing: with a code presented, the
    call either is answered 201 with the row in [users] inserted and the
    rows of the code deleted together, or is not answered 201 and leaves the
    database as it was, whichever awaited call fails. *)
Theorem post_signup_atomic (env : signup_env) (req : signup_request)
  (c : string) (d : db) :
  code req = Some c ->
  (exists e t p,
      email req = Some e /\ title req = Some t /\ password req = Some p /\
      falsy (Some c) = false /\ code_rows c d <> [] /\
      existsb (fun r => sql_eqb (u_email r) e) (users d) = false /\
      post_signup env req d =
        (Some user_registered, code_and_user_writes e t (digest env 0%nat p) c d))
  \/ (status_of (fst (post_signup env req d)) <> Some 201 /\
      snd (post_signup env req d) = d).
Proof.
  exact (post_signup_outcome env req c d).
Qed.

Lemma post_signup_absent_code (env : signup_env) (req : signup_request)
  (c : string) (d : db) :
  code req = Some c -> code_rows c d = [] ->
  snd (post_signup env req d) = d /\
  status_of (fst (post_signup env req d)) <> Some 201 /\
  (falsy (Some c) = false ->
   fault env GetConnection = None -> fault env BeginTransaction = None ->
   fault env SelectCode = None ->
   fst (post_signup env req d) = Some invalid_code).
Proof.
  intros Hc Habs.
  destruct (post_signup_outcome env req c d Hc)
    as [(e & t & p & _ & _ & _ & _ & Hrows & _) | [Hst Hd]];
    [contradiction|].
  repeat split; [exact Hd|exact Hst|].
  intros Hf Hg Hb Hs. unfold post_signup.
  rewrite Hc, Hf, Hg.
  unfold signup_try, select_signup_codes. unfold_tx.
  rewrite Hb, Hs. simpl. unfold code_rows in Habs. rewrite Habs. reflexivity.
Qed.

(** X2. The two signup routes draw on the same codes: a code redeemed (201)
    through [POST /api/signup] is afterwards refused by
    [POST /api/student_signup], and a code redeemed through
    [POST /api/student_signup] is afterwards refused by [POST /api/signup];
    the refused attempt changes nothing and, when its lookup runs, is
    answered 400 "Invalid or expired signup code". *)
Theorem signup_routes_share_codes (env env' : signup_env)
  (req req' : signup_request) (c : string) (d : db) :
  code req = Some c -> code req' = Some c ->
  (status_of (fst (post_signup env req d)) = Some 201 ->
   let d1 := snd (post_signup env req d) in
   snd (post_student_signup env' req' d1) = d1 /\
   status_of (fst (post_student_signup env' req' d1)) <> Some 201 /\
   (fault env' GetConnection = None -> fault env' BeginTransaction = None ->
    fault env' SelectCode = None ->
    fst (post_student_signup env' req' d1) = Some invalid_code)) /\
  (status_of (fst (post_student_signup env req d)) = Some 201 ->
   let d1 := snd (post_student_signup env req d) in
   snd (post_signup env' req' d1) = d1 /\
   status_of (fst (post_signup env' req' d1)) <> Some 201 /\
   (fault env' GetConnection = None -> fault env' BeginTransaction = None ->
    fault env' SelectCode = None ->
    fst (post_signup env' req' d1) = Some invalid_code)).
Proof.
  intros Hc Hc'. split.
  - intros H201 d1.
    destruct (post_signup_outcome env req c d Hc)
      as [(e & t & p & _ & _ & _ & Hf & _ & _ & Heq) | [Hst _]];
      [|contradiction].
    assert (Habs : code_rows c d1 = []).
    { subst d1. rewrite Heq. unfold code_rows, code_and_user_writes. simpl.
      apply (filter_neg_filter (fun r => sql_eqb (sc_code r) c)). }
    destruct (student_signup_absent_code env' req' c d1 Hc' Habs) as (H1 & H2 & H3).
    repeat split; [exact H1|exact H2|]. intros. apply H3; assumption.
  - intros H201 d1.
    destruct (student_signup_outcome env req c d Hc)
      as [(e & t & p & _ & _ & _ & Hf & _ & _ & _ & Heq) | [Hst _]];
      [|contradiction].
    assert (Habs : code_rows c d1 = []).
    { subst d1. rewrite Heq. unfold code_rows, all_three_writes. simpl.
      apply (filter_neg_filter (fun r => sql_eqb (sc_code r) c)). }
    destruct (post_signup_absent_code env' req' c d1 Hc' Habs) as (H1 & H2 & H3).
    repeat split; [exact H1|exact H2|]. intros. apply H3; assumption.
Qed.

(** *** Blocked addresses *)

Lemma student_signup_keeps_blocked (env : signup_env) (req : signup_request) (d : db) :
  blocked_signups (snd (post_student_signup env req d)) = blocked_signups d.
Proof.
  destruct (code req) as [c|] eqn:Hc.
  - destruct (student_signup_outcome env req c d Hc)
      as [(e & t & p & _ & _ & _ & _ & _ & _ & _ & H) | [_ H]];
      rewrite H; reflexivity.
  - unfold post_student_signup. rewrite Hc. reflexivity.
Qed.

Lemma update_status_keeps_blocked (env : status_env) (id : Z)
  (status : option string) (d : db) :
  blocked_signups (snd (put_update_status env id status d)) = blocked_signups d.
Proof.
  unfold put_update_status.
  destruct (valid_status status); simpl; [|reflexivity].
  destruct status as [s|];
    [|destruct (status_fault env StatusGetConnection); reflexivity].
  destruct (status_fault env StatusGetConnection); [reflexivity|].
  unfold update_status_try, update_status_catch, select_application,
    update_application, insert_signup_code, sendAcceptanceEmail,
    sendRejectionEmail, sendMail.
  unfold_tx. simpl.
  repeat (step_handler; simpl).
  all: reflexivity.
Qed.

Lemma serve_keeps_blocked (e : string) (q : lifecycle_request) (d : db) :
  is_blocked e d = true -> is_blocked e (serve q d) = true.
Proof.
  unfold is_blocked. intros Hb.
  destruct q as [env req|code|email|env id status]; simpl.
  - rewrite student_signup_keeps_blocked. exact Hb.
  - rewrite validate_signup_code_frame. exact Hb.
  - destruct (block_signup_email_effect email d) as [H|(x & _ & _ & H)]; rewrite H.
    + exact Hb.
    + simpl. rewrite existsb_app, Hb. reflexivity.
  - rewrite update_status_keeps_blocked. exact Hb.
Qed.

(** X3. Blocking is permanent: no request of the code lifecycle (signup,
    validation, blocking, status update) takes an address out of
    [blocked_signups]; so once an address is blocked, however many such
    requests are served, [POST /api/validate-signup-code] answers
    "This email is blocked from signing up" for any code stored with it. *)
Theorem blocked_address_stays_blocked (e : string) (qs : list lifecycle_request)
  (d : db) :
  is_blocked e d = true ->
  is_blocked e (serve_all qs d) = true /\
  (forall c s rows,
     falsy (Some c) = false ->
     code_rows c (serve_all qs d) = s :: rows -> sc_email s = e ->
     post_validate_signup_code (Some c) (serve_all qs d) =
       (Some email_blocked, serve_all qs d)).
Proof.
  intros Hb.
  assert (Hall : is_blocked e (serve_all qs d) = true).
  { revert d Hb. induction qs as [|q qs IH]; intros d Hb; simpl; [exact Hb|].
    apply IH. apply serve_keeps_blocked. exact Hb. }
  split; [exact Hall|].
  intros c s rows Hf Hrows He.
  unfold post_validate_signup_code. rewrite Hf.
  unfold select_signup_codes_is_blocked, bind, gets, ret.
  unfold code_rows in Hrows. rewrite Hrows. simpl.
  unfold is_blocked in Hall. rewrite He, Hall. reflexivity.
Qed.

(** *** [PUT /api/update-status/:id] *)

(** X4. A status update is all or nothing: whatever the status asked for,
    the failing database call or the state of the mail transport, the call
    either is answered 200 and has committed the new status of the
    application together with, for "Accepted", the row of the generated code,
    or is not answered 200 and leaves the database as it was. *)
Theorem update_status_atomic (env : status_env) (id : Z) (status : option string)
  (d : db) :
  (exists s,
      status = Some s /\ valid_status status = true /\
      application_rows id d <> [] /\
      put_update_status env id status d =
        (Some (status_updated s
                 (if String.eqb s "Accepted" then Some (generateRandomCode env)
                  else None)
                 (length (application_rows id d))),
         status_written env id s d))
  \/ (status_of (fst (put_update_status env id status d)) <> Some 200 /\
      snd (put_update_status env id status d) = d).
Proof.
  unfold put_update_status.
  destruct (valid_status status) eqn:Hv; simpl;
    [|right; split; [discriminate|reflexivity]].
  destruct status as [s|];
    [|destruct (status_fault env StatusGetConnection);
      right; split; simpl; try discriminate; reflexivity].
  destruct (status_fault env StatusGetConnection);
    [right; split; [discriminate|reflexivity]|].
  unfold update_status_try, update_status_catch, select_application,
    update_application, insert_signup_code, sendAcceptanceEmail,
    sendRejectionEmail, sendMail.
  unfold_tx. simpl.
  unfold status_written, status_updated, application_rows, status_set, accepted_code.
  repeat (step_handler; simpl).
  all: try (right; split; [discriminate|reflexivity]).
  all: left; exists s.
  all: repeat match goal with
       | H : filter _ _ = _ :: _ |- _ => rewrite H
       | H : (_ =? "Accepted")%string = _ |- _ => rewrite H
       end.
  all: simpl; repeat split; try discriminate; try reflexivity; try assumption.
Qed.

(** With the database calls succeeding, and the mail going out when one is
    sent, a status update of an application that exists is committed. *)
Lemma update_status_commits (env : status_env) (id : Z) (s : string)
  (app : application_row) (apps : list application_row) (d : db) :
  no_status_fault env ->
  valid_status (Some s) = true ->
  application_rows id d = app :: apps ->
  (s = "Pending" \/ status_mail env = None) ->
  put_update_status env id (Some s) d =
    (Some (status_updated s
             (if String.eqb s "Accepted" then Some (generateRandomCode env) else None)
             (length (application_rows id d))),
     status_written env id s d).
Proof.
  intros Hn Hv Happ Hmail.
  unfold put_update_status. rewrite Hv. simpl. rewrite (Hn StatusGetConnection).
  unfold update_status_try, update_status_catch, select_application,
    update_application, insert_signup_code, sendAcceptanceEmail,
    sendRejectionEmail, sendMail.
  unfold_tx. rewrite !Hn. simpl.
  unfold status_written, status_updated, status_set, accepted_code.
  unfold application_rows in *. rewrite Happ. simpl. rewrite Happ. simpl.
  destruct Hmail as [-> | Hmail]; [reflexivity|].
  rewrite Hmail.
  destruct (String.eqb s "Accepted"); simpl; [reflexivity|].
  destruct (String.eqb s "Rejected"); reflexivity.
Qed.

Lemma application_rows_status_set (status : string) (id : Z) (d : db) :
  application_rows id (status_set status id d) =
    map (set_app_status status) (application_rows id d).
Proof.
  unfold application_rows, status_set. simpl.
  apply (filter_map_if (fun a => app_id a =? id) (set_app_status status)).
  reflexivity.
Qed.

Lemma application_rows_status_written (env : status_env) (status : string)
  (id : Z) (d : db) :
  application_rows id (status_written env id status d) =
    map (set_app_status status) (application_rows id d).
Proof.
  unfold status_written.
  destruct (String.eqb status "Accepted");
    [destruct (application_rows id d) eqn:E|];
    rewrite <- ?E; apply application_rows_status_set.
Qed.

(** X5. Accepting twice issues two codes: when an application that exists
    is set to "Accepted" twice (database calls and mail succeeding), the
    second call is answered 200 like the first and appends a further code row
    for the same application; the row of the first code stays in
    [signup_codes]. *)
Theorem accepting_twice_issues_two_codes (env1 env2 : status_env) (id : Z)
  (app : application_row) (apps : list application_row) (d : db) :
  no_status_fault env1 -> status_mail env1 = None ->
  no_status_fault env2 -> status_mail env2 = None ->
  application_rows id d = app :: apps ->
  let d1 := snd (put_update_status env1 id (Some "Accepted") d) in
  let out2 := put_update_status env2 id (Some "Accepted") d1 in
  status_of (fst out2) = Some 200 /\
  signup_codes (snd out2) =
    signup_codes d ++ [accepted_code env1 id app; accepted_code env2 id app] /\
  wil_application (snd out2) = wil_application d1.
Proof.
  intros Hn1 Hm1 Hn2 Hm2 Happ d1 out2.
  assert (Hd1 : d1 = status_written env1 id "Accepted" d).
  { subst d1.
    rewrite (update_status_commits env1 id "Accepted" app apps d); auto. }
  assert (Happ1 : application_rows id d1 =
            set_app_status "Accepted" app :: map (set_app_status "Accepted") apps).
  { rewrite Hd1, application_rows_status_written, Happ. reflexivity. }
  subst out2.
  rewrite (update_status_commits env2 id "Accepted" _ _ d1 Hn2 eq_refl Happ1);
    [|auto].
  split; [reflexivity|].
  unfold snd, status_written. rewrite Happ1. simpl.
  rewrite Hd1. unfold status_written. rewrite Happ. simpl.
  split.
  - rewrite <- app_assoc. reflexivity.
  - rewrite map_map. apply map_ext. intros a.
    destruct (app_id a =? id) eqn:E; simpl; rewrite ?E; reflexivity.
Qed.

(** X6. Rejected status updates: a status that is missing or not one of
    "Pending", "Accepted", "Rejected" is answered 400 "Invalid status value"
    whatever the outside world does, and a valid status for an id without
    application is answered 404 "Application not found" once the lookup has
    run; in both cases the database is unchanged. *)
Theorem update_status_rejections (env : status_env) (id : Z)
  (status : option string) (d : db) :
  (valid_status status = false ->
   put_update_status env id status d =
     (Some (json 400 [("success", JBool false);
                      ("message", JStr "Invalid status value")]), d)) /\
  (valid_status status = true -> application_rows id d = [] ->
   status_fault env StatusGetConnection = None ->
   status_fault env StatusBeginTransaction = None ->
   status_fault env SelectApplication = None ->
   put_update_status env id status d =
     (Some (json 404 [("success", JBool false);
                      ("message", JStr "Application not found")]), d)).
Proof.
  split.
  - intros Hv. unfold put_update_status. rewrite Hv. reflexivity.
  - intros Hv Happ Hg Hb Hs. unfold put_update_status. rewrite Hv. simpl.
    destruct status as [s|]; [|discriminate].
    rewrite Hg.
    unfold update_status_try, select_application. unfold_tx.
    rewrite Hb, Hs. simpl. unfold application_rows in Happ. rewrite Happ.
    reflexivity.
Qed.

(** X7. A "Pending" update needs no mail: with the database calls
    succeeding, setting an application that exists to "Pending" is answered
    200 with [code: null], stores the status and no code, and does so whether
    the mail transport works or not. *)
Theorem pending_update_needs_no_mail (env : status_env) (id : Z)
  (app : application_row) (apps : list application_row) (d : db) :
  no_status_fault env ->
  application_rows id d = app :: apps ->
  put_update_status env id (Some "Pending") d =
    (Some (status_updated "Pending" None (length (application_rows id d))),
     status_set "Pending" id d) /\
  signup_codes (snd (put_update_status env id (Some "Pending") d)) = signup_codes d /\
  Forall (fun a => app_status a = "Pending")
    (application_rows id (snd (put_update_status env id (Some "Pending") d))).
Proof.
  intros Hn Happ.
  rewrite (update_status_commits env id "Pending" app apps d Hn eq_refl Happ);
    [|left; reflexivity].
  split; [reflexivity|]. split; [reflexivity|].
  unfold snd, status_written. simpl.
  rewrite application_rows_status_set.
  apply Forall_forall. intros x Hx. apply in_map_iff in Hx.
  destruct Hx as (y & <- & _). reflexivity.
Qed.

(** X8. From acceptance to account: when an acceptance (database calls and
    mail succeeding) issues a code that no stored row matches, that the
    engine finds equal to itself, for an application whose address is not
    blocked, then validation of the code answers "Valid code", an undisturbed
    student signup with a free address redeems it with 201, and after that
    validation answers "Invalid code". *)
Theorem issued_code_validates_and_redeems (env : status_env) (id : Z)
  (app : application_row) (apps : list application_row) (d : db)
  (senv : signup_env) (req : signup_request) (e t p : string) :
  no_status_fault env -> status_mail env = None ->
  application_rows id d = app :: apps ->
  code_rows (generateRandomCode env) d = [] ->
  sql_eqb (generateRandomCode env) (generateRandomCode env) = true ->
  falsy (Some (generateRandomCode env)) = false ->
  is_blocked (app_email app) d = false ->
  no_fault senv -> code req = Some (generateRandomCode env) ->
  email req = Some e -> title req = Some t -> password req = Some p ->
  email_free e d ->
  let g := generateRandomCode env in
  let d1 := snd (put_update_status env id (Some "Accepted") d) in
  let d2 := snd (post_student_signup senv req d1) in
  post_validate_signup_code (Some g) d1 = (Some valid_code, d1) /\
  fst (post_student_signup senv req d1) = Some (registered req) /\
  d2 = all_three_writes e t (digest senv 0%nat p) g d1 /\
  fst (post_validate_signup_code (Some g) d2) =
    Some (json 200 [("success", JBool false); ("message", JStr "Invalid code")]).
Proof.
  intros Hn Hmail Happ Hfresh Hrefl Hf Hnb Hsn Hc He Ht Hp Hfree g d1 d2.
  subst g.
  assert (Hd1 : d1 = status_written env id "Accepted" d).
  { subst d1. rewrite (update_status_commits env id "Accepted" app apps d); auto. }
  assert (Hrows : code_rows (generateRandomCode env) d1 = [accepted_code env id app]).
  { rewrite Hd1. unfold status_written. rewrite Happ. simpl.
    unfold code_rows in *. simpl. rewrite filter_app.
    rewrite Hfresh. simpl. rewrite Hrefl. reflexivity. }
  assert (Hval : post_validate_signup_code (Some (generateRandomCode env)) d1 =
            (Some valid_code, d1)).
  { unfold post_validate_signup_code. rewrite Hf.
    unfold select_signup_codes_is_blocked, bind, gets, ret.
    unfold code_rows in Hrows. rewrite Hrows. simpl.
    assert (Hb1 : blocked_signups d1 = blocked_signups d).
    { rewrite Hd1. unfold status_written. rewrite Happ. reflexivity. }
    rewrite Hb1. unfold is_blocked in Hnb. rewrite Hnb. reflexivity. }
  assert (Hfree1 : email_free e d1).
  { rewrite Hd1. unfold status_written. rewrite Happ. exact Hfree. }
  assert (Hsign : post_student_signup senv req d1 =
            (Some (registered req),
             all_three_writes e t (digest senv 0%nat p) (generateRandomCode env) d1)).
  { apply student_signup_succeeds; try assumption.
    rewrite Hrows. discriminate. }
  split; [exact Hval|]. split; [rewrite Hsign; reflexivity|].
  split; [subst d2; rewrite Hsign; reflexivity|].
  subst d2. rewrite Hsign. unfold snd.
  unfold post_validate_signup_code. rewrite Hf.
  unfold select_signup_codes_is_blocked, bind, gets, ret. simpl.
  rewrite (filter_neg_filter (fun r => sql_eqb (sc_code r) (generateRandomCode env))).
  reflexivity.
Qed.

(** *** [POST /api/staff_codes]: the address pattern and the stored codes *)

Lemma split_at_spec (sep : ascii) (s l r : list ascii) :
  split_at sep s = Some (l, r) ->
  s = l ++ sep :: r /\ forallb (fun c => negb (Ascii.eqb c sep)) l = true.
Proof.
  revert l r. induction s as [|c s IH]; intros l r H; simpl in H; [discriminate|].
  destruct (Ascii.eqb c sep) eqn:E.
  - injection H as <- <-. apply Ascii.eqb_eq in E. subst c. split; reflexivity.
  - destruct (split_at sep s) as [[l' r']|]; [|discriminate].
    injection H as <- <-. destruct (IH l' r' eq_refl) as [-> Hl].
    split; [reflexivity|]. simpl. rewrite E, Hl. reflexivity.
Qed.

Lemma split_at_app (sep : ascii) (l r : list ascii) :
  forallb (fun c => negb (Ascii.eqb c sep)) l = true ->
  split_at sep (l ++ sep :: r) = Some (l, r).
Proof.
  induction l as [|c l IH]; simpl; intros H.
  - rewrite Ascii.eqb_refl. reflexivity.
  - apply andb_true_iff in H. destruct H as [Hc Hl].
    apply negb_true_iff in Hc. rewrite Hc, (IH Hl). reflexivity.
Qed.

Lemma class_excludes_at (l : list ascii) :
  forallb not_space_or_at l = true ->
  forallb (fun c => negb (Ascii.eqb c "@")) l = true.
Proof.
  induction l as [|c l IH]; simpl; [reflexivity|].
  intros H. apply andb_true_iff in H. destruct H as [Hc Hl].
  unfold not_space_or_at in Hc. apply andb_true_iff in Hc. destruct Hc as [_ Hc].
  rewrite Hc, (IH Hl). reflexivity.
Qed.

(** The class of the pattern, by character numbers. *)
Lemma not_space_or_at_plain (c : ascii) :
  not_space_or_at c = true <-> plain_char c.
Proof.
  unfold plain_char.
  destruct c as [[] [] [] [] [] [] [] []]; vm_compute;
    (split; [intros H; try discriminate H; repeat split; try discriminate;
             (left; reflexivity) || (right; reflexivity)
            |intros (H1 & H2 & H3 & H4); try reflexivity;
             try (exfalso; apply H2; reflexivity);
             try (exfalso; apply H3; reflexivity);
             try (exfalso; apply H4; reflexivity);
             destruct H1 as [H1|H1]; discriminate H1]).
Qed.

Lemma forallb_plain (l : list ascii) :
  forallb not_space_or_at l = true <-> Forall plain_char l.
Proof.
  rewrite forallb_forall, Forall_forall.
  split; intros H x Hx; apply not_space_or_at_plain, H, Hx.
Qed.

(** The parts the pattern matches, with the class as the handler tests it. *)
Lemma emailRegex_test_parts (s : string) :
  emailRegex_test s = true <->
  exists l m r : list ascii,
    l <> [] /\ m <> [] /\ r <> [] /\
    forallb not_space_or_at l = true /\
    forallb not_space_or_at m = true /\
    forallb not_space_or_at r = true /\
    list_ascii_of_string s = l ++ "@"%char :: m ++ "."%char :: r.
Proof.
  unfold emailRegex_test. split.
  - destruct (split_at "@" (list_ascii_of_string s)) as [[l r0]|] eqn:E;
      [|discriminate].
    intros H. apply split_at_spec in E. destruct E as [Hs _].
    repeat (apply andb_true_iff in H; destruct H as [H ?]).
    destruct r0 as [|a t]; [discriminate|].
    simpl tl in *.
    assert (Hin : In "."%char (removelast t)).
    { apply existsb_exists in H0. destruct H0 as (x & Hx & Hd).
      apply Ascii.eqb_eq in Hd. subst x. exact Hx. }
    destruct t as [|b t']; [contradiction|].
    apply in_split in Hin. destruct Hin as (u & v & Huv).
    remember (last (b :: t') "."%char) as z eqn:Hz.
    assert (Ht : b :: t' = u ++ "."%char :: (v ++ [z])).
    { rewrite (app_removelast_last "."%char (l := b :: t')) at 1 by discriminate.
      rewrite Huv, <- Hz, <- app_assoc. reflexivity. }
    rewrite Ht in H1.
    change (forallb not_space_or_at ((a :: u) ++ ["."%char] ++ (v ++ [z])) = true)
      in H1.
    rewrite !forallb_app in H1.
    apply andb_true_iff in H1. destruct H1 as [Hau H1].
    apply andb_true_iff in H1. destruct H1 as [_ Hv].
    exists l, (a :: u), (v ++ [z]).
    repeat split.
    + intros ->. discriminate.
    + discriminate.
    + destruct v; discriminate.
    + exact H2.
    + exact Hau.
    + rewrite forallb_app. exact Hv.
    + rewrite Hs, Ht. reflexivity.
  - intros (l & m & r & Hl & Hm & Hr & Hcl & Hcm & Hcr & Hs).
    rewrite Hs, (split_at_app "@" l _ (class_excludes_at l Hcl)).
    destruct l as [|x l']; [contradiction|].
    destruct m as [|a m']; [contradiction|].
    destruct r as [|b r']; [contradiction|].
    simpl length. simpl negb. rewrite Hcl. simpl andb.
    assert (Hall : forallb not_space_or_at ((a :: m') ++ "."%char :: b :: r') = true).
    { rewrite forallb_app, Hcm. simpl. simpl in Hcr. rewrite Hcr. reflexivity. }
    change (forallb not_space_or_at ((a :: m') ++ "."%char :: b :: r') &&
            existsb (Ascii.eqb ".") (removelast (m' ++ "."%char :: b :: r')) = true).
    rewrite Hall.
    rewrite removelast_app by discriminate.
    rewrite existsb_app. simpl. apply orb_true_r.
Qed.

(** X9. The address check of [POST /api/staff_codes] accepts exactly the
    strings of the shape the pattern describes: local part, [@], and a domain
    with a dot that has a character on either side, where no part holds a
    second [@] or a white-space character (the characters numbered 9 to 13,
    32 and 160, on strings of characters below U+0100). *)
Theorem emailRegex_test_shape (s : string) :
  emailRegex_test s = true <-> email_shape s.
Proof.
  rewrite emailRegex_test_parts. unfold email_shape.
  split; intros (l & m & r & Hl & Hm & Hr & Hcl & Hcm & Hcr & Hs);
    exists l, m, r; repeat split; try assumption;
    apply forallb_plain; assumption.
Qed.

Lemma ordpairs_snoc {A : Type} (R : A -> A -> Prop) (l : list A) (x : A) :
  ForallOrdPairs R l -> Forall (fun a => R a x) l -> ForallOrdPairs R (l ++ [x]).
Proof.
  induction 1 as [|a l Ha Hl IH]; intros Hx; simpl.
  - constructor; constructor.
  - inversion Hx; subst. constructor.
    + apply Forall_app. split; [exact Ha|]. constructor; [assumption|constructor].
    + apply IH. assumption.
Qed.

Lemma not_collides_forall (env : staff_env) (d : db) (k : nat) :
  collides env d k = false ->
  Forall (fun a => sql_eqb (stc_code a) (generateStaffCode env k) = false)
    (staff_codes d).
Proof.
  unfold collides. intros H. apply negb_false_iff, Nat.eqb_eq in H.
  induction (staff_codes d) as [|a l IH]; [constructor|].
  simpl in H. destruct (sql_eqb (stc_code a) (generateStaffCode env k)) eqn:E;
    [discriminate|].
  constructor; [exact E|]. apply IH, H.
Qed.

(** When the retry loop ends with a code marked unique, that code is the
    one of a generator call below [maxAttempts] and collides with no row. *)
Lemma search_loop_found (env : staff_env) (d : db) (fuel : nat) :
  forall st,
    calls st = attempts st ->
    (isUnique st = true ->
     exists k, (k < maxAttempts)%nat /\
       search_code st = Some (generateStaffCode env k) /\ collides env d k = false) ->
    isUnique (search_loop fuel env d st) = true ->
    exists k, (k < maxAttempts)%nat /\
      search_code (search_loop fuel env d st) = Some (generateStaffCode env k) /\
      collides env d k = false.
Proof.
  induction fuel as [|fuel IH]; intros st Hc Hinv; simpl; [exact Hinv|].
  destruct (search_again st) eqn:E; [|exact Hinv].
  apply IH; [simpl; congruence|].
  intros Hu. unfold search_again in E. apply andb_true_iff in E.
  destruct E as [_ E]. apply Nat.ltb_lt in E.
  exists (calls st). split; [rewrite Hc; exact E|].
  split; [reflexivity|].
  rewrite search_body_unique in Hu. apply negb_true_iff in Hu. exact Hu.
Qed.

(** X10. What issuing a staff code can do to the database: nothing, or
    append to [staff_codes] one row with the requested name and address and
    the code of one of the first 5 generator calls, a code that collides with
    no stored row.  So a table whose codes are pairwise distinct stays so. *)
Theorem staff_codes_stay_distinct (env : staff_env)
  (staff_name staff_email : option string) (d : db) :
  let d' := snd (post_staff_codes env staff_name staff_email d) in
  (d' = d \/
   exists k name mail,
     (k < 5)%nat /\ staff_name = Some name /\ staff_email = Some mail /\
     collides env d k = false /\
     d' = with_staff_codes
            (staff_codes d ++ [staff_row (generateStaffCode env k) name mail]) d) /\
  (codes_distinct (staff_codes d) -> codes_distinct (staff_codes d')).
Proof.
  intros d'.
  assert (Heff : d' = d \/
    exists k name mail,
      (k < 5)%nat /\ staff_name = Some name /\ staff_email = Some mail /\
      collides env d k = false /\
      d' = with_staff_codes
             (staff_codes d ++ [staff_row (generateStaffCode env k) name mail]) d).
  { subst d'. unfold post_staff_codes.
    destruct staff_name as [name|]; [|left; reflexivity].
    destruct staff_email as [mail|]; [|left; reflexivity].
    destruct (falsy (Some name) || falsy (Some mail)); [left; reflexivity|].
    destruct (negb (emailRegex_test mail)); [left; reflexivity|].
    unfold staff_codes_try, staff_codes_catch, insert_staff_code,
      sendStaffCodeEmail, sendMail, try_catch, may_fail, bind, gets, ret, throw,
      modify.
    pose proof (search_loop_found env d maxAttempts search_start eq_refl) as Hfound.
    remember (search_loop maxAttempts env d search_start) as st eqn:Hst.
    destruct (isUnique st) eqn:Hu; simpl; [|left; reflexivity].
    destruct Hfound as (k & Hk & Hcode & Hfresh);
      [simpl; discriminate|reflexivity|].
    rewrite Hcode.
    right. exists k, name, mail. repeat split; try assumption.
    destruct (staff_mail env); reflexivity. }
  split; [exact Heff|].
  intros Hdist.
  destruct Heff as [-> | (k & name & mail & _ & _ & _ & Hfresh & ->)];
    [exact Hdist|].
  simpl. apply ordpairs_snoc; [exact Hdist|].
  apply not_collides_forall. exact Hfresh.
Qed.

(** X11. A failing mail after the insert: when the first code without
    collision comes from call [k] (below 5) and the mail transport fails,
    the row of that code stays in [staff_codes] and the handler sends no
    response, its [catch] block throwing on the variable [code] that is out
    of scope there. *)
Theorem staff_code_kept_when_mail_fails (env : staff_env) (name mail : string)
  (err : js_error) (k : nat) (d : db) :
  falsy (Some name) = false ->
  falsy (Some mail) = false ->
  emailRegex_test mail = true ->
  staff_mail env = Some err ->
  (k < 5)%nat -> collides env d k = false ->
  (forall j, (j < k)%nat -> collides env d j = true) ->
  post_staff_codes env (Some name) (Some mail) d =
    (None,
     with_staff_codes
       (staff_codes d ++ [staff_row (generateStaffCode env k) name mail]) d).
Proof.
  intros Hname Hmail Hregex Herr Hk Hfresh Hbefore.
  unfold post_staff_codes. rewrite Hname, Hmail, Hregex. simpl.
  unfold staff_codes_try, staff_codes_catch, insert_staff_code,
    sendStaffCodeEmail, sendMail, try_catch, may_fail, bind, gets, ret, throw,
    modify.
  rewrite (search_loop_first_fresh env d k maxAttempts search_start);
    try reflexivity; try exact Hfresh; try exact Hbefore;
    try (unfold maxAttempts; simpl; lia).
  simpl. rewrite Herr. reflexivity.
Qed.

(** *** Reactivation, enrolment and the status routes *)

Lemma reactivate_student_effect (today : Z) (sn : string) (d : db)
  (s0 : student_user_row) (rest : list student_user_row) :
  student_rows sn d = s0 :: rest ->
  match last_log_date sn d with
  | None => post_reactivate_student today sn d = (Some no_activity_records, d)
  | Some l =>
      if 10 <? today - l then
        status_of (fst (post_reactivate_student today sn d)) = Some 400 /\
        snd (post_reactivate_student today sn d) = d
      else
        status_of (fst (post_reactivate_student today sn d)) = Some 200 /\
        snd (post_reactivate_student today sn d) = with_status "active" sn d
  end.
Proof.
  intros Hrows.
  unfold post_reactivate_student, reactivate_student_try, select_student,
    select_last_log_date, select_datediff, update_student, bind, gets, ret, modify.
  unfold student_rows in Hrows. rewrite Hrows.
  unfold last_log_date.
  destruct (map ls_log_date _) as [|x xs]; simpl; [reflexivity|].
  destruct (10 <? today - fold_left Z.max xs x); simpl; split; reflexivity.
Qed.

(** X12. The gate of reactivation: for a student that exists,
    [POST /api/reactivate-student/:student_number] is answered 400 and
    changes nothing when there is no logsheet or the latest one is more than
    10 days old, and otherwise is answered 200 and sets every row of the
    student to "active". *)
Theorem reactivate_gate (today : Z) (sn : string) (d : db)
  (s0 : student_user_row) (rest : list student_user_row) :
  student_rows sn d = s0 :: rest ->
  let out := post_reactivate_student today sn d in
  (last_log_date sn d = None -> out = (Some no_activity_records, d)) /\
  (forall l, last_log_date sn d = Some l -> today - l > 10 ->
   status_of (fst out) = Some 400 /\ snd out = d) /\
  (forall l, last_log_date sn d = Some l -> today - l <= 10 ->
   status_of (fst out) = Some 200 /\
   snd out = with_status "active" sn d /\
   Forall (fun r => su_status r = Some "active") (student_rows sn (snd out))).
Proof.
  intros Hrows out. subst out.
  pose proof (reactivate_student_effect today sn d s0 rest Hrows) as H.
  split; [|split].
  - intros Hl. rewrite Hl in H. exact H.
  - intros l Hl Hgt. rewrite Hl in H.
    assert (E : (10 <? today - l) = true) by (apply Z.ltb_lt; lia).
    rewrite E in H. exact H.
  - intros l Hl Hle. rewrite Hl in H.
    assert (E : (10 <? today - l) = false) by (apply Z.ltb_ge; lia).
    rewrite E in H. destruct H as [H1 H2].
    split; [exact H1|]. split; [exact H2|].
    rewrite H2, student_rows_with_status.
    apply Forall_forall. intros x Hx. apply in_map_iff in Hx.
    destruct Hx as (y & <- & _). reflexivity.
Qed.

(** X13. Reactivation and recomputation agree: for a student that exists,
    reactivation is answered 200 exactly when the recomputation of the same
    day would store "active"; and a recomputation that follows a successful
    reactivation reports [status_changed: false] and changes nothing. *)
Theorem reactivate_agrees_with_recompute (today : Z) (sn : string) (d : db)
  (s0 : student_user_row) (rest : list student_user_row) :
  student_rows sn d = s0 :: rest ->
  (status_of (fst (post_reactivate_student today sn d)) = Some 200 <->
   stored_status sn (snd (post_update_student_status today sn d)) =
     Some (Some "active")) /\
  (status_of (fst (post_reactivate_student today sn d)) = Some 200 ->
   let d1 := snd (post_reactivate_student today sn d) in
   exists r,
     post_update_student_status today sn d1 = (Some r, d1) /\
     field "status_changed" r = Some (JBool false)).
Proof.
  intros Hrows.
  pose proof (reactivate_student_effect today sn d s0 rest Hrows) as H.
  pose proof (update_student_status_stored today sn d s0 rest Hrows) as Hst.
  unfold computed_status in Hst.
  destruct (last_log_date sn d) as [l|] eqn:Hl.
  - destruct (10 <? today - l) eqn:E; destruct H as [H1 H2].
    + assert (E' : (today - l <=? 10) = false)
        by (apply Z.leb_gt; apply Z.ltb_lt in E; lia).
      rewrite E' in Hst. rewrite Hst, H1.
      split; [split; discriminate|discriminate].
    + assert (E' : (today - l <=? 10) = true)
        by (apply Z.leb_le; apply Z.ltb_ge in E; lia).
      rewrite E' in Hst. rewrite Hst, H1.
      split; [split; reflexivity|].
      intros _ d1. subst d1. rewrite H2.
      assert (Hrows1 : student_rows sn (with_status "active" sn d) =
                set_su_status "active" s0 :: map (set_su_status "active") rest).
      { rewrite student_rows_with_status, Hrows. reflexivity. }
      destruct (update_student_status_effect today sn _ _ _ Hrows1)
        as (r & Heq & _ & Hchg).
      assert (Hl1 : last_log_date sn (with_status "active" sn d) = Some l)
        by exact Hl.
      rewrite Hl1 in Heq, Hchg. unfold computed_status in Heq, Hchg.
      rewrite E' in Heq, Hchg.
      change (su_status (set_su_status "active" s0)) with (Some "active")
        in Heq, Hchg.
      rewrite status_differs_same in Heq, Hchg.
      exists r. split; assumption.
  - rewrite H, Hst. simpl. split; [split; discriminate|discriminate].
Qed.

Lemma enroll_student_effect (mail : option js_error) (sn : string) (d : db)
  (s0 : student_user_row) (rest : list student_user_row) :
  student_rows sn d = s0 :: rest ->
  exists r,
    post_enroll_student mail sn d = (Some r, with_status "active" sn d) /\
    http_status r = 200.
Proof.
  intros Hrows.
  pose proof (student_rows_with_status "active" sn d) as Hupd.
  rewrite Hrows in Hupd. unfold student_rows in Hrows, Hupd.
  unfold post_enroll_student, enroll_student_try, select_student, update_student,
    sendEnrollmentEmail, sendMail, try_catch, may_fail, bind, gets, ret, throw,
    modify.
  rewrite Hrows. fold (with_status "active" sn d). rewrite Hupd. simpl.
  destruct mail; simpl; eexists; split; reflexivity.
Qed.

(** X14. Enrolment skips the activity gate and recomputation undoes it:
    for a student that exists and has no logsheet, or none within 10 days,
    [POST /api/enroll-student/:student_number] is answered 200 and sets every
    row of the student to "active"; the recomputation that follows reports
    [status_changed: true] and sets every row to "inactive". *)
Theorem enroll_skips_gate_recompute_reverts (today : Z) (sn : string)
  (mail : option js_error) (d : db)
  (s0 : student_user_row) (rest : list student_user_row) :
  student_rows sn d = s0 :: rest ->
  computed_status today (last_log_date sn d) = "inactive" ->
  let d1 := snd (post_enroll_student mail sn d) in
  status_of (fst (post_enroll_student mail sn d)) = Some 200 /\
  Forall (fun r => su_status r = Some "active") (student_rows sn d1) /\
  exists r,
    fst (post_update_student_status today sn d1) = Some r /\
    field "status_changed" r = Some (JBool true) /\
    Forall (fun r => su_status r = Some "inactive")
      (student_rows sn (snd (post_update_student_status today sn d1))).
Proof.
  intros Hrows Hstale d1.
  destruct (enroll_student_effect mail sn d s0 rest Hrows) as (r1 & Heq & H200).
  subst d1. rewrite Heq. simpl. rewrite H200.
  split; [reflexivity|].
  assert (Hrows1 : student_rows sn (with_status "active" sn d) =
            set_su_status "active" s0 :: map (set_su_status "active") rest).
  { rewrite student_rows_with_status, Hrows. reflexivity. }
  split.
  - rewrite Hrows1. constructor; [reflexivity|].
    apply Forall_forall. intros x Hx. apply in_map_iff in Hx.
    destruct Hx as (y & <- & _). reflexivity.
  - destruct (update_student_status_effect today sn _ _ _ Hrows1)
      as (r & Heq1 & _ & Hchg).
    assert (Hl1 : last_log_date sn (with_status "active" sn d) = last_log_date sn d)
      by reflexivity.
    rewrite Hl1, Hstale in Heq1, Hchg.
    change (status_differs "inactive" (su_status (set_su_status "active" s0)))
      with true in Heq1, Hchg.
    exists r. rewrite Heq1. split; [reflexivity|]. split; [exact Hchg|].
    unfold snd. rewrite student_rows_with_status.
    apply Forall_forall. intros x Hx. apply in_map_iff in Hx.
    destruct Hx as (y & <- & _). reflexivity.
Qed.

Lemma only_status_of_refl (sn : string) (d : db) : only_status_of sn d d.
Proof.
  unfold only_status_of. split; [destruct d; reflexivity|].
  induction (student_users d) as [|r t IH]; constructor; [|exact IH].
  split; [repeat split|reflexivity].
Qed.

Lemma only_status_of_with_status (status sn : string) (d : db) :
  only_status_of sn d (with_status status sn d).
Proof.
  unfold only_status_of, with_status. split; [reflexivity|]. simpl.
  induction (student_users d) as [|r t IH]; simpl; constructor; [|exact IH].
  destruct (sql_like (su_email r) (student_pattern sn)) eqn:E.
  - split; [repeat split|discriminate].
  - split; [repeat split|reflexivity].
Qed.

Lemma activate_student_effect (sn : string) (d : db) :
  falsy (Some sn) = false ->
  post_activate_student (Some sn) d =
    match student_rows sn d with
    | [] => (Some student_not_found, with_status "active" sn d)
    | _ :: _ =>
        (Some (json 200 [("success", JBool true);
                         ("message", JStr "Student status updated to active")]),
         with_status "active" sn d)
    end.
Proof.
  intros Hf. unfold post_activate_student. rewrite Hf.
  unfold activate_student, update_student, bind, gets, ret, modify.
  fold (student_rows sn d). destruct (student_rows sn d); reflexivity.
Qed.

Lemma with_status_no_rows (status sn : string) (d : db) :
  student_rows sn d = [] -> with_status status sn d = d.
Proof.
  unfold student_rows, with_status. intros H.
  assert (Hmap : map (fun r => if sql_like (su_email r) (student_pattern sn)
                               then set_su_status status r else r)
                     (student_users d) = student_users d).
  { induction (student_users d) as [|r t IH]; simpl in *; [reflexivity|].
    destruct (sql_like (su_email r) (student_pattern sn)); [discriminate|].
    rewrite (IH H). reflexivity. }
  rewrite Hmap. destruct d; reflexivity.
Qed.

Lemma unknown_student_run (today : Z) (sn : string) (mail : option js_error)
  (d : db) :
  student_rows sn d = [] ->
  post_suspend_student mail sn d = (Some student_not_found, d) /\
  post_unenroll_student mail sn d = (Some student_not_found, d) /\
  post_enroll_student mail sn d = (Some student_not_found, d) /\
  post_reactivate_student today sn d = (Some student_not_found, d) /\
  post_update_student_status today sn d = (Some student_not_found, d) /\
  (falsy (Some sn) = false ->
   post_activate_student (Some sn) d = (Some student_not_found, d)).
Proof.
  intros Hrows.
  assert (Hnone : forall A (k : list student_user_row -> M db A),
            (student <- select_student sn ;; k student) d = k [] d).
  { intros A k. unfold select_student, bind, gets.
    unfold student_rows in Hrows. rewrite Hrows. reflexivity. }
  repeat split.
  all: try (unfold post_suspend_student, suspend_student_try,
              post_unenroll_student, unenroll_student_try,
              post_enroll_student, enroll_student_try,
              post_reactivate_student, reactivate_student_try,
              post_update_student_status, update_student_status_try;
            rewrite Hnone; reflexivity).
  intros Hf. rewrite (activate_student_effect sn d Hf), Hrows.
  rewrite (with_status_no_rows "active" sn d Hrows). reflexivity.
Qed.

(** X15. The status routes write statuses only: suspension, unenrolment,
    enrolment, reactivation, recomputation and the activation by body neither
    add nor remove rows of [student_users], leave address, title and password
    of every row as they were, leave the rows of other students untouched,
    and change no other table. *)
Theorem status_routes_write_status_only (today : Z) (sn : string)
  (mail : option js_error) (d : db) :
  only_status_of sn d (snd (post_suspend_student mail sn d)) /\
  only_status_of sn d (snd (post_unenroll_student mail sn d)) /\
  only_status_of sn d (snd (post_enroll_student mail sn d)) /\
  only_status_of sn d (snd (post_reactivate_student today sn d)) /\
  only_status_of sn d (snd (post_update_student_status today sn d)) /\
  only_status_of sn d (snd (post_activate_student (Some sn) d)).
Proof.
  destruct (student_rows sn d) as [|s0 rest] eqn:Hrows.
  - destruct (unknown_student_run today sn mail d Hrows)
      as (H1 & H2 & H3 & H4 & H5 & H6).
    rewrite H1, H2, H3, H4, H5.
    split; [|split; [|split; [|split; [|split]]]];
      try apply only_status_of_refl.
    unfold post_activate_student.
    destruct (falsy (Some sn)) eqn:Hf; [apply only_status_of_refl|].
    unfold activate_student, update_student, bind, gets, ret, modify.
    fold (student_rows sn d). rewrite Hrows. simpl.
    apply only_status_of_with_status.
  - split; [|split; [|split; [|split; [|split]]]].
    + destruct (suspend_student_effect mail sn d s0 rest Hrows) as (r & Heq & _).
      rewrite Heq. apply only_status_of_with_status.
    + destruct (unenroll_student_effect mail sn d s0 rest Hrows) as (r & Heq & _).
      rewrite Heq. apply only_status_of_with_status.
    + destruct (enroll_student_effect mail sn d s0 rest Hrows) as (r & Heq & _).
      rewrite Heq. apply only_status_of_with_status.
    + pose proof (reactivate_student_effect today sn d s0 rest Hrows) as H.
      destruct (last_log_date sn d) as [l|].
      * destruct (10 <? today - l); destruct H as [_ ->];
          [apply only_status_of_refl|apply only_status_of_with_status].
      * rewrite H. apply only_status_of_refl.
    + destruct (update_student_status_effect today sn d s0 rest Hrows)
        as (r & Heq & _ & _).
      rewrite Heq. simpl. destruct (status_differs _ _);
        [apply only_status_of_with_status|apply only_status_of_refl].
    + unfold post_activate_student.
      destruct (falsy (Some sn)); [apply only_status_of_refl|].
      unfold activate_student, update_student, bind, gets, ret, modify.
      fold (student_rows sn d). rewrite Hrows. simpl.
      apply only_status_of_with_status.
Qed.

(** X16. An unknown student number: when no row of [student_users] matches
    the pattern, suspension, unenrolment, enrolment, reactivation,
    recomputation and the activation by body all answer 404
    "Student not found" and leave the database unchanged. *)
Theorem unknown_student_is_404 (today : Z) (sn : string)
  (mail : option js_error) (d : db) :
  student_rows sn d = [] ->
  post_suspend_student mail sn d = (Some student_not_found, d) /\
  post_unenroll_student mail sn d = (Some student_not_found, d) /\
  post_enroll_student mail sn d = (Some student_not_found, d) /\
  post_reactivate_student today sn d = (Some student_not_found, d) /\
  post_update_student_status today sn d = (Some student_not_found, d) /\
  (falsy (Some sn) = false ->
   post_activate_student (Some sn) d = (Some student_not_found, d)).
Proof. apply unknown_student_run. Qed.

(** X17. The activation by body is enrolment without mail:
    [POST /api/update-student-status] with a student number in the body
    leaves the database exactly as [POST /api/enroll-student/:student_number]
    does and is answered with the same status code, 200 for a student that
    exists and 404 otherwise, without looking at any logsheet. *)
Theorem activate_is_enroll_without_mail (sn : string) (mail : option js_error)
  (d : db) :
  falsy (Some sn) = false ->
  snd (post_activate_student (Some sn) d) = snd (post_enroll_student mail sn d) /\
  status_of (fst (post_activate_student (Some sn) d)) =
    status_of (fst (post_enroll_student mail sn d)).
Proof.
  intros Hf. rewrite (activate_student_effect sn d Hf).
  destruct (student_rows sn d) as [|s0 rest] eqn:Hrows.
  - rewrite (with_status_no_rows "active" sn d Hrows).
    unfold post_enroll_student, enroll_student_try, select_student, bind, gets.
    unfold student_rows in Hrows. rewrite Hrows. split; reflexivity.
  - destruct (enroll_student_effect mail sn d s0 rest Hrows) as (r & Heq & H200).
    rewrite Heq. simpl. rewrite H200. split; reflexivity.
Qed.

(** *** The sweep over the active students *)

Lemma swept_refl (t : list student_user_row) : swept t t.
Proof.
  induction t as [|r t IH]; constructor; [|exact IH].
  split; [repeat split|left; reflexivity].
Qed.

Lemma swept_trans (t t' t'' : list student_user_row) :
  swept t t' -> swept t' t'' -> swept t t''.
Proof.
  intros H. revert t''. induction H as [|r r' t t' Hr Ht IH]; intros t'' H2.
  - inversion H2. constructor.
  - inversion H2 as [|x r'' y t3 Hr' Ht' ]; subst. constructor; [|apply IH; exact Ht'].
    destruct Hr as [(E1 & E2 & E3) Hs]. destruct Hr' as [(F1 & F2 & F3) Hs'].
    split; [repeat split; congruence|].
    destruct Hs' as [Hs'|Hs']; [|right; exact Hs'].
    destruct Hs as [Hs|Hs]; [left|right]; congruence.
Qed.

Lemma swept_inactivate (e : string) (t : list student_user_row) :
  swept t
    (map (fun r => if sql_eqb (su_email r) e then set_su_status "inactive" r else r) t).
Proof.
  induction t as [|r t IH]; simpl; constructor; [|exact IH].
  destruct (sql_eqb (su_email r) e).
  - split; [repeat split|right; reflexivity].
  - split; [repeat split|left; reflexivity].
Qed.

Lemma Forall2_in_right {A B : Type} (R : A -> B -> Prop) (l : list A) (l' : list B)
  (y : B) :
  Forall2 R l l' -> In y l' -> exists x, In x l /\ R x y.
Proof.
  induction 1 as [|a b l l' Hab Hl IH]; intros Hy; [contradiction|].
  destruct Hy as [<-|Hy].
  - exists a. split; [left; reflexivity|exact Hab].
  - destruct (IH Hy) as (x & Hx & Hr). exists x. split; [right; exact Hx|exact Hr].
Qed.

(** The loop of the sweep: it ends, touches statuses only, has set every
    row of a stale address of its list to "inactive", and does nothing when
    no address of its list is stale. *)
Lemma sweep_loop_spec (today : Z) (es : list string) :
  forall (upd : list string) (d : db),
  exists upd' d',
    sweep_loop today es upd d = (Ret upd', d') /\
    d' = with_student_users (student_users d') d /\
    swept (student_users d) (student_users d') /\
    (forall e r', In e es -> stale today d e = true ->
       In r' (student_users d') -> sql_eqb (su_email r') e = true ->
       su_status r' = Some "inactive") /\
    ((forall e, In e es -> stale today d e = false) -> d' = d /\ upd' = upd).
Proof.
  induction es as [|e es IH]; intros upd d.
  - exists upd, d. split; [reflexivity|]. split; [destruct d; reflexivity|].
    split; [apply swept_refl|]. split; [intros ? ? []|auto].
  - set (d1 := with_student_users
                 (map (fun r => if sql_eqb (su_email r) e
                                then set_su_status "inactive" r else r)
                      (student_users d)) d).
    assert (Hstep : sweep_loop today (e :: es) upd d =
              if stale today d e
              then sweep_loop today es (upd ++ [before_at e]) d1
              else sweep_loop today es upd d).
    { simpl. unfold bind, select_last_log_date, select_datediff, inactivate_email,
        gets, ret, modify, stale, last_log_date.
      destruct (map ls_log_date _) as [|x xs]; [reflexivity|].
      destruct (10 <? today - fold_left Z.max xs x); reflexivity. }
    rewrite Hstep.
    destruct (stale today d e) eqn:Hst.
    + destruct (IH (upd ++ [before_at e]) d1) as (upd' & d' & Hrun & Hd' & Hsw & Hin & _).
      exists upd', d'. split; [exact Hrun|].
      split; [rewrite Hd' at 1; reflexivity|].
      split; [apply (swept_trans _ (student_users d1)); [apply swept_inactivate|exact Hsw]|].
      split.
      * intros e0 r' [<-|He0] Hstale Hr' Hmatch.
        -- destruct (Forall2_in_right _ _ _ r' Hsw Hr')
             as (r1 & Hr1 & (Em & _ & _) & Hs).
           simpl in Hr1. apply in_map_iff in Hr1. destruct Hr1 as (r & Hr1 & _).
           rewrite Em in Hmatch.
           destruct (sql_eqb (su_email r) e) eqn:E; subst r1.
           ++ destruct Hs as [Hs|Hs]; rewrite Hs; reflexivity.
           ++ rewrite E in Hmatch. discriminate.
        -- apply (Hin e0 r' He0); assumption.
      * intros Hnone. specialize (Hnone e (or_introl eq_refl)). congruence.
    + destruct (IH upd d) as (upd' & d' & Hrun & Hd' & Hsw & Hin & Hid).
      exists upd', d'. split; [exact Hrun|]. split; [exact Hd'|].
      split; [exact Hsw|]. split.
      * intros e0 r' [<-|He0] Hstale Hr' Hmatch; [congruence|].
        apply (Hin e0 r' He0); assumption.
      * intros Hnone. apply Hid. intros e0 He0. apply Hnone. right. exact He0.
Qed.

Lemma sweep_run (today : Z) (d : db) :
  exists upd' d',
    post_update_status_for_inactive_students today d =
      ({| sweep_http_status := 200;
          sweep_message :=
            match filter active_now (student_users d) with
            | [] => "No active students found"
            | _ :: _ => "Student statuses updated successfully"
            end;
          updated_students := upd' |}, d') /\
    d' = with_student_users (student_users d') d /\
    swept (student_users d) (student_users d') /\
    (forall r r', In r (student_users d) -> active_now r = true ->
       stale today d (su_email r) = true ->
       In r' (student_users d') -> sql_eqb (su_email r') (su_email r) = true ->
       su_status r' = Some "inactive") /\
    ((forall r, In r (student_users d) -> active_now r = true ->
        stale today d (su_email r) = false) -> d' = d /\ upd' = []).
Proof.
  unfold post_update_status_for_inactive_students, select_active_students,
    bind, gets, ret.
  fold active_now.
  change (fun r : student_user_row =>
            match su_status r with
            | Some s => sql_eqb s "active"
            | None => false
            end) with active_now.
  destruct (filter active_now (student_users d)) as [|a act] eqn:Hact.
  - exists [], d. split; [reflexivity|]. split; [destruct d; reflexivity|].
    split; [apply swept_refl|]. split; [|auto].
    intros r r' Hr Ha. exfalso.
    assert (Hin : In r (filter active_now (student_users d)))
      by (apply filter_In; split; assumption).
    rewrite Hact in Hin. exact Hin.
  - remember (map su_email (a :: act)) as es eqn:Hes.
    destruct (sweep_loop_spec today es [] d)
      as (upd' & d' & Hrun & Hd' & Hsw & Hin & Hid).
    exists upd', d'.
    assert (Hmem : forall r, In r (student_users d) -> active_now r = true ->
              In (su_email r) es).
    { intros r Hr Ha. rewrite Hes. apply in_map. rewrite <- Hact.
      apply filter_In. auto. }
    assert (Hback : forall e, In e es ->
              exists r, su_email r = e /\ In r (student_users d) /\
                        active_now r = true).
    { intros e He. rewrite Hes in He. apply in_map_iff in He.
      destruct He as (r & <- & Hr). rewrite <- Hact in Hr.
      apply filter_In in Hr. exists r. tauto. }
    destruct es as [|e0 es0]; [discriminate Hes|].
    cbv beta iota. rewrite Hrun.
    split; [reflexivity|]. split; [exact Hd'|]. split; [exact Hsw|].
    split.
    + intros r r' Hr Ha Hstale Hr' Hmatch.
      apply (Hin (su_email r) r'); auto.
    + intros Hnone. apply Hid. intros e He.
      destruct (Hback e He) as (r & <- & Hr & Ha).
      apply Hnone; assumption.
Qed.

(** X18. The sweep only inactivates:
    [POST /api/update-status-for-inactive-students] is answered 200, neither
    adds nor removes rows of [student_users], keeps address, title and
    password of every row, leaves every status as it was or at "inactive",
    and changes no other table. *)
Theorem sweep_only_inactivates (today : Z) (d : db) :
  let out := post_update_status_for_inactive_students today d in
  sweep_http_status (fst out) = 200 /\
  snd out = with_student_users (student_users (snd out)) d /\
  swept (student_users d) (student_users (snd out)).
Proof.
  intros out. subst out.
  destruct (sweep_run today d) as (upd' & d' & Hrun & Hd' & Hsw & _).
  rewrite Hrun. simpl. auto.
Qed.

Lemma sweep_fresh_actives (today : Z) (d : db) :
  (forall x, sql_eqb x x = true) ->
  sql_eqb "inactive" "active" = false ->
  forall r',
    In r' (student_users (snd (post_update_status_for_inactive_students today d))) ->
    active_now r' = true ->
    stale today (snd (post_update_status_for_inactive_students today d))
      (su_email r') = false.
Proof.
  intros Hrefl Hia r' Hr' Ha.
  destruct (sweep_run today d) as (upd' & d' & Hrun & Hd' & Hsw & Hin & _).
  rewrite Hrun in *. simpl in Hr' |- *.
  destruct (Forall2_in_right _ _ _ r' Hsw Hr') as (r & Hr & (Em & _ & _) & Hs).
  assert (Hs' : su_status r' = su_status r).
  { destruct Hs as [Hs|Hs]; [exact Hs|].
    unfold active_now in Ha. rewrite Hs, Hia in Ha. discriminate. }
  assert (Har : active_now r = true).
  { unfold active_now in *. rewrite <- Hs'. exact Ha. }
  assert (Hstale : stale today d' (su_email r') = stale today d (su_email r)).
  { rewrite Hd', Em. reflexivity. }
  rewrite Hstale.
  destruct (stale today d (su_email r)) eqn:E; [|reflexivity].
  exfalso.
  assert (Hi : su_status r' = Some "inactive").
  { apply (Hin r r' Hr Har E Hr'). rewrite Em. apply Hrefl. }
  unfold active_now in Ha. rewrite Hi, Hia in Ha. discriminate.
Qed.

(** X19. After the sweep no active student is stale: when the engine finds
    every string equal to itself and "inactive" different from "active",
    every row that [status = 'active'] still selects after the sweep belongs
    to a student number with a logsheet at most 10 days old. *)
Theorem sweep_leaves_no_stale_active (today : Z) (d : db) :
  (forall x, sql_eqb x x = true) ->
  sql_eqb "inactive" "active" = false ->
  let d' := snd (post_update_status_for_inactive_students today d) in
  forall r',
    In r' (student_users d') -> active_now r' = true ->
    exists l,
      last_log_date (before_at (su_email r')) d' = Some l /\ today - l <= 10.
Proof.
  intros Hrefl Hia d' r' Hr' Ha.
  pose proof (sweep_fresh_actives today d Hrefl Hia r' Hr' Ha) as Hfresh.
  fold d' in Hfresh. unfold stale in Hfresh.
  destruct (last_log_date (before_at (su_email r')) d') as [l|]; [|discriminate].
  exists l. split; [reflexivity|]. apply Z.ltb_ge in Hfresh. lia.
Qed.

(** X20. The sweep is idempotent: under the same two conditions on the
    engine, a second sweep on the same day reports no updated student and
    leaves the database as the first sweep left it. *)
Theorem sweep_twice_is_noop (today : Z) (d : db) :
  (forall x, sql_eqb x x = true) ->
  sql_eqb "inactive" "active" = false ->
  let d' := snd (post_update_status_for_inactive_students today d) in
  snd (post_update_status_for_inactive_students today d') = d' /\
  updated_students (fst (post_update_status_for_inactive_students today d')) = [].
Proof.
  intros Hrefl Hia d'.
  destruct (sweep_run today d') as (upd'' & d'' & Hrun & _ & _ & _ & Hid).
  rewrite Hrun. simpl.
  destruct Hid as [-> ->]; [|split; reflexivity].
  intros r Hr Ha. apply (sweep_fresh_actives today d Hrefl Hia r Hr Ha).
Qed.

(** *** Lectures: the registration switch and the registrations *)

Lemma toggle_status_effect (id : Z) (d : db) (row : guest_lecture_row)
  (rows : list guest_lecture_row) :
  event_rows id d = row :: rows ->
  put_toggle_status id d =
    (Some (json 200
       [("success", JBool true);
        ("message",
         JStr ("Lecture status toggled to '" ++
               toggled (gl_register_status row) ++ "'")%string);
        ("newStatus", JStr (toggled (gl_register_status row)))]),
     with_guest_lectures
       (map (fun e => if gl_id e =? id
                      then set_register_status (toggled (gl_register_status row)) e
                      else e)
            (guest_lectures d)) d).
Proof.
  intros Hrows.
  unfold put_toggle_status, toggle_status_try, select_event, update_register_status,
    bind, gets, ret, modify.
  unfold event_rows in Hrows. rewrite Hrows. reflexivity.
Qed.

Lemma event_rows_after_toggle (id : Z) (status : string) (d : db) :
  event_rows id
    (with_guest_lectures
       (map (fun e => if gl_id e =? id then set_register_status status e else e)
            (guest_lectures d)) d) =
  map (set_register_status status) (event_rows id d).
Proof.
  unfold event_rows. simpl.
  apply (filter_map_if (fun e => gl_id e =? id) (set_register_status status)).
  reflexivity.
Qed.

(** X21. The registration switch: for a lecture that exists,
    [PUT /api/guest-lecture/toggle-status/:id] is answered 200 and sets the
    status to "inactive" when it was "active" and to "active" otherwise; for
    a lecture stored in one row with status "active" or "inactive", a second
    call brings the database back to where it was. *)
Theorem toggle_status_twice_restores (id : Z) (d : db) (row : guest_lecture_row)
  (rows : list guest_lecture_row) :
  event_rows id d = row :: rows ->
  let d1 := snd (put_toggle_status id d) in
  status_of (fst (put_toggle_status id d)) = Some 200 /\
  Forall (fun e => gl_register_status e = toggled (gl_register_status row))
    (event_rows id d1) /\
  (rows = [] ->
   gl_register_status row = "active" \/ gl_register_status row = "inactive" ->
   snd (put_toggle_status id d1) = d).
Proof.
  intros Hrows d1. subst d1.
  rewrite (toggle_status_effect id d row rows Hrows). unfold fst, snd.
  split; [reflexivity|]. split.
  - rewrite event_rows_after_toggle.
    apply Forall_forall. intros x Hx. apply in_map_iff in Hx.
    destruct Hx as (y & <- & _). reflexivity.
  - intros -> Hst.
    pose proof (event_rows_after_toggle id (toggled (gl_register_status row)) d)
      as Hrows1.
    rewrite Hrows in Hrows1. simpl map in Hrows1.
    rewrite (toggle_status_effect id _ _ _ Hrows1). unfold snd.
    change (gl_register_status
              (set_register_status (toggled (gl_register_status row)) row))
      with (toggled (gl_register_status row)).
    assert (Hback : toggled (toggled (gl_register_status row)) =
                    gl_register_status row).
    { destruct Hst as [-> | ->]; reflexivity. }
    rewrite Hback.
    unfold with_guest_lectures. simpl. rewrite map_map.
    assert (Hmap : map (fun e =>
                     if gl_id (if gl_id e =? id
                               then set_register_status
                                      (toggled (gl_register_status row)) e
                               else e) =? id
                     then set_register_status (gl_register_status row)
                            (if gl_id e =? id
                             then set_register_status
                                    (toggled (gl_register_status row)) e
                             else e)
                     else if gl_id e =? id
                          then set_register_status
                                 (toggled (gl_register_status row)) e
                          else e)
                   (guest_lectures d) = guest_lectures d).
    { rewrite <- (map_id (guest_lectures d)) at 2.
      apply map_ext_in. intros e He.
      destruct (gl_id e =? id) eqn:E; simpl; rewrite E; [|reflexivity].
      assert (Hin : In e (event_rows id d))
        by (apply filter_In; split; assumption).
      rewrite Hrows in Hin. destruct Hin as [<-|[]].
      destruct row; reflexivity. }
    rewrite Hmap. destruct d; reflexivity.
Qed.

(** X22. Closing and opening registration: after the switch has been
    applied to a lecture with status "active", [POST /api/lectures/register]
    for it is answered 403 "Registration is not active for this event" and
    inserts nothing, whoever asks; after it has been applied to a lecture
    with another status, a student with an accepted application and no
    registration yet registers with 201, provided the lecture is not in the
    past. *)
Theorem toggle_status_gates_registration (today ev : Z) (st : string) (d : db)
  (e : guest_lecture_row) (events : list guest_lecture_row) :
  ev <> 0 -> falsy (Some st) = false ->
  event_rows ev d = e :: events ->
  let d1 := snd (put_toggle_status ev d) in
  (gl_register_status e = "active" ->
   post_lectures_register today (Some ev) (Some st) d1 =
     (Some (forbidden "Registration is not active for this event"), d1)) /\
  (String.eqb (gl_register_status e) "active" = false ->
   today <= gl_event_date e ->
   forall a apps,
     accepted_ids st d = a :: apps -> registration_count ev a d = 0%nat ->
     post_lectures_register today (Some ev) (Some st) d1 =
       (Some registered_for_lecture,
        with_event_attendance
          (event_attendance d1 ++
            [{| ea_event_id := ev; ea_student_id := a; ea_attended := false |}]) d1)).
Proof.
  intros Hev Hst Hrows d1. subst d1.
  rewrite (toggle_status_effect ev d e events Hrows). unfold snd.
  pose proof (event_rows_after_toggle ev (toggled (gl_register_status e)) d)
    as Hrows1.
  rewrite Hrows in Hrows1. simpl map in Hrows1. unfold event_rows in Hrows1.
  apply Z.eqb_neq in Hev.
  split.
  - intros Hactive.
    unfold post_lectures_register. rewrite Hev, Hst. simpl orb. cbv iota.
    unfold lectures_register_try, select_event, bind, gets, ret.
    rewrite Hrows1. rewrite Hactive. reflexivity.
  - intros Hinactive Hdate a apps Hacc Hcount.
    remember (with_guest_lectures
                (map (fun e0 => if gl_id e0 =? ev
                                then set_register_status
                                       (toggled (gl_register_status e)) e0
                                else e0)
                     (guest_lectures d)) d) as d1 eqn:Hd1.
    assert (Hr1 : filter (fun e0 => gl_id e0 =? ev) (guest_lectures d1) =
              set_register_status "active" e :: map (set_register_status "active") events).
    { rewrite Hrows1. unfold toggled. rewrite Hinactive. reflexivity. }
    assert (Hacc1 : accepted_ids st d1 = a :: apps) by (rewrite Hd1; exact Hacc).
    assert (Hcount1 : registration_count ev a d1 = 0%nat)
      by (rewrite Hd1; exact Hcount).
    assert (Hd : (gl_event_date e <? today) = false) by (apply Z.ltb_ge; exact Hdate).
    unfold post_lectures_register. rewrite Hev, Hst. simpl orb. cbv iota.
    unfold lectures_register_try, select_event, select_accepted_application,
      select_registration_count, insert_attendance, bind, gets, ret, modify.
    rewrite Hr1. cbv beta iota.
    cbn [gl_register_status set_register_status gl_event_date].
    rewrite String.eqb_refl. change (negb true) with false. cbv beta iota.
    rewrite Hd. cbv beta iota.
    fold (accepted_ids st d1). rewrite Hacc1. cbv beta iota.
    fold (registration_count ev a d1). rewrite Hcount1. reflexivity.
Qed.

(** X23. What a registration request can do: [POST /api/lectures/register]
    either is answered 201 and appends to [event_attendance] one row, not
    marked attended, for the lecture and the first accepted application of
    the student number, which had no registration for that lecture; or it is
    not answered 201 and leaves the database as it was. *)
Theorem lectures_register_effect (today : Z) (event_id : option Z)
  (student_id : option string) (d : db) :
  let out := post_lectures_register today event_id student_id d in
  (exists ev st a apps,
      event_id = Some ev /\ student_id = Some st /\
      accepted_ids st d = a :: apps /\ registration_count ev a d = 0%nat /\
      out = (Some registered_for_lecture,
             with_event_attendance
               (event_attendance d ++
                 [{| ea_event_id := ev; ea_student_id := a; ea_attended := false |}]) d))
  \/ (status_of (fst out) <> Some 201 /\ snd out = d).
Proof.
  intros out. subst out. unfold post_lectures_register.
  destruct event_id as [ev|]; [|right; split; [discriminate|reflexivity]].
  destruct student_id as [st|]; [|right; split; [discriminate|reflexivity]].
  destruct ((ev =? 0) || falsy (Some st)); [right; split; [discriminate|reflexivity]|].
  unfold lectures_register_try, select_event, select_accepted_application,
    select_registration_count, insert_attendance, bind, gets, ret, modify.
  unfold accepted_ids, registration_count.
  destruct (filter (fun e => gl_id e =? ev) (guest_lectures d)) as [|e events];
    [right; split; [discriminate|reflexivity]|].
  destruct (negb (String.eqb (gl_register_status e) "active")); cbv beta iota;
    [right; split; [discriminate|reflexivity]|].
  destruct (gl_event_date e <? today); cbv beta iota;
    [right; split; [discriminate|reflexivity]|].
  destruct (map app_id _) as [|a apps] eqn:Hacc; cbv beta iota;
    [right; split; [discriminate|reflexivity]|].
  destruct (length (filter _ (event_attendance d))) eqn:Hcount; simpl;
    [|right; split; [discriminate|reflexivity]].
  left. exists ev, st, a, apps. repeat split; assumption.
Qed.

(** *** Staff and mentor signup *)

Ltac unfold_site_tx :=
  unfold try_catch, site_execute, site_commit, site_rollback, may_fail,
    bind, ret, throw, gets, modify, site_getConnection.

Lemma staff_signup_outcome (env : signup_env) (req : signup_request)
  (c : string) (s : site) :
  code req = Some c ->
  (exists e t p,
      email req = Some e /\ title req = Some t /\ password req = Some p /\
      falsy (Some c) = false /\ staff_code_rows c s <> [] /\
      existsb (fun r => sql_eqb (u_email r) e) (staff_users s) = false /\
      post_staff_Signup env req s =
        (Some staff_registered, staff_redeemed e t (digest env 0%nat p) c s))
  \/ (status_of (fst (post_staff_Signup env req s)) <> Some 201 /\
      snd (post_staff_Signup env req s) = s).
Proof.
  intros Hc. unfold post_staff_Signup, staff_code_signup. rewrite Hc.
  destruct (falsy (Some c)) eqn:Hf; [right; split; [discriminate|reflexivity]|].
  destruct (fault env GetConnection) eqn:Hg;
    [right; split; [discriminate|reflexivity]|].
  unfold staff_code_signup_try, staff_code_signup_catch, bcrypt_hash,
    insert_staff_user, select_staff_codes, delete_staff_codes, site_bind_param.
  unfold_site_tx. simpl.
  repeat (step_handler; simpl).
  all: try (right; split; [discriminate|reflexivity]).
  left. do 3 eexists. repeat split; try reflexivity; try assumption.
  unfold staff_code_rows. intros E. rewrite E in *. discriminate.
Qed.

Lemma mentor_signup_outcome (env : signup_env) (req : signup_request)
  (c : string) (s : site) :
  code req = Some c ->
  (exists e t p,
      email req = Some e /\ title req = Some t /\ password req = Some p /\
      falsy (Some c) = false /\ staff_code_rows c s <> [] /\
      existsb (fun r => sql_eqb (u_email r) e) (mentor_users s) = false /\
      post_mentor_signup env req s =
        (Some mentor_registered, mentor_redeemed e t (digest env 0%nat p) c s))
  \/ (status_of (fst (post_mentor_signup env req s)) <> Some 201 /\
      snd (post_mentor_signup env req s) = s).
Proof.
  intros Hc. unfold post_mentor_signup, staff_code_signup. rewrite Hc.
  destruct (falsy (Some c)) eqn:Hf; [right; split; [discriminate|reflexivity]|].
  destruct (fault env GetConnection) eqn:Hg;
    [right; split; [discriminate|reflexivity]|].
  unfold staff_code_signup_try, staff_code_signup_catch, bcrypt_hash,
    insert_mentor_user, select_staff_codes, delete_staff_codes, site_bind_param.
  unfold_site_tx. simpl.
  repeat (step_handler; simpl).
  all: try (right; split; [discriminate|reflexivity]).
  left. do 3 eexists. repeat split; try reflexivity; try assumption.
  unfold staff_code_rows. intros E. rewrite E in *. discriminate.
Qed.

(** X24. Staff and mentor signup are all or nothing: with a code presented,
    [POST /api/staff_Signup] either is answered 201 with the row in
    [staff_users] inserted and the rows of the code deleted from
    [staff_codes] together, or is not answered 201 and leaves the database as
    it was; [POST /api/mentor_signup] does the same with [mentor_users]. *)
Theorem staff_and_mentor_signup_atomic (env : signup_env) (req : signup_request)
  (c : string) (s : site) :
  code req = Some c ->
  ((exists e t p,
       email req = Some e /\ title req = Some t /\ password req = Some p /\
       post_staff_Signup env req s =
         (Some staff_registered, staff_redeemed e t (digest env 0%nat p) c s))
   \/ (status_of (fst (post_staff_Signup env req s)) <> Some 201 /\
       snd (post_staff_Signup env req s) = s)) /\
  ((exists e t p,
       email req = Some e /\ title req = Some t /\ password req = Some p /\
       post_mentor_signup env req s =
         (Some mentor_registered, mentor_redeemed e t (digest env 0%nat p) c s))
   \/ (status_of (fst (post_mentor_signup env req s)) <> Some 201 /\
       snd (post_mentor_signup env req s) = s)).
Proof.
  intros Hc. split.
  - destruct (staff_signup_outcome env req c s Hc)
      as [(e & t & p & He & Ht & Hp & _ & _ & _ & H) | H]; [left|right; exact H].
    exists e, t, p. auto.
  - destruct (mentor_signup_outcome env req c s Hc)
      as [(e & t & p & He & Ht & Hp & _ & _ & _ & H) | H]; [left|right; exact H].
    exists e, t, p. auto.
Qed.

Lemma staff_code_rows_without (c : string) (s : site) :
  staff_code_rows c (without_staff_code c s) = [].
Proof.
  unfold staff_code_rows, without_staff_code. simpl.
  apply (filter_neg_filter (fun r => sql_eqb (stc_code r) c)).
Qed.

Lemma staff_signup_absent_code
  (insert : option string -> option string -> string -> M site unit)
  (done : string) (env : signup_env) (req : signup_request) (c : string)
  (s : site) :
  code req = Some c -> staff_code_rows c s = [] ->
  falsy (Some c) = false ->
  fault env GetConnection = None -> fault env BeginTransaction = None ->
  fault env SelectCode = None ->
  staff_code_signup insert done env req s = (Some invalid_code, s).
Proof.
  intros Hc Habs Hf Hg Hb Hs. unfold staff_code_signup.
  rewrite Hc, Hf, Hg.
  unfold staff_code_signup_try, select_staff_codes. unfold_site_tx.
  rewrite Hb, Hs. simpl. unfold staff_code_rows in Habs. rewrite Habs. reflexivity.
Qed.

(** X25. Staff and mentor accounts draw on the same codes: once a code has
    been redeemed (201) by [POST /api/staff_Signup] or by
    [POST /api/mentor_signup], an attempt on either route that presents it
    again and whose lookup runs is answered 400
    "Invalid or expired signup code" and changes nothing. *)
Theorem staff_code_is_single_use (env env' : signup_env)
  (req req' : signup_request) (c : string) (s : site) :
  code req = Some c -> code req' = Some c ->
  fault env' GetConnection = None -> fault env' BeginTransaction = None ->
  fault env' SelectCode = None ->
  (status_of (fst (post_staff_Signup env req s)) = Some 201 ->
   let s1 := snd (post_staff_Signup env req s) in
   post_staff_Signup env' req' s1 = (Some invalid_code, s1) /\
   post_mentor_signup env' req' s1 = (Some invalid_code, s1)) /\
  (status_of (fst (post_mentor_signup env req s)) = Some 201 ->
   let s1 := snd (post_mentor_signup env req s) in
   post_staff_Signup env' req' s1 = (Some invalid_code, s1) /\
   post_mentor_signup env' req' s1 = (Some invalid_code, s1)).
Proof.
  intros Hc Hc' Hg Hb Hs. split.
  - intros H201 s1.
    destruct (staff_signup_outcome env req c s Hc)
      as [(e & t & p & _ & _ & _ & Hf & _ & _ & Heq) | [Hst _]];
      [|contradiction].
    assert (Habs : staff_code_rows c s1 = []).
    { subst s1. rewrite Heq. apply staff_code_rows_without. }
    unfold post_staff_Signup, post_mentor_signup.
    split; apply (staff_signup_absent_code _ _ env' req' c s1); assumption.
  - intros H201 s1.
    destruct (mentor_signup_outcome env req c s Hc)
      as [(e & t & p & _ & _ & _ & Hf & _ & _ & Heq) | [Hst _]];
      [|contradiction].
    assert (Habs : staff_code_rows c s1 = []).
    { subst s1. rewrite Heq. apply staff_code_rows_without. }
    unfold post_staff_Signup, post_mentor_signup.
    split; apply (staff_signup_absent_code _ _ env' req' c s1); assumption.
Qed.

Lemma staff_signup_succeeds (env : signup_env) (req : signup_request)
  (c e t p : string) (s : site) :
  code req = Some c -> email req = Some e -> title req = Some t ->
  password req = Some p ->
  falsy (Some c) = false -> no_fault env -> staff_code_rows c s <> [] ->
  existsb (fun r => sql_eqb (u_email r) e) (staff_users s) = false ->
  post_staff_Signup env req s =
    (Some staff_registered, staff_redeemed e t (digest env 0%nat p) c s).
Proof.
  intros Hc He Ht Hp Hf Hn Hrows Hfree.
  unfold post_staff_Signup, staff_code_signup.
  rewrite Hc, Hf, (Hn GetConnection).
  unfold staff_code_signup_try, staff_code_signup_catch, bcrypt_hash,
    insert_staff_user, select_staff_codes, delete_staff_codes, site_bind_param.
  unfold_site_tx. rewrite !Hn, He, Ht, Hp. simpl.
  unfold staff_code_rows in Hrows.
  destruct (filter (fun r => sql_eqb (stc_code r) c) (staff_codes (main s))) eqn:E;
    [contradiction|].
  simpl. rewrite Hfree. reflexivity.
Qed.

(** X26. From issued staff code to staff account: when
    [POST /api/staff_codes] stores the code of generator call [k], the first
    without collision, and the engine finds that code equal to itself, an
    undisturbed [POST /api/staff_Signup] that presents it with an address
    free in [staff_users] is answered 201, and no row of the code is left in
    [staff_codes]. *)
Theorem issued_staff_code_redeems (env : staff_env) (name mail : string)
  (k : nat) (s : site) (senv : signup_env) (req : signup_request)
  (e t p : string) :
  falsy (Some name) = false -> falsy (Some mail) = false ->
  emailRegex_test mail = true ->
  (k < 5)%nat -> collides env (main s) k = false ->
  (forall j, (j < k)%nat -> collides env (main s) j = true) ->
  sql_eqb (generateStaffCode env k) (generateStaffCode env k) = true ->
  falsy (Some (generateStaffCode env k)) = false ->
  no_fault senv -> code req = Some (generateStaffCode env k) ->
  email req = Some e -> title req = Some t -> password req = Some p ->
  existsb (fun r => sql_eqb (u_email r) e) (staff_users s) = false ->
  let s1 := snd (on_main (post_staff_codes env (Some name) (Some mail)) s) in
  staff_code_rows (generateStaffCode env k) s1 =
    [staff_row (generateStaffCode env k) name mail] /\
  fst (post_staff_Signup senv req s1) = Some staff_registered /\
  staff_code_rows (generateStaffCode env k) (snd (post_staff_Signup senv req s1)) = [] /\
  staff_users (snd (post_staff_Signup senv req s1)) =
    staff_users s ++ [{| u_email := e; u_title := t; u_password := digest senv 0%nat p |}].
Proof.
  intros Hname Hmail Hregex Hk Hfresh Hbefore Hrefl Hf Hn Hc He Ht Hp Hfree s1.
  assert (Hs1 : s1 =
    with_main
      (with_staff_codes
         (staff_codes (main s) ++ [staff_row (generateStaffCode env k) name mail])
         (main s)) s).
  { subst s1. unfold on_main, post_staff_codes.
    rewrite Hname, Hmail, Hregex. simpl.
    unfold staff_codes_try, staff_codes_catch, insert_staff_code,
      sendStaffCodeEmail, sendMail, try_catch, may_fail, bind, gets, ret, throw,
      modify.
    rewrite (search_loop_first_fresh env (main s) k maxAttempts search_start);
      try reflexivity; try exact Hfresh; try exact Hbefore;
      try (unfold maxAttempts; simpl; lia).
    simpl. destruct (staff_mail env); reflexivity. }
  assert (Hrows : staff_code_rows (generateStaffCode env k) s1 =
            [staff_row (generateStaffCode env k) name mail]).
  { rewrite Hs1. unfold staff_code_rows. simpl. rewrite filter_app. simpl.
    rewrite Hrefl.
    assert (Hnone : filter (fun r => sql_eqb (stc_code r) (generateStaffCode env k))
                      (staff_codes (main s)) = []).
    { unfold collides in Hfresh. apply negb_false_iff, Nat.eqb_eq in Hfresh.
      destruct (filter _ (staff_codes (main s))); [reflexivity|discriminate]. }
    rewrite Hnone. reflexivity. }
  split; [exact Hrows|].
  assert (Hfree1 : existsb (fun r => sql_eqb (u_email r) e) (staff_users s1) = false).
  { rewrite Hs1. exact Hfree. }
  rewrite (staff_signup_succeeds senv req _ e t p s1 Hc He Ht Hp Hf Hn);
    [|rewrite Hrows; discriminate|exact Hfree1].
  split; [reflexivity|]. split.
  - unfold snd, staff_redeemed. apply staff_code_rows_without.
  - rewrite Hs1. reflexivity.
Qed.

(** *** Event codes *)

Lemma event_code_loop_first_fresh (env : event_env) (s : site) (n : nat) :
  forall fuel c,
    (forall j, (j < n)%nat -> event_collides env s (c + j) = true) ->
    event_collides env s (c + n) = false ->
    (n <= fuel)%nat ->
    event_code_loop fuel env s (generateEventCode env c) (S c) =
      Some (generateEventCode env (c + n), S (c + n)).
Proof.
  induction n as [|n IH]; intros fuel c Hbefore Hfresh Hfuel.
  - rewrite Nat.add_0_r in *. unfold event_collides in Hfresh.
    destruct fuel; simpl; rewrite Hfresh; reflexivity.
  - destruct fuel as [|fuel]; [lia|].
    pose proof (Hbefore 0%nat ltac:(lia)) as H0. rewrite Nat.add_0_r in H0.
    unfold event_collides in H0. simpl. rewrite H0.
    rewrite <- Nat.add_succ_comm. apply IH.
    + intros j Hj. rewrite Nat.add_succ_comm. apply Hbefore. lia.
    + rewrite Nat.add_succ_comm. exact Hfresh.
    + lia.
Qed.

Lemma event_code_loop_all_collide (env : event_env) (s : site) :
  (forall k, event_collides env s k = true) ->
  forall fuel c,
    event_code_loop fuel env s (generateEventCode env c) (S c) = None.
Proof.
  intros Hall. induction fuel as [|fuel IH]; intros c; simpl.
  - pose proof (Hall c) as H. unfold event_collides in H. rewrite H. reflexivity.
  - pose proof (Hall c) as H. unfold event_collides in H. rewrite H. apply IH.
Qed.

(** X27. Issuing an event code: when generator call [k] is the first whose
    code is not in [event_codes], the loop of [POST /api/create-event-code]
    ends after [k] further rounds and the row with that code and the guest's
    name and address is appended, nothing else changing.  The answer is 201
    when the mail goes out, and 500
    "Event code created but failed to send email", with the row stored all
    the same, when it does not. *)
Theorem event_code_first_fresh (env : event_env) (name mail : string)
  (k fuel : nat) (s : site) :
  falsy (Some name) = false -> falsy (Some mail) = false ->
  event_collides env s k = false ->
  (forall j, (j < k)%nat -> event_collides env s j = true) ->
  (k <= fuel)%nat ->
  let s' := with_event_codes
              (event_codes s ++ [event_row (generateEventCode env k) name mail]) s in
  (event_mail env = None ->
   post_create_event_code fuel env (Some name) (Some mail) s =
     Some (Some (event_code_created (generateEventCode env k) mail), s')) /\
  (forall err, event_mail env = Some err ->
   post_create_event_code fuel env (Some name) (Some mail) s =
     Some (Some (json 500
             [("success", JBool false);
              ("message", JStr "Event code created but failed to send email")]),
           s')).
Proof.
  intros Hname Hmail Hfresh Hbefore Hfuel s'.
  assert (Hloop : event_code_loop fuel env s (generateEventCode env 0) 1 =
            Some (generateEventCode env k, S k)).
  { apply (event_code_loop_first_fresh env s k fuel 0%nat); assumption. }
  split.
  - intros Hm. unfold post_create_event_code.
    rewrite Hname, Hmail, Hloop. simpl.
    unfold insert_event_code, sendEventCodeEmail, sendMail, try_catch, may_fail,
      bind, ret, throw, modify.
    rewrite Hm. reflexivity.
  - intros err Hm. unfold post_create_event_code.
    rewrite Hname, Hmail, Hloop. simpl.
    unfold insert_event_code, sendEventCodeEmail, sendMail, try_catch, may_fail,
      bind, ret, throw, modify.
    rewrite Hm. reflexivity.
Qed.

(** X28. The event-code loop has no bound: when every code the generator
    returns is already in [event_codes], the loop of
    [POST /api/create-event-code] is still running after any number of
    rounds, so the request is never answered and nothing is inserted. *)
Theorem event_code_loop_unbounded (env : event_env) (name mail : string)
  (s : site) :
  falsy (Some name) = false -> falsy (Some mail) = false ->
  (forall k, event_collides env s k = true) ->
  forall fuel, post_create_event_code fuel env (Some name) (Some mail) s = None.
Proof.
  intros Hname Hmail Hall fuel. unfold post_create_event_code.
  rewrite Hname, Hmail. simpl.
  rewrite (event_code_loop_all_collide env s Hall fuel 0%nat). reflexivity.
Qed.

(** X29. An issued event code validates: when
    [POST /api/create-event-code] has ended with the code of generator call
    [k], the first without collision, and that code is not blank and the
    engine finds it equal to itself, [POST /api/validate-event-code] with
    that code answers 200 "Code is valid" with the guest's name and address,
    and leaves the database as it is. *)
Theorem issued_event_code_validates (env : event_env) (name mail : string)
  (k fuel : nat) (s s' : site) (r : option response) :
  falsy (Some name) = false -> falsy (Some mail) = false ->
  event_collides env s k = false ->
  (forall j, (j < k)%nat -> event_collides env s j = true) ->
  (k <= fuel)%nat ->
  sql_eqb (generateEventCode env k) (generateEventCode env k) = true ->
  falsy (Some (generateEventCode env k)) = false ->
  trims_to_empty (generateEventCode env k) = false ->
  post_create_event_code fuel env (Some name) (Some mail) s = Some (r, s') ->
  post_validate_event_code (Some (generateEventCode env k)) s' =
    (Some (event_code_valid (event_row (generateEventCode env k) name mail)), s').
Proof.
  intros Hname Hmail Hfresh Hbefore Hfuel Hrefl Hf Hblank Hrun.
  assert (Hs' : s' = with_event_codes
                       (event_codes s ++
                         [event_row (generateEventCode env k) name mail]) s).
  { unfold post_create_event_code in Hrun.
    rewrite Hname, Hmail in Hrun. simpl in Hrun.
    rewrite (event_code_loop_first_fresh env s k fuel 0%nat) in Hrun;
      try assumption.
    unfold insert_event_code, sendEventCodeEmail, sendMail, try_catch, may_fail,
      bind, ret, throw, modify in Hrun.
    simpl in Hrun. destruct (event_mail env); simpl in Hrun;
      injection Hrun as _ <-; reflexivity. }
  unfold post_validate_event_code. rewrite Hf, Hblank. simpl orb. cbv iota.
  assert (Hrows : select_event_codes (generateEventCode env k) s' =
            [event_row (generateEventCode env k) name mail]).
  { rewrite Hs'. unfold select_event_codes. simpl. rewrite filter_app. simpl.
    rewrite Hrefl.
    unfold event_collides, select_event_codes in Hfresh.
    destruct (filter _ (event_codes s)); [reflexivity|discriminate]. }
  rewrite Hrows. reflexivity.
Qed.

End Handlers.

(** ** The properties on the reference engine

    Each statement below instantiates one of the theorems above with the
    case-insensitive comparison, the wildcard matcher and the sample data. *)

Lemma signup_code_single_use_witness :
  let first := post_student_signup eqb_ci (Some "active") calm thabo_signup db_issued in
  status_of (fst first) = Some 201 /\
  forallb (fun q => negb (issues eqb_ci "ABCD1234" q)) later_requests = true /\
  let d2 := serve_all eqb_ci (Some "active") later_requests (snd first) in
  post_student_signup eqb_ci (Some "active") calm second_signup d2 =
    (Some invalid_code, d2).
Proof.
  intros first.
  assert (H1 : first =
            (Some (registered thabo_signup), snd first)) by (vm_compute; reflexivity).
  split; [vm_compute; reflexivity|].
  split; [vm_compute; reflexivity|].
  intros d2.
  destruct (signup_code_single_use eqb_ci (Some "active") calm thabo_signup
              "ABCD1234" (registered thabo_signup) db_issued (snd first)
              eq_refl H1 eq_refl later_requests calm second_signup)
    as (Hd & _ & Hr); [vm_compute; reflexivity|reflexivity|].
  fold d2 in Hd, Hr.
  rewrite (surjective_pairing (post_student_signup _ _ _ _ d2)).
  rewrite Hd, Hr; reflexivity.
Defined.

Lemma student_signup_atomic_witness :
  code_rows eqb_ci "ABCD1234" db_taken <> [] /\
  ~ email_free eqb_ci "202312345@live.mut.ac.za" db_taken /\
  status_of (fst (post_student_signup eqb_ci (Some "active") calm thabo_signup db_taken))
    <> Some 201 /\
  snd (post_student_signup eqb_ci (Some "active") calm thabo_signup db_taken) = db_taken /\
  working
    (snd (student_signup_transaction eqb_ci (Some "active") calm thabo_signup
            "ABCD1234" db_taken)) = db_taken.
Proof.
  assert (Hrows : code_rows eqb_ci "ABCD1234" db_taken <> [])
    by (vm_compute; discriminate).
  assert (Hdup : ~ email_free eqb_ci "202312345@live.mut.ac.za" db_taken)
    by (intros [_ Hu]; vm_compute in Hu; discriminate).
  split; [exact Hrows|]. split; [exact Hdup|].
  destruct (student_signup_atomic eqb_ci (Some "active") calm thabo_signup
              "ABCD1234" db_taken eq_refl Hrows) as (_ & _ & H & Hconn).
  destruct (H "202312345@live.mut.ac.za" eq_refl Hdup) as [Hst Hd].
  split; [exact Hst|]. split; [exact Hd|].
  destruct (Hconn eq_refl eq_refl) as (_ & _ & Hback).
  exact (proj2 (Hback Hst)).
Defined.

Lemma blocked_email_still_redeems_witness :
  let d1 := snd (post_block_signup_email (Some "thabo@live.mut.ac.za") db_issued) in
  blocked_signups d1 = ["thabo@live.mut.ac.za"] /\
  code_rows eqb_ci "ABCD1234" d1 = [thabo_code] /\
  fst (post_validate_signup_code eqb_ci (Some "ABCD1234") d1) = Some email_blocked /\
  post_student_signup eqb_ci (Some "active") calm thabo_signup d1 =
    (Some (registered thabo_signup),
     all_three_writes eqb_ci (Some "active") "202312345@live.mut.ac.za" "Mr"
       "$2a$10$s3cret" "ABCD1234" d1).
Proof.
  intros d1.
  split; [reflexivity|]. split; [vm_compute; reflexivity|].
  apply (blocked_email_still_redeems eqb_ci (Some "active") calm thabo_signup
           "ABCD1234" "202312345@live.mut.ac.za" "Mr" "s3cret" thabo_code []
           db_issued).
  - vm_compute; reflexivity.
  - reflexivity.
  - vm_compute; reflexivity.
  - reflexivity.
  - reflexivity.
  - reflexivity.
  - reflexivity.
  - reflexivity.
  - intros st; reflexivity.
  - split; vm_compute; reflexivity.
Defined.

Lemma mail_failure_rolls_back_status_update_witness :
  status_mail accept_mail_down = Some mail_down /\
  put_update_status accept_mail_down 1 (Some "Accepted") db_pending =
    (Some (database_operation_failed email_failed), db_pending) /\
  signup_codes (snd (put_update_status accept_mail_down 1 (Some "Accepted") db_pending))
    = [] /\
  map app_status
    (wil_application
       (snd (put_update_status accept_mail_down 1 (Some "Accepted") db_pending)))
    = ["Pending"].
Proof.
  assert (H : put_update_status accept_mail_down 1 (Some "Accepted") db_pending =
              (Some (database_operation_failed email_failed), db_pending)).
  { apply (mail_failure_rolls_back_status_update accept_mail_down 1 "Accepted"
             mail_down thabo_application [] db_pending).
    - intros st; reflexivity.
    - reflexivity.
    - reflexivity.
    - left; reflexivity. }
  split; [reflexivity|]. split; [exact H|].
  rewrite H. split; reflexivity.
Defined.

Lemma validation_is_read_only_witness :
  validate_repeatedly eqb_ci 3 (Some "ABCD1234") db_issued =
    ([Some valid_code; Some valid_code; Some valid_code], db_issued).
Proof.
  destruct (validation_is_read_only eqb_ci 3 (Some "ABCD1234") db_issued)
    as [Hd Hr].
  destruct (Hr "ABCD1234" thabo_code [] eq_refl) as [Hrs _];
    [reflexivity|vm_compute; reflexivity|reflexivity|].
  rewrite (surjective_pairing (validate_repeatedly _ _ _ _)).
  rewrite Hd, Hrs. reflexivity.
Defined.

Lemma activity_threshold_rule_witness :
  stored_status like_ci "202312345"
    (snd (post_update_student_status eqb_ci like_ci 110 "202312345"
            (db_student "inactive"))) = Some (Some "active") /\
  stored_status like_ci "202312345"
    (snd (post_update_student_status eqb_ci like_ci 111 "202312345"
            (db_student "active"))) = Some (Some "inactive") /\
  stored_status like_ci "202312345"
    (snd (post_update_student_status eqb_ci like_ci 111 "202312345"
            db_new_student)) = Some (Some "inactive").
Proof.
  split; [|split].
  - destruct (activity_threshold_rule eqb_ci like_ci 110 "202312345"
                (db_student "inactive") (thabo_account "inactive") [])
      as (_ & _ & H & _); [vm_compute; reflexivity|].
    apply (H 100); [vm_compute; reflexivity|lia].
  - destruct (activity_threshold_rule eqb_ci like_ci 111 "202312345"
                (db_student "active") (thabo_account "active") [])
      as (_ & _ & _ & H); [vm_compute; reflexivity|].
    apply (H 100); [vm_compute; reflexivity|lia].
  - destruct (activity_threshold_rule eqb_ci like_ci 111 "202312345"
                db_new_student (thabo_account "active") [])
      as (_ & H & _); [vm_compute; reflexivity|].
    apply H. vm_compute; reflexivity.
Defined.

Lemma recompute_twice_is_noop_witness :
  let d1 := snd (post_update_student_status eqb_ci like_ci 105 "202312345"
                   (db_student "suspended")) in
  stored_status like_ci "202312345" d1 = Some (Some "active") /\
  exists r2,
    post_update_student_status eqb_ci like_ci 105 "202312345" d1 = (Some r2, d1) /\
    field "status_changed" r2 = Some (JBool false).
Proof.
  intros d1. split; [vm_compute; reflexivity|].
  destruct (recompute_twice_is_noop eqb_ci like_ci 105 "202312345"
              (db_student "suspended") d1 (thabo_account "suspended") [])
    as (r2 & H1 & H2 & _);
    [vm_compute; reflexivity|reflexivity|reflexivity|].
  exists r2. split; assumption.
Defined.

Lemma recompute_overrides_admin_status_witness :
  let d1 := snd (post_suspend_student like_ci None "202312345" (db_student "active")) in
  stored_status like_ci "202312345" d1 = Some (Some "suspended") /\
  Forall (fun r => su_status r = Some "active")
    (student_rows like_ci "202312345"
       (snd (post_update_student_status eqb_ci like_ci 105 "202312345" d1))).
Proof.
  destruct (recompute_overrides_admin_status eqb_ci like_ci 105 100 "202312345"
              None (db_student "active") (thabo_account "active") [])
    as (_ & H & _); [vm_compute; reflexivity|vm_compute; reflexivity|lia|].
  exact H.
Defined.

Lemma registration_cap_witness :
  let first := post_lectures_register eqb_ci 150 (Some 7) (Some "202312345") db_event in
  fst first = Some registered_for_lecture /\
  registration_count 7 1 (snd first) = 1%nat /\
  post_lectures_register eqb_ci 150 (Some 7) (Some "202312345") (snd first) =
    (Some (forbidden "Maximum registrations (2) reached for this event"), snd first).
Proof.
  intros first.
  destruct (registration_cap eqb_ci 150 7 "202312345" db_event
              {| gl_id := 7; gl_register_status := "active"; gl_event_date := 200 |}
              [] 1 [])
    as (H0 & _ & _);
    [lia|reflexivity|reflexivity|reflexivity|simpl; lia|vm_compute; reflexivity|].
  destruct (H0 eq_refl) as [Hfirst Hcount]. fold first in Hfirst, Hcount.
  split; [rewrite Hfirst; reflexivity|]. split; [exact Hcount|].
  destruct (registration_cap eqb_ci 150 7 "202312345" (snd first)
              {| gl_id := 7; gl_register_status := "active"; gl_event_date := 200 |}
              [] 1 [])
    as (_ & H1 & _);
    [lia|reflexivity|vm_compute; reflexivity|reflexivity|simpl; lia
    |vm_compute; reflexivity|].
  apply H1. rewrite Hcount. lia.
Defined.

Lemma staff_code_bounded_retry_witness :
  calls (search_loop eqb_ci maxAttempts counting_generator
           (staff_db ["A0"; "A1"]) search_start) = 3%nat /\
  post_staff_codes eqb_ci counting_generator (Some "Nomsa") (Some "n@mut.ac.za")
    (staff_db ["A0"; "A1"]) =
    (Some (staff_code_created "A2"),
     with_staff_codes
       (staff_codes (staff_db ["A0"; "A1"]) ++
         [{| stc_code := "A2"; stc_staff_name := "Nomsa";
             stc_staff_email := "n@mut.ac.za" |}])
       (staff_db ["A0"; "A1"])) /\
  post_staff_codes eqb_ci counting_generator (Some "Nomsa") (Some "n@mut.ac.za")
    (staff_db ["A0"; "A1"; "A2"; "A3"; "A4"]) =
    (Some staff_code_exhausted, staff_db ["A0"; "A1"; "A2"; "A3"; "A4"]).
Proof.
  destruct (staff_code_bounded_retry eqb_ci counting_generator "Nomsa" "n@mut.ac.za"
              (staff_db ["A0"; "A1"]) eq_refl eq_refl eq_refl)
    as (_ & _ & Hfresh & _).
  destruct (Hfresh 2%nat) as (Hcalls & Hdb & Hres).
  { lia. }
  { vm_compute; reflexivity. }
  { intros j Hj. destruct j as [|[|j]]; [reflexivity|reflexivity|lia]. }
  split; [exact Hcalls|]. split.
  - rewrite (surjective_pairing (post_staff_codes _ _ _ _ _)).
    rewrite Hdb, (Hres eq_refl). reflexivity.
  - destruct (staff_code_bounded_retry eqb_ci counting_generator "Nomsa"
                "n@mut.ac.za" (staff_db ["A0"; "A1"; "A2"; "A3"; "A4"])
                eq_refl eq_refl eq_refl)
      as (_ & _ & _ & Hall).
    apply Hall. intros k Hk.
    destruct k as [|[|[|[|[|k]]]]]; try reflexivity. lia.
Defined.

(** The scenario of an accepted application: the code issued with the
    acceptance validates, redeems once with both account rows, and is
    "Invalid code" afterwards. *)
Example accept_validate_redeem_revalidate :
  let d1 := snd (put_update_status accept_mail_up 1 (Some "Accepted") db_pending) in
  let req := {| email := Some "202312345@live.mut.ac.za"; title := Some "Mr";
                password := Some "s3cret"; code := Some "K3J9X2QA" |} in
  let d2 := snd (post_student_signup eqb_ci (Some "active") calm req d1) in
  fst (post_validate_signup_code eqb_ci (Some "K3J9X2QA") d1) = Some valid_code /\
  status_of (fst (post_student_signup eqb_ci (Some "active") calm req d1)) = Some 201 /\
  length (student_users d2) = 1%nat /\ length (users d2) = 1%nat /\
  fst (post_validate_signup_code eqb_ci (Some "K3J9X2QA") d2) =
    Some (json 200 [("success", JBool false); ("message", JStr "Invalid code")]).
Proof. vm_compute. repeat split. Qed.

(** A failure between the two account inserts: the row already written to
    [student_users] in the transaction is gone after the rollback. *)
Example rollback_between_inserts :
  post_student_signup eqb_ci (Some "active")
    {| fault := fun s =>
                  match s with
                  | InsertUser => Some (Error (Some "ER_LOCK_DEADLOCK") "Deadlock found")
                  | _ => None
                  end;
       digest := fun _ p => p;
       development := false |}
    thabo_signup db_issued =
  (Some (json 500 [("message", JStr "Signup failed")]), db_issued).
Proof. vm_compute. reflexivity. Qed.

(** The same failure, seen on the connection the handler releases: the
    insert into [student_users] had run in the transaction, and the working
    copy is back at the database as it was. *)
Example rollback_clears_the_connection :
  let env := {| fault := fun s =>
                  match s with
                  | InsertUser => Some (Error (Some "ER_LOCK_DEADLOCK") "Deadlock found")
                  | _ => None
                  end;
                digest := fun _ p => p;
                development := false |} in
  let conn := snd (student_signup_transaction eqb_ci (Some "active") env
                     thabo_signup "ABCD1234" db_issued) in
  working conn = db_issued /\ committed conn = db_issued /\
  length
    (student_users
       (snd (insert_student_user eqb_ci (Some "active") (email thabo_signup)
               (title thabo_signup) "s3cret" db_issued))) = 1%nat.
Proof. vm_compute. repeat split. Qed.

(** A no-break space (U+00A0) is white space to the pattern and to [trim]:
    an address holding one is turned down with 400 "Invalid email format",
    and a code made of one is blank. *)
Example no_break_space_is_white_space :
  let address := String "a" (String "160" "b@x.y") in
  emailRegex_test address = false /\
  post_staff_codes eqb_ci counting_generator (Some "Nomsa") (Some address) db_issued =
    (Some (json 400 [("success", JBool false);
                     ("message", JStr "Invalid email format")]), db_issued) /\
  trims_to_empty (String "160" EmptyString) = true.
Proof. vm_compute. repeat split. Qed.

(** ** The further properties on the reference engine *)

Lemma post_signup_atomic_witness :
  post_signup eqb_ci calm thabo_signup db_issued =
    (Some user_registered,
     code_and_user_writes eqb_ci "202312345@live.mut.ac.za" "Mr" "$2a$10$s3cret"
       "ABCD1234" db_issued) /\
  status_of (fst (post_signup eqb_ci calm thabo_signup db_taken)) <> Some 201 /\
  snd (post_signup eqb_ci calm thabo_signup db_taken) = db_taken.
Proof.
  split.
  - destruct (post_signup_atomic eqb_ci calm thabo_signup "ABCD1234" db_issued eq_refl)
      as [(e & t & p & He & Ht & Hp & _ & _ & _ & H) | [H _]].
    + injection He as <-. injection Ht as <-. injection Hp as <-. exact H.
    + exfalso. apply H. vm_compute. reflexivity.
  - destruct (post_signup_atomic eqb_ci calm thabo_signup "ABCD1234" db_taken eq_refl)
      as [(e & t & p & He & _ & _ & _ & _ & Hfree & _) | H].
    + injection He as <-. vm_compute in Hfree. discriminate.
    + exact H.
Defined.

Lemma signup_routes_share_codes_witness :
  let d1 := snd (post_signup eqb_ci calm thabo_signup db_issued) in
  post_student_signup eqb_ci (Some "active") calm second_signup d1 =
    (Some invalid_code, d1).
Proof.
  intros d1.
  destruct (signup_routes_share_codes eqb_ci (Some "active") calm calm thabo_signup
              second_signup "ABCD1234" db_issued eq_refl eq_refl) as [H _].
  destruct H as (Hd & _ & Hr); [vm_compute; reflexivity|].
  fold d1 in Hd, Hr.
  rewrite (surjective_pairing (post_student_signup _ _ _ _ d1)).
  rewrite Hd, Hr; reflexivity.
Defined.

Lemma blocked_address_stays_blocked_witness :
  let d := snd (post_block_signup_email (Some "thabo@live.mut.ac.za") db_issued) in
  let d' := serve_all eqb_ci (Some "active") quiet_requests d in
  post_validate_signup_code eqb_ci (Some "ABCD1234") d' = (Some email_blocked, d').
Proof.
  intros d d'.
  destruct (blocked_address_stays_blocked eqb_ci (Some "active")
              "thabo@live.mut.ac.za" quiet_requests d) as [_ H];
    [vm_compute; reflexivity|].
  apply (H "ABCD1234" thabo_code []); [reflexivity|vm_compute; reflexivity|reflexivity].
Defined.

Lemma accepting_twice_issues_two_codes_witness :
  let d1 := snd (put_update_status accept_mail_up 1 (Some "Accepted") db_pending) in
  map sc_code
    (signup_codes (snd (put_update_status accept_again 1 (Some "Accepted") d1))) =
    ["K3J9X2QA"; "Q7W8E9R0"].
Proof.
  intros d1.
  destruct (accepting_twice_issues_two_codes accept_mail_up accept_again 1
              thabo_application [] db_pending) as (_ & H & _);
    [intros s; reflexivity|reflexivity|intros s; reflexivity|reflexivity
    |reflexivity|].
  fold d1 in H. rewrite H. reflexivity.
Defined.

Lemma update_status_rejections_witness :
  put_update_status accept_mail_up 1 (Some "Approved") db_pending =
    (Some (json 400 [("success", JBool false);
                     ("message", JStr "Invalid status value")]), db_pending) /\
  put_update_status accept_mail_up 2 (Some "Accepted") db_pending =
    (Some (json 404 [("success", JBool false);
                     ("message", JStr "Application not found")]), db_pending).
Proof.
  split.
  - destruct (update_status_rejections accept_mail_up 1 (Some "Approved") db_pending)
      as [H _].
    apply H. reflexivity.
  - destruct (update_status_rejections accept_mail_up 2 (Some "Accepted") db_pending)
      as [_ H].
    apply H; reflexivity.
Defined.

Lemma pending_update_needs_no_mail_witness :
  put_update_status accept_mail_down 1 (Some "Pending") db_issued =
    (Some (status_updated "Pending" None 1), status_set "Pending" 1 db_issued).
Proof.
  destruct (pending_update_needs_no_mail accept_mail_down 1
              (set_app_status "Accepted" thabo_application) [] db_issued)
    as (H & _); [intros s; reflexivity|reflexivity|].
  exact H.
Defined.

Lemma issued_code_validates_and_redeems_witness :
  let d1 := snd (put_update_status accept_mail_up 1 (Some "Accepted") db_pending) in
  let d2 := snd (post_student_signup eqb_ci (Some "active") calm issued_signup d1) in
  post_validate_signup_code eqb_ci (Some "K3J9X2QA") d1 = (Some valid_code, d1) /\
  fst (post_student_signup eqb_ci (Some "active") calm issued_signup d1) =
    Some (registered issued_signup) /\
  fst (post_validate_signup_code eqb_ci (Some "K3J9X2QA") d2) =
    Some (json 200 [("success", JBool false); ("message", JStr "Invalid code")]).
Proof.
  destruct (issued_code_validates_and_redeems eqb_ci (Some "active") accept_mail_up 1
              thabo_application [] db_pending calm issued_signup
              "202312345@live.mut.ac.za" "Mr" "s3cret")
    as (H1 & H2 & _ & H4).
  - intros s; reflexivity.
  - reflexivity.
  - reflexivity.
  - reflexivity.
  - vm_compute; reflexivity.
  - reflexivity.
  - reflexivity.
  - intros s; reflexivity.
  - reflexivity.
  - reflexivity.
  - reflexivity.
  - reflexivity.
  - split; reflexivity.
  - intros d1 d2. split; [exact H1|]. split; [exact H2|exact H4].
Defined.

Lemma staff_codes_stay_distinct_witness :
  codes_distinct eqb_ci (staff_codes (staff_db ["A0"; "A1"])) /\
  codes_distinct eqb_ci
    (staff_codes
       (snd (post_staff_codes eqb_ci counting_generator (Some "Nomsa")
               (Some "n@mut.ac.za") (staff_db ["A0"; "A1"])))).
Proof.
  assert (H : codes_distinct eqb_ci (staff_codes (staff_db ["A0"; "A1"]))).
  { unfold codes_distinct. simpl.
    repeat (constructor; [repeat constructor|]). constructor. }
  split; [exact H|].
  destruct (staff_codes_stay_distinct eqb_ci counting_generator (Some "Nomsa")
              (Some "n@mut.ac.za") (staff_db ["A0"; "A1"])) as [_ Hd].
  exact (Hd H).
Defined.

Lemma staff_code_kept_when_mail_fails_witness :
  post_staff_codes eqb_ci failing_mail (Some "Nomsa") (Some "n@mut.ac.za")
    (staff_db ["A0"; "A1"]) =
    (None,
     with_staff_codes
       (staff_codes (staff_db ["A0"; "A1"]) ++ [staff_row "A2" "Nomsa" "n@mut.ac.za"])
       (staff_db ["A0"; "A1"])).
Proof.
  apply (staff_code_kept_when_mail_fails eqb_ci failing_mail "Nomsa" "n@mut.ac.za"
           mail_down 2 (staff_db ["A0"; "A1"])).
  - reflexivity.
  - reflexivity.
  - reflexivity.
  - reflexivity.
  - lia.
  - vm_compute; reflexivity.
  - intros j Hj. destruct j as [|[|j]]; [reflexivity|reflexivity|lia].
Defined.

Lemma reactivate_gate_witness :
  status_of (fst (post_reactivate_student eqb_ci like_ci 110 "202312345"
                    (db_student "inactive"))) = Some 200 /\
  status_of (fst (post_reactivate_student eqb_ci like_ci 111 "202312345"
                    (db_student "inactive"))) = Some 400 /\
  snd (post_reactivate_student eqb_ci like_ci 111 "202312345" (db_student "inactive"))
    = db_student "inactive" /\
  post_reactivate_student eqb_ci like_ci 111 "202312345" db_new_student =
    (Some no_activity_records, db_new_student).
Proof.
  split; [|split; [|split]].
  - destruct (reactivate_gate eqb_ci like_ci 110 "202312345" (db_student "inactive")
                (thabo_account "inactive") []) as (_ & _ & H);
      [vm_compute; reflexivity|].
    apply (H 100); [vm_compute; reflexivity|lia].
  - destruct (reactivate_gate eqb_ci like_ci 111 "202312345" (db_student "inactive")
                (thabo_account "inactive") []) as (_ & H & _);
      [vm_compute; reflexivity|].
    apply (H 100); [vm_compute; reflexivity|lia].
  - destruct (reactivate_gate eqb_ci like_ci 111 "202312345" (db_student "inactive")
                (thabo_account "inactive") []) as (_ & H & _);
      [vm_compute; reflexivity|].
    apply (H 100); [vm_compute; reflexivity|lia].
  - destruct (reactivate_gate eqb_ci like_ci 111 "202312345" db_new_student
                (thabo_account "active") []) as (H & _);
      [vm_compute; reflexivity|].
    apply H. vm_compute; reflexivity.
Defined.

Lemma reactivate_agrees_with_recompute_witness :
  let d1 := snd (post_reactivate_student eqb_ci like_ci 105 "202312345"
                   (db_student "suspended")) in
  stored_status like_ci "202312345" d1 = Some (Some "active") /\
  exists r,
    post_update_student_status eqb_ci like_ci 105 "202312345" d1 = (Some r, d1) /\
    field "status_changed" r = Some (JBool false).
Proof.
  intros d1. split; [vm_compute; reflexivity|].
  destruct (reactivate_agrees_with_recompute eqb_ci like_ci 105 "202312345"
              (db_student "suspended") (thabo_account "suspended") [])
    as [_ H]; [vm_compute; reflexivity|].
  apply H. vm_compute; reflexivity.
Defined.

Lemma enroll_skips_gate_recompute_reverts_witness :
  let d1 := snd (post_enroll_student like_ci None "202312345" (db_student "suspended")) in
  Forall (fun r => su_status r = Some "active") (student_rows like_ci "202312345" d1) /\
  Forall (fun r => su_status r = Some "inactive")
    (student_rows like_ci "202312345"
       (snd (post_update_student_status eqb_ci like_ci 120 "202312345" d1))).
Proof.
  intros d1.
  destruct (enroll_skips_gate_recompute_reverts eqb_ci like_ci 120 "202312345" None
              (db_student "suspended") (thabo_account "suspended") [])
    as (_ & Hact & r & _ & _ & Hinact);
    [vm_compute; reflexivity|vm_compute; reflexivity|].
  split; assumption.
Defined.

Lemma unknown_student_is_404_witness :
  post_suspend_student like_ci None "200000000" (db_student "active") =
    (Some student_not_found, db_student "active") /\
  post_update_student_status eqb_ci like_ci 105 "200000000" (db_student "active") =
    (Some student_not_found, db_student "active").
Proof.
  destruct (unknown_student_is_404 eqb_ci like_ci 105 "200000000" None
              (db_student "active")) as (H1 & _ & _ & _ & H5 & _);
    [vm_compute; reflexivity|].
  split; [exact H1|exact H5].
Defined.

Lemma activate_is_enroll_without_mail_witness :
  snd (post_activate_student like_ci (Some "202312345") (db_student "suspended")) =
    snd (post_enroll_student like_ci (Some mail_down) "202312345"
           (db_student "suspended")) /\
  status_of (fst (post_activate_student like_ci (Some "202312345")
                    (db_student "suspended"))) = Some 200.
Proof.
  destruct (activate_is_enroll_without_mail like_ci "202312345" (Some mail_down)
              (db_student "suspended")) as [H1 H2]; [reflexivity|].
  split; [exact H1|]. rewrite H2. vm_compute. reflexivity.
Defined.

Lemma eqb_ci_refl (x : string) : eqb_ci x x = true.
Proof. unfold eqb_ci. apply String.eqb_refl. Qed.

Lemma sweep_leaves_no_stale_active_witness :
  let d' := snd (post_update_status_for_inactive_students eqb_ci 105 db_sweep) in
  map su_status (student_users d') =
    [Some "active"; Some "inactive"; Some "suspended"] /\
  forall r', In r' (student_users d') -> active_now eqb_ci r' = true ->
    exists l, last_log_date eqb_ci (before_at (su_email r')) d' = Some l /\
              105 - l <= 10.
Proof.
  intros d'. split; [vm_compute; reflexivity|].
  apply (sweep_leaves_no_stale_active eqb_ci 105 db_sweep eqb_ci_refl).
  vm_compute; reflexivity.
Defined.

Lemma sweep_twice_is_noop_witness :
  let out := post_update_status_for_inactive_students eqb_ci 105 db_sweep in
  updated_students (fst out) = ["202399999"] /\
  snd (post_update_status_for_inactive_students eqb_ci 105 (snd out)) = snd out /\
  updated_students
    (fst (post_update_status_for_inactive_students eqb_ci 105 (snd out))) = [].
Proof.
  intros out. split; [vm_compute; reflexivity|].
  apply (sweep_twice_is_noop eqb_ci 105 db_sweep eqb_ci_refl).
  vm_compute; reflexivity.
Defined.

Lemma toggle_status_twice_restores_witness :
  let d1 := snd (put_toggle_status 7 db_event) in
  map gl_register_status (guest_lectures d1) = ["inactive"] /\
  snd (put_toggle_status 7 d1) = db_event.
Proof.
  intros d1. split; [vm_compute; reflexivity|].
  destruct (toggle_status_twice_restores 7 db_event lecture7 []) as (_ & _ & H);
    [reflexivity|].
  apply H; [reflexivity|left; reflexivity].
Defined.

Lemma toggle_status_gates_registration_witness :
  let d1 := snd (put_toggle_status 7 db_event) in
  post_lectures_register eqb_ci 150 (Some 7) (Some "202312345") d1 =
    (Some (forbidden "Registration is not active for this event"), d1).
Proof.
  intros d1.
  destruct (toggle_status_gates_registration eqb_ci 150 7 "202312345" db_event
              lecture7 []) as [H _]; [lia|reflexivity|reflexivity|].
  apply H. reflexivity.
Defined.

Lemma staff_and_mentor_signup_atomic_witness :
  post_staff_Signup eqb_ci calm staff_signup_A0 site_issued =
    (Some staff_registered,
     staff_redeemed eqb_ci "nomsa@mut.ac.za" "Dr" "$2a$10$pw" "A0" site_issued) /\
  post_mentor_signup eqb_ci calm staff_signup_A0 site_issued =
    (Some mentor_registered,
     mentor_redeemed eqb_ci "nomsa@mut.ac.za" "Dr" "$2a$10$pw" "A0" site_issued).
Proof.
  destruct (staff_and_mentor_signup_atomic eqb_ci calm staff_signup_A0 "A0"
              site_issued eq_refl) as [Hs Hm].
  split.
  - destruct Hs as [(e & t & p & He & Ht & Hp & H) | [H _]].
    + injection He as <-. injection Ht as <-. injection Hp as <-. exact H.
    + exfalso. apply H. vm_compute. reflexivity.
  - destruct Hm as [(e & t & p & He & Ht & Hp & H) | [H _]].
    + injection He as <-. injection Ht as <-. injection Hp as <-. exact H.
    + exfalso. apply H. vm_compute. reflexivity.
Defined.

Lemma staff_code_is_single_use_witness :
  let s1 := snd (post_mentor_signup eqb_ci calm staff_signup_A0 site_issued) in
  post_staff_Signup eqb_ci calm staff_signup_A0 s1 = (Some invalid_code, s1).
Proof.
  intros s1.
  destruct (staff_code_is_single_use eqb_ci calm calm staff_signup_A0 staff_signup_A0
              "A0" site_issued eq_refl eq_refl eq_refl eq_refl eq_refl) as [_ H].
  destruct H as [H _]; [vm_compute; reflexivity|].
  exact H.
Defined.

Lemma issued_staff_code_redeems_witness :
  let s1 := snd (on_main (post_staff_codes eqb_ci counting_generator (Some "Nomsa")
                            (Some "n@mut.ac.za")) site_issued) in
  fst (post_staff_Signup eqb_ci calm staff_signup_A2 s1) = Some staff_registered /\
  staff_code_rows eqb_ci "A2" (snd (post_staff_Signup eqb_ci calm staff_signup_A2 s1))
    = [].
Proof.
  destruct (issued_staff_code_redeems eqb_ci counting_generator "Nomsa" "n@mut.ac.za"
              2 site_issued calm staff_signup_A2 "nomsa@mut.ac.za" "Dr" "pw")
    as (_ & H2 & H3 & _).
  - reflexivity.
  - reflexivity.
  - reflexivity.
  - lia.
  - vm_compute; reflexivity.
  - intros j Hj. destruct j as [|[|j]]; [reflexivity|reflexivity|lia].
  - vm_compute; reflexivity.
  - reflexivity.
  - intros s; reflexivity.
  - reflexivity.
  - reflexivity.
  - reflexivity.
  - reflexivity.
  - reflexivity.
  - intros s1. split; [exact H2|exact H3].
Defined.

Lemma event_code_first_fresh_witness :
  post_create_event_code eqb_ci 2 counting_events (Some "Guest") (Some "g@mut.ac.za")
    site_issued =
    Some (Some (event_code_created "E2" "g@mut.ac.za"),
          with_event_codes
            (event_codes site_issued ++ [event_row "E2" "Guest" "g@mut.ac.za"])
            site_issued).
Proof.
  destruct (event_code_first_fresh eqb_ci counting_events "Guest" "g@mut.ac.za" 2 2
              site_issued) as [H _].
  - reflexivity.
  - reflexivity.
  - vm_compute; reflexivity.
  - intros j Hj. destruct j as [|[|j]]; [reflexivity|reflexivity|lia].
  - lia.
  - apply H. reflexivity.
Defined.

Lemma event_code_loop_unbounded_witness :
  post_create_event_code eqb_ci 1000 stuck_events (Some "Guest") (Some "g@mut.ac.za")
    site_issued = None.
Proof.
  apply (event_code_loop_unbounded eqb_ci stuck_events "Guest" "g@mut.ac.za"
           site_issued); [reflexivity|reflexivity|].
  intros k. reflexivity.
Defined.

Lemma issued_event_code_validates_witness :
  let s' := with_event_codes
              (event_codes site_issued ++ [event_row "E2" "Guest" "g@mut.ac.za"])
              site_issued in
  post_create_event_code eqb_ci 2 counting_events (Some "Guest") (Some "g@mut.ac.za")
    site_issued = Some (Some (event_code_created "E2" "g@mut.ac.za"), s') /\
  post_validate_event_code eqb_ci (Some "E2") s' =
    (Some (event_code_valid (event_row "E2" "Guest" "g@mut.ac.za")), s').
Proof.
  intros s'.
  assert (Hrun : post_create_event_code eqb_ci 2 counting_events (Some "Guest")
                   (Some "g@mut.ac.za") site_issued =
                 Some (Some (event_code_created "E2" "g@mut.ac.za"), s'))
    by (vm_compute; reflexivity).
  split; [exact Hrun|].
  apply (issued_event_code_validates eqb_ci counting_events "Guest" "g@mut.ac.za" 2 2
           site_issued s' (Some (event_code_created "E2" "g@mut.ac.za"))).
  - reflexivity.
  - reflexivity.
  - vm_compute; reflexivity.
  - intros j Hj. destruct j as [|[|j]]; [reflexivity|reflexivity|lia].
  - lia.
  - vm_compute; reflexivity.
  - reflexivity.
  - reflexivity.
  - exact Hrun.
Defined.
